(** * TuiOS menu maker: the menu tree, its flattened view and its mutations

    A shallow embedding of the domain core of [main.py] (class [MenuMaker]):
    the persisted document, the category tree, the flattened display list
    the cursor moves over, and the operations that edit the tree.  Widgets,
    styling and key bindings are presentation and are left out; what stays
    is every statement of the source that reads or writes [menu_data],
    [display_items], [current_index], the settings, the configuration file
    or the notification area. *)

From Stdlib Require Import Ascii.
From stdpp Require Import base decidable option strings numbers list.

Local Open Scope Z_scope.
Local Set Warnings "-register-all".

(** ** Data model *)

(** A menu item: the Python dict [{"label", "cmd", "info", "category",
    "pause"}].  The built-in sample item carries no ["pause"] key, the edit
    form always writes one, so that key is optional.  The other keys are
    always there, in items and in categories alike: the defaults the
    source passes to [.get] are not modelled. *)
Record item := Item {
  label : string;
  cmd : string;
  info : string;
  category : string;
  pause : option bool
}.

(** The value stored under a category name: [{"expanded": .., "items": ..}]. *)
Record category_data := Category {
  expanded : bool;
  items : list item
}.

Global Instance item_eq_dec : EqDecision item.
Proof. solve_decision. Defined.

Global Instance category_data_eq_dec : EqDecision category_data.
Proof. solve_decision. Defined.

(** ** Insertion-ordered dictionaries

    [menu_data] is a Python [dict] keyed by category name.  Iteration order
    is insertion order, an assignment to an existing key keeps the position
    of the key, an assignment to a new key appends, and [==] compares the
    two dicts as mappings, whatever the order. *)
Section ordered_dict.
Context {V : Type} `{!EqDecision V}.

Fixpoint dict_get (k : string) (d : list (string * V)) : option V :=
  match d with
  | [] => None
  | (k', v) :: rest => if decide (k = k') then Some v else dict_get k rest
  end.

(** [k in d] *)
Definition dict_mem (k : string) (d : list (string * V)) : bool :=
  match dict_get k d with Some _ => true | None => false end.

(** [d[k] = v] *)
Fixpoint dict_set (k : string) (v : V) (d : list (string * V))
  : list (string * V) :=
  match d with
  | [] => [(k, v)]
  | (k', v') :: rest =>
      if decide (k = k') then (k', v) :: rest
      else (k', v') :: dict_set k v rest
  end.

(** [del d[k]] (the callers test [k in d] first) *)
Fixpoint dict_del (k : string) (d : list (string * V)) : list (string * V) :=
  match d with
  | [] => []
  | (k', v') :: rest =>
      if decide (k = k') then rest else (k', v') :: dict_del k rest
  end.

(** [d1 == d2] on dicts: same number of keys, and every key of [d1] is
    bound to an equal value in [d2]. *)
Definition dict_eqb (d1 d2 : list (string * V)) : bool :=
  bool_decide (length d1 = length d2) &&
  forallb (fun kv => match dict_get kv.1 d2 with
                     | Some v' => bool_decide (kv.2 = v')
                     | None => false
                     end) d1.
End ordered_dict.

(** The category tree. *)
Abbreviation menu := (list (string * category_data)).

(** ** The flattened display list *)

(** One entry of [display_items]: [{"type": "category", "name": ..}] or
    [{"type": "item", "data": ..}] (the ["widget"] field is presentation). *)
Inductive display_entry :=
  | DCategory (name : string)
  | DItem (data : item).

Global Instance display_entry_eq_dec : EqDecision display_entry.
Proof. solve_decision. Defined.

(** Body of the outer [for] loop of [update_menu_display]: append the
    header, then, when the category is expanded, one entry per item. *)
Definition display_step (acc : list display_entry)
    (kv : string * category_data) : list display_entry :=
  let category_name := kv.1 in
  let category := kv.2 in
  let is_expanded := expanded category in
  let acc := acc ++ [DCategory category_name] in
  if is_expanded
  then fold_left (fun a it => a ++ [DItem it]) (items category) acc
  else acc.

(** The loop itself, started on the current content of [display_items]. *)
Definition build_display (m : menu) (acc : list display_entry)
  : list display_entry :=
  fold_left display_step m acc.

Definition flatten (m : menu) : list display_entry := build_display m [].

(** What one category contributes, in the words of the specification:
    its header, followed by its items exactly when it is expanded. *)
Definition category_block (kv : string * category_data) : list display_entry :=
  DCategory kv.1 :: (if expanded kv.2 then (DItem <$> items kv.2) else []).

(** The names of the header entries of a display list, in order. *)
Definition headers (d : list display_entry) : list string :=
  omap (fun e => match e with DCategory n => Some n | DItem _ => None end) d.

(** ** Application state *)

Inductive severity := information | warning | error.

(** One call of [self.notify(message, severity=..)]. *)
Record notification := Notification {
  note_severity : severity;
  note_message : string
}.

(** The JSON object stored under ["app_settings"]; a hand-written file may
    leave either key out. *)
Record settings_object := SettingsObject {
  so_theme : option string;
  so_title : option string
}.

(** A JSON document that [json.load] accepts, read at the keys
    [load_menu_data] looks at; both top-level keys are optional. *)
Record document := Document {
  doc_categories : option menu;
  doc_app_settings : option settings_object
}.

(** The configuration file [menus.json].  [Corrupt raw] is any content on
    which the [try] block of [load_menu_data] raises before its first
    assignment: an unreadable file, or text that [json.load] rejects (the
    empty file among them).  [Stored d] is a file holding the document [d];
    [json.dump] followed by [json.load] gives back the values it was given,
    which is what storing the document itself (not its text) records. *)
Inductive file :=
  | Absent
  | Corrupt (raw : string)
  | Stored (d : document).

(** The fields of [MenuMaker] the domain code reads or writes.
    [menu_container] tells whether the container widget exists (it does once
    the application is composed); [disk_writable] tells whether opening the
    configuration file for writing succeeds; [scheduled] counts the
    [update_highlighting] callbacks queued by [call_later]. *)
Record app := App {
  menu_data : menu;
  current_index : Z;
  display_items : list display_entry;
  menu_container : bool;
  app_theme : string;
  app_title : string;
  config_file : file;
  disk_writable : bool;
  notifications : list notification;
  scheduled : nat
}.

Definition with_menu_data (v : menu) (st : app) : app :=
  App v (current_index st) (display_items st) (menu_container st)
      (app_theme st) (app_title st) (config_file st) (disk_writable st)
      (notifications st) (scheduled st).

Definition with_current_index (v : Z) (st : app) : app :=
  App (menu_data st) v (display_items st) (menu_container st)
      (app_theme st) (app_title st) (config_file st) (disk_writable st)
      (notifications st) (scheduled st).

Definition with_display_items (v : list display_entry) (st : app) : app :=
  App (menu_data st) (current_index st) v (menu_container st)
      (app_theme st) (app_title st) (config_file st) (disk_writable st)
      (notifications st) (scheduled st).

Definition with_menu_container (v : bool) (st : app) : app :=
  App (menu_data st) (current_index st) (display_items st) v
      (app_theme st) (app_title st) (config_file st) (disk_writable st)
      (notifications st) (scheduled st).

Definition with_app_theme (v : string) (st : app) : app :=
  App (menu_data st) (current_index st) (display_items st) (menu_container st)
      v (app_title st) (config_file st) (disk_writable st)
      (notifications st) (scheduled st).

Definition with_app_title (v : string) (st : app) : app :=
  App (menu_data st) (current_index st) (display_items st) (menu_container st)
      (app_theme st) v (config_file st) (disk_writable st)
      (notifications st) (scheduled st).

Definition with_config_file (v : file) (st : app) : app :=
  App (menu_data st) (current_index st) (display_items st) (menu_container st)
      (app_theme st) (app_title st) v (disk_writable st)
      (notifications st) (scheduled st).

Definition with_notifications (v : list notification) (st : app) : app :=
  App (menu_data st) (current_index st) (display_items st) (menu_container st)
      (app_theme st) (app_title st) (config_file st) (disk_writable st)
      v (scheduled st).

Definition with_scheduled (v : nat) (st : app) : app :=
  App (menu_data st) (current_index st) (display_items st) (menu_container st)
      (app_theme st) (app_title st) (config_file st) (disk_writable st)
      (notifications st) v.

(** [self.notify(msg, severity=sev)] *)
Definition notify (msg : string) (sev : severity) (st : app) : app :=
  with_notifications (notifications st ++ [Notification sev msg]) st.

(** [update_status] and [apply_theme] write the status bar and the style
    sheet only. *)
Definition update_status (st : app) : app := st.
Definition apply_theme (theme_name : string) (st : app) : app := st.

(** [self.call_later(self.update_highlighting)] *)
Definition call_later_update_highlighting (st : app) : app :=
  with_scheduled (S (scheduled st)) st.

(** ** Persistence: [save_menu_data] *)

Definition document_of (st : app) : document :=
  Document (Some (menu_data st))
           (Some (SettingsObject (Some (app_theme st)) (Some (app_title st)))).

(** The text of the exception is not modelled: the notification keeps the
    fixed part of the message. *)
Definition save_menu_data (st : app) : app :=
  if disk_writable st
  then with_config_file (Stored (document_of st)) st
  else notify "Error saving menu data" error st.

(** ** Reactive attributes

    [current_index] and [menu_data] are [reactive] attributes: an
    assignment whose value equals the current one does nothing; any other
    assignment stores the value and then runs the watcher, which may assign
    again.  The functions below take a bound [fuel] on the depth of such
    nested calls and return [None] when a call does not complete normally:
    the bound is exhausted, or an index is out of range. *)

(** [max(0, min(i, len(display_items) - 1))] *)
Definition clamp_index (i : Z) (d : list display_entry) : Z :=
  Z.max 0 (Z.min i (Z.of_nat (length d) - 1)).

(** [not xs] on a list *)
Definition is_empty {A} (l : list A) : bool :=
  match l with [] => true | _ => false end.

Fixpoint set_current_index (fuel : nat) (v : Z) (st : app) : option app :=
  match fuel with
  | O => None
  | S fuel =>
      if bool_decide (current_index st = v) then Some st
      else watch_current_index fuel v (with_current_index v st)
  end
with watch_current_index (fuel : nat) (new_index : Z) (st : app) : option app :=
  match fuel with
  | O => None
  | S fuel =>
      if negb (is_empty (display_items st)) then
        st ← set_current_index fuel
               (clamp_index new_index (display_items st)) st;
        st ← update_highlighting fuel st;
        Some (update_status st)
      else set_current_index fuel 0 st
  end
with update_highlighting (fuel : nat) (st : app) : option app :=
  match fuel with
  | O => None
  | S fuel =>
      if is_empty (display_items st) then Some st
      else set_current_index fuel
             (clamp_index (current_index st) (display_items st)) st
  end.

(** The dict built by [cleanup_empty_categories]: the categories that have
    items, inserted in iteration order. *)
Definition nonempty_categories (m : menu) : menu :=
  fold_left (fun updated_data kv =>
               if negb (is_empty (items kv.2))
               then dict_set kv.1 kv.2 updated_data
               else updated_data) m [].

Fixpoint set_menu_data (fuel : nat) (v : menu) (st : app) : option app :=
  match fuel with
  | O => None
  | S fuel =>
      if dict_eqb (menu_data st) v then Some st
      else watch_menu_data fuel (with_menu_data v st)
  end
with watch_menu_data (fuel : nat) (st : app) : option app :=
  match fuel with
  | O => None
  | S fuel =>
      st ← update_menu_display fuel st;
      Some (update_status st)
  end
with update_menu_display (fuel : nat) (st : app) : option app :=
  match fuel with
  | O => None
  | S fuel =>
      if negb (menu_container st) then Some st
      else
        let st := with_display_items [] st in
        st ← cleanup_empty_categories fuel st;
        let st := with_display_items
                    (build_display (menu_data st) (display_items st)) st in
        st ← update_highlighting fuel st;
        Some (call_later_update_highlighting st)
  end
with cleanup_empty_categories (fuel : nat) (st : app) : option app :=
  match fuel with
  | O => None
  | S fuel =>
      let updated_data := nonempty_categories (menu_data st) in
      if negb (dict_eqb updated_data (menu_data st)) then
        st ← set_menu_data fuel updated_data st;
        Some (save_menu_data st)
      else Some st
  end.

(** ** Start-up: [__init__], [load_menu_data], [create_default_menu] *)

Definition default_item : item :=
  Item "System Monitor" "htop" "Interactive process viewer" "System Tools" None.

Definition default_data : menu :=
  [("System Tools", Category true [default_item])].

Definition default_theme : string := "classic".
Definition default_title : string :=
  "Menu Maker — Enhanced Categorized Menu System".

Definition create_default_menu (fuel : nat) (st : app) : option app :=
  st ← set_menu_data fuel default_data st;
  Some (save_menu_data st).

Definition load_settings (s : settings_object) (st : app) : app :=
  let st := match so_theme s with
            | Some t => apply_theme t (with_app_theme t st)
            | None => st
            end in
  match so_title s with
  | Some t => with_app_title t st
  | None => st
  end.

Definition load_menu_data (fuel : nat) (st : app) : option app :=
  match config_file st with
  | Stored data =>
      st ← set_menu_data fuel (default [] (doc_categories data)) st;
      match doc_app_settings data with
      | Some settings => Some (load_settings settings st)
      | None => Some st
      end
  | Absent => create_default_menu fuel st
  | Corrupt _ => create_default_menu fuel st
  end.

(** The fields as [__init__] sets them before it calls [load_menu_data]. *)
Definition init_fields (disk : file) (writable : bool) : app :=
  App [] 0 [] false default_theme default_title disk writable [] 0.

(** [MenuMaker()] *)
Definition new_app (fuel : nat) (disk : file) (writable : bool) : option app :=
  load_menu_data fuel (init_fields disk writable).

(** [compose] creates the container, then [on_mount] draws the menu. *)
Definition on_mount (fuel : nat) (st : app) : option app :=
  st ← update_menu_display fuel (with_menu_container true st);
  Some (update_status st).

(** ** Mutations

    Every mutation starts with [updated_data = dict(self.menu_data)]: a new
    outer dict over the same category dicts, item lists and items.  A store
    into a category dict, an item list or an item is therefore seen through
    [self.menu_data] as well, before the reactive assignment
    [self.menu_data = updated_data] compares the two; a key added to or
    deleted from [updated_data] is not.  Each operation first records what
    [self.menu_data] holds at the assignment ([with_menu_data], no watcher),
    then performs the assignment ([set_menu_data]). *)

(** [xs[i]], with Python's negative indices; [None] is [IndexError]. *)
Definition py_getitem {A} (l : list A) (i : Z) : option A :=
  if bool_decide (0 ≤ i) then l !! Z.to_nat i
  else if bool_decide (- Z.of_nat (length l) ≤ i)
       then l !! Z.to_nat (Z.of_nat (length l) + i)
       else None.

(** The guard that opens the cursor actions:
    [not self.display_items or self.current_index >= len(self.display_items)] *)
Definition no_selection (st : app) : bool :=
  is_empty (display_items st) ||
  bool_decide (Z.of_nat (length (display_items st)) ≤ current_index st).

(** *** [action_toggle_category] and [restore_position_to_category] *)

(** Index of the first header entry named [category_name], counting from [i]. *)
Fixpoint find_category_entry (category_name : string)
    (d : list display_entry) (i : Z) : option Z :=
  match d with
  | [] => None
  | DCategory name :: rest =>
      if decide (name = category_name) then Some i
      else find_category_entry category_name rest (i + 1)
  | DItem _ :: rest => find_category_entry category_name rest (i + 1)
  end.

Definition restore_position_to_category (fuel : nat) (category_name : string)
    (st : app) : option app :=
  match find_category_entry category_name (display_items st) 0 with
  | Some i => set_current_index fuel i st
  | None => Some st
  end.

Definition action_toggle_category (fuel : nat) (st : app) : option app :=
  if no_selection st then Some st
  else
    current_item ← py_getitem (display_items st) (current_index st);
    match current_item with
    | DCategory category_name =>
        match dict_get category_name (menu_data st) with
        | Some cd =>
            let selected_category := category_name in
            let current_state := expanded cd in
            let updated_data :=
              dict_set category_name
                       (Category (negb current_state) (items cd))
                       (menu_data st) in
            (* the flag is written into the shared category dict *)
            let st := with_menu_data updated_data st in
            st ← set_menu_data fuel updated_data st;
            let st := save_menu_data st in
            st ← update_menu_display fuel st;
            restore_position_to_category fuel selected_category st
        | None => Some st
        end
    | DItem _ => Some st
    end.

(** *** [add_new_item] *)

(** [d[category]['items'].append(item_data)] *)
Definition append_item (category_name : string) (item_data : item)
    (d : menu) : menu :=
  match dict_get category_name d with
  | Some cd =>
      dict_set category_name
               (Category (expanded cd) (items cd ++ [item_data])) d
  | None => d
  end.

Definition add_new_item (fuel : nat) (item_data : item) (st : app)
  : option app :=
  let category_name := category item_data in
  let is_new := negb (dict_mem category_name (menu_data st)) in
  let updated_data :=
    if is_new then dict_set category_name (Category true []) (menu_data st)
    else menu_data st in
  let updated_data := append_item category_name item_data updated_data in
  (* an existing category's list is shared, a new category is in the copy
     only *)
  let st := if is_new then st else with_menu_data updated_data st in
  st ← set_menu_data fuel updated_data st;
  let st := save_menu_data st in
  st ← update_menu_display fuel st;
  Some (notify ("Added: " +:+ label item_data) information st).

(** *** [update_item] *)

(** The test of the inner loop: same label and same command. *)
Definition same_label_cmd (old_label old_cmd : string) (it : item) : bool :=
  bool_decide (label it = old_label) && bool_decide (cmd it = old_cmd).

(** The inner loop: index of the first matching item of one list. *)
Fixpoint first_match (old_label old_cmd : string) (l : list item) (i : nat)
  : option nat :=
  match l with
  | [] => None
  | it :: rest =>
      if same_label_cmd old_label old_cmd it then Some i
      else first_match old_label old_cmd rest (S i)
  end.

(** Both loops: the tree after [items[i] = new_item] at the first match in
    category order, or [None] when the loops end without a match. *)
Fixpoint replace_first_match (old_label old_cmd : string) (new_item : item)
    (m : menu) : option menu :=
  match m with
  | [] => None
  | (category_name, cd) :: rest =>
      match first_match old_label old_cmd (items cd) 0 with
      | Some i =>
          Some ((category_name,
                 Category (expanded cd) (<[i := new_item]> (items cd)))
                :: rest)
      | None =>
          rest' ← replace_first_match old_label old_cmd new_item rest;
          Some ((category_name, cd) :: rest')
      end
  end.

Definition update_item (fuel : nat) (old_item new_item : item) (st : app)
  : option app :=
  let old_label := label old_item in
  let old_cmd := cmd old_item in
  match replace_first_match old_label old_cmd new_item (menu_data st) with
  | Some updated_data =>
      (* the slot is written in the shared item list *)
      let st := with_menu_data updated_data st in
      st ← set_menu_data fuel updated_data st;
      let st := save_menu_data st in
      st ← update_menu_display fuel st;
      Some (notify ("Updated: " +:+ label new_item) information st)
  | None =>
      Some (notify ("Item not found for update: " +:+ old_label) warning st)
  end.

(** *** [rename_category] *)

(** [item['category'] = new_name] *)
Definition set_category (new_name : string) (it : item) : item :=
  Item (label it) (cmd it) (info it) new_name (pause it).

Definition rename_category (fuel : nat) (old_name new_name : string)
    (st : app) : option app :=
  if negb (dict_mem old_name (menu_data st)) || bool_decide (new_name = old_name)
  then Some st
  else
    match dict_get old_name (menu_data st) with
    | None => Some st
    | Some cd =>
        let renamed := set_category new_name <$> items cd in
        (* the items are shared with the old category dict, which sees the
           new category strings too *)
        let shared :=
          dict_set old_name (Category (expanded cd) renamed) (menu_data st) in
        let category := Category (expanded cd) renamed in
        let updated_data := dict_set new_name category shared in
        let updated_data := dict_del old_name updated_data in
        let st := with_menu_data shared st in
        st ← set_menu_data fuel updated_data st;
        let st := save_menu_data st in
        st ← update_menu_display fuel st;
        Some (notify ("Renamed category: " +:+ old_name +:+ " → " +:+ new_name)
                     information st)
    end.

(** *** [action_delete_item] *)

(** [xs.remove(x)]: drop the first element equal to [x]. *)
Fixpoint list_remove_first (x : item) (l : list item) : list item :=
  match l with
  | [] => []
  | y :: rest => if decide (x = y) then rest else y :: list_remove_first x rest
  end.

Definition action_delete_item (fuel : nat) (st : app) : option app :=
  if no_selection st then Some st
  else
    current_item ← py_getitem (display_items st) (current_index st);
    match current_item with
    | DItem item_data =>
        let category_name := category item_data in
        match dict_get category_name (menu_data st) with
        | Some cd =>
            if bool_decide (item_data ∈ items cd) then
              let remaining := list_remove_first item_data (items cd) in
              (* the item leaves the shared list *)
              let shared :=
                dict_set category_name (Category (expanded cd) remaining)
                         (menu_data st) in
              let updated_data :=
                if is_empty remaining then dict_del category_name shared
                else shared in
              let st := with_menu_data shared st in
              st ← set_menu_data fuel updated_data st;
              let st := save_menu_data st in
              st ← update_menu_display fuel st;
              let st := notify ("Deleted: " +:+ label item_data)
                               information st in
              if bool_decide (Z.of_nat (length (display_items st)) - 1
                              ≤ current_index st)
              then set_current_index fuel
                     (Z.max 0 (Z.of_nat (length (display_items st)) - 2)) st
              else Some st
            else Some st
        | None => Some st
        end
    | DCategory _ =>
        Some (notify "Cannot delete categories directly" warning st)
    end.

(** *** [action_cursor_up], [action_cursor_down] *)

Definition action_cursor_up (fuel : nat) (st : app) : option app :=
  if negb (is_empty (display_items st)) then
    let new_index := Z.max 0 (current_index st - 1) in
    if bool_decide (new_index ≠ current_index st)
    then set_current_index fuel new_index st
    else Some st
  else Some st.

Definition action_cursor_down (fuel : nat) (st : app) : option app :=
  if negb (is_empty (display_items st)) then
    let new_index :=
      Z.min (Z.of_nat (length (display_items st)) - 1) (current_index st + 1) in
    if bool_decide (new_index ≠ current_index st)
    then set_current_index fuel new_index st
    else Some st
  else Some st.

(** *** The five mutations of the tree *)

Inductive mutation :=
  | AddItem (item_data : item)
  | UpdateItem (old_item new_item : item)
  | DeleteItem
  | RenameCategory (old_name new_name : string)
  | ToggleCategory.

Definition mutate (fuel : nat) (mu : mutation) (st : app) : option app :=
  match mu with
  | AddItem item_data => add_new_item fuel item_data st
  | UpdateItem old_item new_item => update_item fuel old_item new_item st
  | DeleteItem => action_delete_item fuel st
  | RenameCategory old_name new_name =>
      rename_category fuel old_name new_name st
  | ToggleCategory => action_toggle_category fuel st
  end.



(** Where an assignment [self.current_index = v] leaves the cursor. *)
Definition settled_index (v : Z) (st : app) : Z :=
  if bool_decide (current_index st = v) then v
  else if is_empty (display_items st) then 0
       else clamp_index v (display_items st).

(** ** Well-formed states *)

(** A dict binds each key once; once the menu has been drawn no category
    is left without items. *)
Definition wf_menu (m : menu) : Prop :=
  NoDup m.*1 ∧ Forall (fun kv => items kv.2 ≠ []) m.

(** The cursor lies within the display list, or is 0 when the list is
    empty. *)
Definition cursor_in_range (i : Z) (d : list display_entry) : Prop :=
  if is_empty d then i = 0 else 0 ≤ i ≤ Z.of_nat (length d) - 1.

(** The states the key handlers run in: the application is mounted, the
    tree is well formed, and the display list and the cursor are those of
    the last redraw. *)
Definition consistent (st : app) : Prop :=
  menu_container st = true ∧
  wf_menu (menu_data st) ∧
  display_items st = flatten (menu_data st) ∧
  cursor_in_range (current_index st) (display_items st).

Global Instance cursor_in_range_dec i d : Decision (cursor_in_range i d).
Proof. unfold cursor_in_range. destruct (is_empty d); apply _. Defined.

Global Instance wf_menu_dec m : Decision (wf_menu m).
Proof. unfold wf_menu. apply _. Defined.

Global Instance consistent_dec st : Decision (consistent st).
Proof. unfold consistent. apply _. Defined.

(** The cursor after [update_highlighting] on the display list [d]. *)
Definition highlighted_index (i : Z) (d : list display_entry) : Z :=
  if is_empty d then i else clamp_index i d.

(** The state a redraw of the tree [v] leaves, [n] callbacks later: the
    tree stored and saved, the display list rebuilt, the cursor clamped. *)
Definition committed (v : menu) (n : nat) (st : app) : app :=
  with_scheduled (scheduled st + n)
    (with_current_index (highlighted_index (current_index st) (flatten v))
       (with_display_items (flatten v)
          (save_menu_data (with_menu_data v st)))).

(** [set_menu_data], [save_menu_data], [update_menu_display] in a row, as
    every mutation runs them. *)
Definition commit (fuel : nat) (v : menu) (st : app) : option app :=
  st ← set_menu_data fuel v st;
  update_menu_display fuel (save_menu_data st).

(** The tree after the selected item has left the list of the category
    its category field names. *)
Definition tree_without (it : item) (cd : category_data) (m : menu) : menu :=
  let remaining := list_remove_first it (items cd) in
  if is_empty remaining then dict_del (category it) m
  else dict_set (category it) (Category (expanded cd) remaining) m.


(** The document written at first start. *)
Definition default_document : document :=
  Document (Some default_data)
           (Some (SettingsObject (Some default_theme) (Some default_title))).

(** ** Sample sessions *)

(** The application right after its first start without a configuration
    file, mounted, the cursor on the header of "System Tools". *)
Definition first_start : app :=
  App default_data 0 [DCategory "System Tools"; DItem default_item] true
      default_theme default_title (Stored default_document) true [] 1.

(** The sample item as the edit form returns it when only the category
    field is changed to "Utils". *)
Definition refiled_item : item :=
  Item "System Monitor" "htop" "Interactive process viewer" "Utils"
       (Some false).

(** [first_start] after: cursor down onto the sample item, edit, category
    changed to "Utils", save.  The item stays in the list of "System
    Tools". *)
Definition refiled_state : app :=
  App [("System Tools", Category true [refiled_item])] 1
      [DCategory "System Tools"; DItem refiled_item] true
      default_theme default_title
      (Stored (Document
                 (Some [("System Tools", Category true [refiled_item])])
                 (Some (SettingsObject (Some default_theme)
                                       (Some default_title)))))
      true
      [Notification information "Updated: System Monitor"] 2.

(** Two shortcuts with the same label and command, filed under "Net" and
    under "Admin". *)
Definition ping_net : item := Item "Ping" "ping -c 3 host" "" "Net" (Some false).
Definition ping_admin : item :=
  Item "Ping" "ping -c 3 host" "" "Admin" (Some false).

(** The key presses that lead from [first_start] to a tree in which the
    list of "Net" holds an item whose category field reads "Admin", next
    to an equal item in the list of "Admin": add the two shortcuts, move
    the cursor onto the one under "Net", edit it and change its category
    field to "Admin". *)
Definition twin_session (fuel : nat) : option app :=
  st ← add_new_item fuel ping_net first_start;
  st ← add_new_item fuel ping_admin st;
  st ← action_cursor_down fuel st;
  st ← action_cursor_down fuel st;
  st ← action_cursor_down fuel st;
  update_item fuel ping_net ping_admin st.

Definition twin_tree : menu :=
  [("System Tools", Category true [default_item]);
   ("Net", Category true [ping_admin]);
   ("Admin", Category true [ping_admin])].

(** The reading of claim C10 on which the item under the cursor sits in
    the list of category [k] while its category field names another
    category: the deletion is then said to change neither the tree nor the
    notifications. *)
Definition delete_of_misfiled_item_is_silent : Prop :=
  ∀ fuel st (m1 m2 : menu) k c l1 l2 it st',
    consistent st →
    menu_data st = m1 ++ (k, c) :: m2 →
    expanded c = true →
    items c = l1 ++ it :: l2 →
    current_index st = Z.of_nat (length (flatten m1) + 1 + length l1) →
    category it ≠ k →
    action_delete_item fuel st = Some st' →
    menu_data st' = menu_data st ∧ notifications st' = notifications st.

(** The state [twin_session] ends in, the cursor on the item in the list
    of "Net". *)
Definition twin_state : app :=
  App twin_tree 3 (flatten twin_tree) true default_theme default_title
      (Stored (Document (Some twin_tree)
                 (Some (SettingsObject (Some default_theme)
                                       (Some default_title)))))
      true
      [Notification information "Added: Ping";
       Notification information "Added: Ping";
       Notification information "Updated: Ping"] 6.

(** [twin_session] just before the edit: "Net" and "Admin" each hold a
    "Ping" shortcut filed under its own name. *)
Definition before_edit_tree : menu :=
  [("System Tools", Category true [default_item]);
   ("Net", Category true [ping_net]);
   ("Admin", Category true [ping_admin])].

Definition before_edit_state : app :=
  App before_edit_tree 3 (flatten before_edit_tree) true
      default_theme default_title
      (Stored (Document (Some before_edit_tree)
                 (Some (SettingsObject (Some default_theme)
                                       (Some default_title)))))
      true
      [Notification information "Added: Ping";
       Notification information "Added: Ping"] 5.

(** ** Sessions *)

(** A configuration file the application can start from without losing
    the invariant: a stored tree binds each category once and lists no
    empty category. *)
Definition loadable (disk : file) : Prop :=
  match disk with
  | Stored d => wf_menu (default [] (doc_categories d))
  | Absent | Corrupt _ => True
  end.

(** One key press handled to the end. *)
Inductive handles : app → app → Prop :=
  | handles_mutation fuel mu st st' :
      (11 ≤ fuel)%nat → mutate fuel mu st = Some st' → handles st st'
  | handles_cursor_up fuel st st' :
      (11 ≤ fuel)%nat → action_cursor_up fuel st = Some st' → handles st st'
  | handles_cursor_down fuel st st' :
      (11 ≤ fuel)%nat → action_cursor_down fuel st = Some st' → handles st st'.

(** The states of a session: the application is created and mounted, then
    handles key presses. *)
Inductive reachable : app → Prop :=
  | reachable_start fuel disk w st :
      (11 ≤ fuel)%nat → loadable disk →
      (st ← new_app fuel disk w; on_mount fuel st) = Some st →
      reachable st
  | reachable_next st st' :
      reachable st → handles st st' → reachable st'.

(** ** The modal screens and their callbacks

    A modal screen ends with [self.dismiss(result)]; the application runs
    the callback it gave to [push_screen] on that result.  The text typed
    into an [Input] reaches the model after [.strip()]. *)

(** What [EditItemScreen] and [EditCategoryScreen] dismiss with. *)
Inductive edit_result :=
  | SaveItem (data : item)
  | SaveCategory (old_name new_name : string)
  | CancelEdit.

(** [EditItemScreen.action_save], on the stripped texts of the four inputs
    and the state of the check box. *)
Definition edit_item_screen_save (label_text cmd_text info_text category_text
    : string) (pause_checkbox : bool) : edit_result :=
  SaveItem (Item label_text cmd_text info_text
                 (if bool_decide (category_text = "") then "General"
                  else category_text)
                 (Some pause_checkbox)).

(** [EditCategoryScreen.action_save], on the stripped text of the input. *)
Definition edit_category_screen_save (old_category_name new_name : string)
  : edit_result :=
  if negb (bool_decide (new_name = "")) &&
     bool_decide (new_name ≠ old_category_name)
  then SaveCategory old_category_name new_name
  else CancelEdit.

(** [action_edit_item] with the result its screen is dismissed with: the
    item screen is pushed for an item, the category screen for a header,
    and each callback acts on a ["save"] only. *)
Definition action_edit_item (fuel : nat) (result : edit_result) (st : app)
  : option app :=
  if no_selection st then Some st
  else
    current_item ← py_getitem (display_items st) (current_index st);
    match current_item with
    | DItem item_data =>
        match result with
        | SaveItem data => update_item fuel item_data data st
        | _ => Some st
        end
    | DCategory category_name =>
        match result with
        | SaveCategory old_name new_name =>
            rename_category fuel old_name new_name st
        | _ => Some st
        end
    end.

(** [action_new_item] with the result of its screen. *)
Definition action_new_item (fuel : nat) (result : edit_result) (st : app)
  : option app :=
  match result with
  | SaveItem data => add_new_item fuel data st
  | _ => Some st
  end.

(** *** [EditTitleScreen] and [action_edit_title] *)

Inductive title_result :=
  | SaveTitle (title : string)
  | CancelTitle.

(** [EditTitleScreen.action_save], on the stripped text of the input. *)
Definition edit_title_screen_save (new_title : string) : title_result :=
  if negb (bool_decide (new_title = "")) then SaveTitle new_title
  else CancelTitle.

(** The callback [handle_title_result] ([update_title] writes the header
    only). *)
Definition handle_title_result (result : title_result) (st : app) : app :=
  match result with
  | SaveTitle title =>
      let st := with_app_title title st in
      let st := save_menu_data st in
      notify ("Title updated to: " +:+ title) information st
  | CancelTitle => st
  end.

(** *** [ThemeSelectionScreen] and [action_change_theme] *)

(** One palette of [THEMES]. *)
Record palette := Palette {
  palette_name : string;
  primary : string;
  accent : string;
  bg : string;
  surface : string;
  text : string
}.

Definition THEMES : list (string * palette) :=
  [("classic", Palette "Classic Teal" "#00b4d8" "#00f5ff" "#034e68"
                       "#023047" "#caf0f8");
   ("nord", Palette "Nord Theme" "#5e81ac" "#88c0d0" "#2e3440"
                    "#3b4252" "#eceff4");
   ("gruvbox", Palette "Gruvbox Dark" "#d79921" "#fabd2f" "#282828"
                       "#3c3836" "#fbf1c7");
   ("dracula", Palette "Dracula" "#bd93f9" "#ff79c6" "#282a36"
                       "#44475a" "#f8f8f2");
   ("monokai", Palette "Monokai" "#a6e22e" "#f92672" "#272822"
                       "#383830" "#f8f8f2")].

(** [THEMES.get(theme_name, THEMES["classic"])], the first line of
    [apply_theme]. *)
Definition theme_data (theme_name : string) : option palette :=
  match dict_get theme_name THEMES with
  | Some p => Some p
  | None => dict_get "classic" THEMES
  end.

(** [xs.index(x)], counting from [i]. *)
Fixpoint list_index (x : string) (l : list string) (i : Z) : option Z :=
  match l with
  | [] => None
  | y :: rest => if decide (y = x) then Some i else list_index x rest (i + 1)
  end.

(** The fields of [ThemeSelectionScreen]. *)
Record theme_screen := ThemeScreen {
  current_theme : string;
  selected_index : Z;
  theme_keys : list string
}.

(** [ThemeSelectionScreen.__init__] *)
Definition theme_screen_init (current_theme : string) : theme_screen :=
  let theme_keys := THEMES.*1 in
  let selected_index :=
    if bool_decide (current_theme ∈ theme_keys)
    then default 0 (list_index current_theme theme_keys 0)
    else 0 in
  ThemeScreen current_theme selected_index theme_keys.

Definition theme_cursor_up (s : theme_screen) : theme_screen :=
  ThemeScreen (current_theme s) (Z.max 0 (selected_index s - 1))
              (theme_keys s).

Definition theme_cursor_down (s : theme_screen) : theme_screen :=
  ThemeScreen (current_theme s)
              (Z.min (Z.of_nat (length (theme_keys s)) - 1)
                     (selected_index s + 1))
              (theme_keys s).

Inductive theme_result :=
  | ApplyTheme (theme : string)
  | CancelTheme.

(** [ThemeSelectionScreen.action_apply]; [None] is [IndexError]. *)
Definition theme_action_apply (s : theme_screen) : option theme_result :=
  selected_theme ← py_getitem (theme_keys s) (selected_index s);
  Some (ApplyTheme selected_theme).

(** The keys of the theme chooser that move the selection. *)
Inductive theme_key := ThemeUp | ThemeDown.

Definition theme_press (s : theme_screen) (k : theme_key) : theme_screen :=
  match k with
  | ThemeUp => theme_cursor_up s
  | ThemeDown => theme_cursor_down s
  end.

Section python_str.
(** [str.title], a method of Python's strings. *)
Variable str_title : string → string.

(** The callback [handle_theme_result]. *)
Definition handle_theme_result (result : theme_result) (st : app) : app :=
  match result with
  | ApplyTheme theme =>
      let st := with_app_theme theme st in
      let st := apply_theme theme st in
      let st := save_menu_data st in
      notify ("Applied " +:+ str_title theme +:+ " theme to Menu Maker")
             information st
  | CancelTheme => st
  end.
End python_str.

(** ** What a start of the application reads from the file *)

Definition loaded_menu (disk : file) : menu :=
  match disk with
  | Stored d => default [] (doc_categories d)
  | Absent | Corrupt _ => default_data
  end.

Definition loaded_theme (disk : file) : string :=
  match disk with
  | Stored d => default default_theme (doc_app_settings d ≫= so_theme)
  | Absent | Corrupt _ => default_theme
  end.

Definition loaded_title (disk : file) : string :=
  match disk with
  | Stored d => default default_title (doc_app_settings d ≫= so_title)
  | Absent | Corrupt _ => default_title
  end.

(** ** Where the cursor goes *)

(** The cursor [action_delete_item] leaves on the new display list [d]:
    clamped by the redraw, then moved to the entry before the last one
    when it stands on the last one. *)
Definition cursor_after_delete (c : Z) (d : list display_entry) : Z :=
  let c := highlighted_index c d in
  if bool_decide (Z.of_nat (length d) - 1 ≤ c)
  then Z.max 0 (Z.of_nat (length d) - 2)
  else c.

(** ** Sessions with the settings screens *)

(** A restart of the application finds the tree, the theme and the title
    the state [st] holds. *)
Definition survives_restart (st : app) : Prop :=
  ∀ n w, ∃ st',
    new_app (S (S (S n))) (config_file st) w = Some st' ∧
    menu_data st' = menu_data st ∧
    app_theme st' = app_theme st ∧
    app_title st' = app_title st.

(** One user action handled to the end: a key of the main screen, or a
    settings screen dismissed. *)
Inductive acts : app → app → Prop :=
  | acts_key st st' : handles st st' → acts st st'
  | acts_theme (str_title : string → string) result st :
      acts st (handle_theme_result str_title result st)
  | acts_title result st : acts st (handle_title_result result st).

(** The states of a session started on the file [disk]. *)
Inductive in_session (disk : file) (w : bool) : app → Prop :=
  | in_session_start fuel st :
      (11 ≤ fuel)%nat → loadable disk →
      (st ← new_app fuel disk w; on_mount fuel st) = Some st →
      in_session disk w st
  | in_session_next st st' :
      in_session disk w st → acts st st' → in_session disk w st'.

(** ** What a handler does to the file *)

(** The notification [save_menu_data] raises when the write fails. *)
Definition save_error : notification :=
  Notification error "Error saving menu data".

(** [st'] comes from [st] by a handler that either left the tree and the
    file alone, or went through [save_menu_data]: the file then holds the
    document of [st'] when the disk can be written, and is as before, with
    an error notified, when it cannot.  The settings, the disk and the
    container are those of [st]. *)
Definition kept_or_saved (st st' : app) : Prop :=
  app_theme st' = app_theme st ∧
  app_title st' = app_title st ∧
  disk_writable st' = disk_writable st ∧
  menu_container st' = menu_container st ∧
  ((menu_data st' = menu_data st ∧ config_file st' = config_file st) ∨
   (config_file st' =
      (if disk_writable st then Stored (document_of st')
       else config_file st) ∧
    (disk_writable st = false → save_error ∈ notifications st'))).

(** ** More sample states *)

(** The first start without a configuration file on a disk that cannot be
    written. *)
Definition readonly_start : app :=
  App default_data 0 [DCategory "System Tools"; DItem default_item] true
      default_theme default_title Absent false [save_error] 1.

(** The file a start leaves behind. *)
Definition file_after_load (disk : file) (w : bool) : file :=
  match disk with
  | Stored _ => disk
  | Absent | Corrupt _ => if w then Stored default_document else disk
  end.

(** The notifications of a start. *)
Definition notifications_after_load (disk : file) (w : bool)
  : list notification :=
  match disk with
  | Stored _ => []
  | Absent | Corrupt _ => if w then [] else [save_error]
  end.

(** ** Working through the forms *)

(** What the user does on the main screen, with what is typed into the
    form that opens: [n] for a new item, [e] for the entry under the
    cursor (the item form on an item, the category form on a header),
    [d], space and the arrows. *)
Inductive user_action :=
  | PressNew (label_text cmd_text info_text category_text : string)
             (pause_checkbox : bool)
  | PressEdit (label_text cmd_text info_text category_text : string)
              (pause_checkbox : bool) (category_name_text : string)
  | PressDelete
  | PressSpace
  | PressUp
  | PressDown.

Definition perform (fuel : nat) (a : user_action) (st : app) : option app :=
  match a with
  | PressNew l c i cat p =>
      action_new_item fuel (edit_item_screen_save l c i cat p) st
  | PressEdit l c i cat p name_text =>
      match py_getitem (display_items st) (current_index st) with
      | Some (DCategory category_name) =>
          action_edit_item fuel
            (edit_category_screen_save category_name name_text) st
      | _ => action_edit_item fuel (edit_item_screen_save l c i cat p) st
      end
  | PressDelete => action_delete_item fuel st
  | PressSpace => action_toggle_category fuel st
  | PressUp => action_cursor_up fuel st
  | PressDown => action_cursor_down fuel st
  end.

(** ** A session started on a file that lists an empty category *)

(** A tree as a hand-edited file may hold it: "Old" has no items left. *)
Definition cluttered_tree : menu :=
  [("Old", Category true []);
   ("Net", Category true [ping_net]);
   ("Admin", Category true [ping_admin])].

Definition cluttered_file : file :=
  Stored (Document (Some cluttered_tree) None).

(** The down key pressed [n] times. *)
Fixpoint cursor_downs (fuel : nat) (n : nat) (st : app) : option app :=
  match n with
  | O => Some st
  | S n => st ← action_cursor_down fuel st; cursor_downs fuel n st
  end.

(** The application started on [cluttered_file] and mounted, then the down
    key pressed [n] times. *)
Definition cluttered_session (fuel : nat) (n : nat) : option app :=
  st ← new_app fuel cluttered_file true;
  st ← on_mount fuel st;
  cursor_downs fuel n st.

(** The tree that session works on: the first redraw has dropped "Old". *)
Definition kept_tree : menu :=
  [("Net", Category true [ping_net]);
   ("Admin", Category true [ping_admin])].

(** The state of that session with the cursor at offset [i]: the display
    list holds the entries of [kept_tree] twice. *)
Definition doubled_state (i : Z) : app :=
  App kept_tree i (flatten kept_tree ++ flatten kept_tree) true
      default_theme default_title
      (Stored (Document (Some kept_tree)
                 (Some (SettingsObject (Some default_theme)
                                       (Some default_title)))))
      true [] 2.



(** ** Sessions started on any file *)

(** What a redraw can leave in the display list: the flattened tree, or,
    after a redraw that has dropped an empty category, the flattened tree
    twice over. *)
Definition shown (st : app) : Prop :=
  display_items st = flatten (menu_data st) ∨
  display_items st = flatten (menu_data st) ++ flatten (menu_data st).

(** The states of the mounted application, whatever file it was started
    on: the tree is well formed, the display list is the flattened tree
    once or twice over, and the cursor lies within the display list. *)
Definition drawn (st : app) : Prop :=
  menu_container st = true ∧
  wf_menu (menu_data st) ∧
  shown st ∧
  cursor_in_range (current_index st) (display_items st).

Global Instance drawn_dec st : Decision (drawn st).
Proof. unfold drawn, shown. apply _. Defined.

(** A file whose tree, if it stores one, is a dict: each category name
    once.  Its categories may be empty. *)
Definition dict_file (disk : file) : Prop :=
  match disk with
  | Stored d => NoDup (default [] (doc_categories d)).*1
  | Absent | Corrupt _ => True
  end.

(** The states of a session started on the file [disk]: the application
    is created and mounted, then handles keys and settings screens. *)
Inductive session (disk : file) (w : bool) : app → Prop :=
  | session_start fuel st :
      (20 ≤ fuel)%nat → dict_file disk →
      (st ← new_app fuel disk w; on_mount fuel st) = Some st →
      session disk w st
  | session_next st st' :
      session disk w st → acts st st' → session disk w st'.


(** ** The text of the configuration file: [json.dump] and [json.load]

    [save_menu_data] writes [json.dump(data, f, indent=2)] and
    [load_menu_data] reads [json.load(f)].  The two functions are Python's
    standard library, modelled here on the values the application stores:
    [None], booleans, strings, lists and dicts keyed by strings.  Numbers
    are left out: the application writes none, and [json_loads] gives
    [None] on a text that holds one, as it does where [json.load] raises.
    The recursion limit of the interpreter is not modelled.

    A string stands for a Python [str], and for the content of the file,
    through UTF-8, the encoding of the terminal the launcher runs in
    (the title the application starts with holds a dash outside ASCII);
    a string that is not UTF-8 stands for no [str]. *)

(** [ord], [chr] on one byte *)
Definition ord (c : ascii) : Z := Z.of_N (N_of_ascii c).
Definition chr (n : Z) : ascii := ascii_of_N (Z.to_N n).

(** A Unicode scalar value: a code point that is not a surrogate. *)
Definition scalar_value (n : Z) : bool :=
  (0 <=? n) && (n <? 0x110000) && negb ((0xD800 <=? n) && (n <? 0xE000)).

(** A byte [10xxxxxx]. *)
Definition continuation (b : Z) : bool := (0x80 <=? b) && (b <? 0xC0).

(** The code points of the [str] a string stands for; [None] when the
    string is not UTF-8 (a truncated or overlong sequence, a surrogate, a
    code point beyond U+10FFFF). *)
Fixpoint utf8_decode (s : string) : option (list Z) :=
  match s with
  | "" => Some []
  | String c0 s1 =>
      let b0 := ord c0 in
      if b0 <? 0x80 then (b0 ::.) <$> utf8_decode s1
      else
        match s1 with
        | "" => None
        | String c1 s2 =>
            let b1 := ord c1 in
            if b0 <? 0xE0 then
              let n := (b0 - 0xC0) * 64 + (b1 - 0x80) in
              if continuation b1 && (0x80 <=? n)
              then (n ::.) <$> utf8_decode s2
              else None
            else
              match s2 with
              | "" => None
              | String c2 s3 =>
                  let b2 := ord c2 in
                  if b0 <? 0xF0 then
                    let n := (b0 - 0xE0) * 4096 + (b1 - 0x80) * 64
                             + (b2 - 0x80) in
                    if continuation b1 && continuation b2 &&
                       (0x800 <=? n) && scalar_value n
                    then (n ::.) <$> utf8_decode s3
                    else None
                  else
                    match s3 with
                    | "" => None
                    | String c3 s4 =>
                        let b3 := ord c3 in
                        let n := (b0 - 0xF0) * 262144 + (b1 - 0x80) * 4096
                                 + (b2 - 0x80) * 64 + (b3 - 0x80) in
                        if continuation b1 && continuation b2 &&
                           continuation b3 &&
                           (0x10000 <=? n) && scalar_value n
                        then (n ::.) <$> utf8_decode s4
                        else None
                    end
              end
        end
  end.

Definition code_points (s : string) : list Z := default [] (utf8_decode s).

Definition is_str (s : string) : bool :=
  match utf8_decode s with Some _ => true | None => false end.

(** The bytes of one character. *)
Definition utf8_char (n : Z) : string :=
  if n <? 0x80 then String (chr n) ""
  else if n <? 0x800 then
    String (chr (0xC0 + n / 64)) (String (chr (0x80 + n mod 64)) "")
  else if n <? 0x10000 then
    String (chr (0xE0 + n / 4096))
      (String (chr (0x80 + n / 64 mod 64))
         (String (chr (0x80 + n mod 64)) ""))
  else
    String (chr (0xF0 + n / 262144))
      (String (chr (0x80 + n / 4096 mod 64))
         (String (chr (0x80 + n / 64 mod 64))
            (String (chr (0x80 + n mod 64)) ""))).

(** *** Values *)

Inductive py_value :=
  | PyNone
  | PyBool (b : bool)
  | PyStr (s : string)
  | PyList (lst : list py_value)
  | PyDict (dct : list (string * py_value)).

(** *** [json.dump(obj, f, indent=2)]: the encoder *)

Definition quote : string := String "034" "".
Definition backslash : string := String "092" "".
Definition newline : string := String "010" "".

(** One digit of [format(n, '04x')]. *)
Definition hex_digit (d : Z) : ascii :=
  if d <? 10 then chr (48 + d) else chr (87 + d).

(** ['\\u{0:04x}'.format(n)] *)
Definition u_escape (n : Z) : string :=
  backslash +:+
  String "u"
    (String (hex_digit (n / 4096))
       (String (hex_digit (n / 256 mod 16))
          (String (hex_digit (n / 16 mod 16))
             (String (hex_digit (n mod 16)) "")))).

(** What [py_encode_basestring_ascii] writes for one character: the
    characters from the space to the tilde stand for themselves, but for
    the quote and the backslash; [ESCAPE_DCT] has the short escapes; any
    other character is written as [\uXXXX], beyond U+FFFF as a surrogate
    pair. *)
Definition escape_char (n : Z) : string :=
  if n =? 0x5C then backslash +:+ backslash
  else if n =? 0x22 then backslash +:+ quote
  else if n =? 0x08 then backslash +:+ "b"
  else if n =? 0x0C then backslash +:+ "f"
  else if n =? 0x0A then backslash +:+ "n"
  else if n =? 0x0D then backslash +:+ "r"
  else if n =? 0x09 then backslash +:+ "t"
  else if (0x20 <=? n) && (n <=? 0x7E) then String (chr n) ""
  else if n <? 0x10000 then u_escape n
  else
    let n := n - 0x10000 in
    let s1 := Z.lor 0xD800 (Z.land (Z.shiftr n 10) 0x3FF) in
    let s2 := Z.lor 0xDC00 (Z.land n 0x3FF) in
    u_escape s1 +:+ u_escape s2.

Definition encode_basestring_ascii (s : string) : string :=
  quote +:+ String.concat "" (escape_char <$> code_points s) +:+ quote.

(** [s * n] *)
Fixpoint str_repeat (s : string) (n : nat) : string :=
  match n with
  | O => ""
  | S n => s +:+ str_repeat s n
  end.

(** [_indent = ' ' * _indent], for [indent=2] *)
Definition indent_unit : string := str_repeat " " 2.

(** [_iterencode], [_iterencode_list] and [_iterencode_dict] of
    [_make_iterencode], with the chunks they yield put end to end. *)
Fixpoint iterencode (o : py_value) (current_indent_level : nat) : string :=
  match o with
  | PyStr s => encode_basestring_ascii s
  | PyNone => "null"
  | PyBool true => "true"
  | PyBool false => "false"
  | PyList lst =>
      if is_empty lst then "[]"
      else
        let level := S current_indent_level in
        let newline_indent := newline +:+ str_repeat indent_unit level in
        let separator := "," +:+ newline_indent in
        "[" +:+ newline_indent +:+
        String.concat separator
          ((fun value => iterencode value level) <$> lst) +:+
        newline +:+ str_repeat indent_unit current_indent_level +:+ "]"
  | PyDict dct =>
      if is_empty dct then "{}"
      else
        let level := S current_indent_level in
        let newline_indent := newline +:+ str_repeat indent_unit level in
        let item_separator := "," +:+ newline_indent in
        "{" +:+ newline_indent +:+
        String.concat item_separator
          ((fun kv => encode_basestring_ascii kv.1 +:+ ": " +:+
                      iterencode kv.2 level) <$> dct) +:+
        newline +:+ str_repeat indent_unit current_indent_level +:+ "}"
  end.

(** The text [json.dump(obj, f, indent=2)] writes. *)
Definition json_dump (obj : py_value) : string := iterencode obj 0.

(** *** [json.load(f)]: the decoder *)

(** [WHITESPACE_STR = ' \t\n\r'] *)
Definition is_whitespace (c : ascii) : bool :=
  bool_decide (c ∈ [" "; "009"; "010"; "013"]%char).

Fixpoint skip_whitespace (s : string) : string :=
  match s with
  | "" => ""
  | String c rest => if is_whitespace c then skip_whitespace rest else s
  end.

(** One hexadecimal digit, in either case. *)
Definition hex_value (c : ascii) : option Z :=
  let b := ord c in
  if (48 <=? b) && (b <=? 57) then Some (b - 48)
  else if (97 <=? b) && (b <=? 102) then Some (b - 87)
  else if (65 <=? b) && (b <=? 70) then Some (b - 55)
  else None.

(** [_decode_uXXXX] *)
Definition decode_uXXXX (h1 h2 h3 h4 : ascii) : option Z :=
  d1 ← hex_value h1; d2 ← hex_value h2;
  d3 ← hex_value h3; d4 ← hex_value h4;
  Some (((d1 * 16 + d2) * 16 + d3) * 16 + d4).

(** The table [BACKSLASH]. *)
Definition backslash_escape (esc : ascii) : option ascii :=
  let b := ord esc in
  if b =? 0x22 then Some (chr 0x22)
  else if b =? 0x5C then Some (chr 0x5C)
  else if b =? 0x2F then Some (chr 0x2F)
  else if b =? 0x62 then Some (chr 0x08)
  else if b =? 0x66 then Some (chr 0x0C)
  else if b =? 0x6E then Some (chr 0x0A)
  else if b =? 0x72 then Some (chr 0x0D)
  else if b =? 0x74 then Some (chr 0x09)
  else None.

(** [scanstring(s, end, strict=True)], from the character after the
    opening quote: the string and the text after the closing quote.
    [None] also for an escape that stands for a lone surrogate, which no
    string of the model holds. *)
Fixpoint scanstring (s : string) : option (string * string) :=
  match s with
  | "" => None
  | String c rest =>
      let b := ord c in
      if b =? 0x22 then Some ("", rest)
      else if b =? 0x5C then
        match rest with
        | "" => None
        | String esc rest =>
            if ord esc =? 0x75 then
              match rest with
              | String h1 (String h2 (String h3 (String h4 rest))) =>
                  uni ← decode_uXXXX h1 h2 h3 h4;
                  if (0xD800 <=? uni) && (uni <=? 0xDBFF) then
                    match rest with
                    | String e1 (String e2
                        (String k1 (String k2 (String k3 (String k4 rest'))))) =>
                        if (ord e1 =? 0x5C) && (ord e2 =? 0x75) then
                          uni2 ← decode_uXXXX k1 k2 k3 k4;
                          if (0xDC00 <=? uni2) && (uni2 <=? 0xDFFF) then
                            let uni :=
                              0x10000 +
                              Z.lor (Z.shiftl (uni - 0xD800) 10)
                                    (uni2 - 0xDC00) in
                            '(chunks, rest) ← scanstring rest';
                            Some (utf8_char uni +:+ chunks, rest)
                          else None
                        else None
                    | _ => None
                    end
                  else if (0xDC00 <=? uni) && (uni <=? 0xDFFF) then None
                  else
                    '(chunks, rest) ← scanstring rest;
                    Some (utf8_char uni +:+ chunks, rest)
              | _ => None
              end
            else
              char ← backslash_escape esc;
              '(chunks, rest) ← scanstring rest;
              Some (String char chunks, rest)
        end
      else if b <? 0x20 then None
      else
        '(chunks, rest) ← scanstring rest;
        Some (String c chunks, rest)
  end.

(** [dict(pairs)]: a key met again keeps its place and takes the new
    value. *)
Definition dict_of_pairs {V} (pairs : list (string * V)) : list (string * V) :=
  fold_left (fun d kv => dict_set kv.1 kv.2 d) pairs [].

(** [scan_once], [JSONObject] and [JSONArray].  [scan_object] starts after
    the opening quote of a key and [scan_array] at a value; each returns
    what it has read and the text after the closing bracket.  [fuel]
    bounds the number of nested calls. *)
Fixpoint scan_once (fuel : nat) (s : string)
  : option (py_value * string) :=
  match fuel with
  | O => None
  | S fuel =>
      match s with
      | "" => None
      | String nextchar rest =>
          if bool_decide (nextchar = "034"%char) then
            '(str, rest) ← scanstring rest;
            Some (PyStr str, rest)
          else if bool_decide (nextchar = "{"%char) then
            match skip_whitespace rest with
            | String c rest =>
                if bool_decide (c = "}"%char) then Some (PyDict [], rest)
                else if bool_decide (c = "034"%char) then
                  '(pairs, rest) ← scan_object fuel rest;
                  Some (PyDict (dict_of_pairs pairs), rest)
                else None
            | "" => None
            end
          else if bool_decide (nextchar = "["%char) then
            match skip_whitespace rest with
            | String c rest' =>
                if bool_decide (c = "]"%char) then Some (PyList [], rest')
                else
                  '(values, rest) ← scan_array fuel (String c rest');
                  Some (PyList values, rest)
            | "" => None
            end
          else
            match s with
            | String "n" (String "u" (String "l" (String "l" rest))) =>
                Some (PyNone, rest)
            | String "t" (String "r" (String "u" (String "e" rest))) =>
                Some (PyBool true, rest)
            | String "f" (String "a" (String "l" (String "s"
                (String "e" rest)))) =>
                Some (PyBool false, rest)
            | _ => None
            end
      end
  end
with scan_object (fuel : nat) (s : string)
  : option (list (string * py_value) * string) :=
  match fuel with
  | O => None
  | S fuel =>
      '(key, s) ← scanstring s;
      match skip_whitespace s with
      | String c s =>
          if bool_decide (c = ":"%char) then
            '(value, s) ← scan_once fuel (skip_whitespace s);
            match skip_whitespace s with
            | String c s =>
                if bool_decide (c = "}"%char) then Some ([(key, value)], s)
                else if bool_decide (c = ","%char) then
                  match skip_whitespace s with
                  | String c s =>
                      if bool_decide (c = "034"%char) then
                        '(pairs, s) ← scan_object fuel s;
                        Some ((key, value) :: pairs, s)
                      else None
                  | "" => None
                  end
                else None
            | "" => None
            end
          else None
      | "" => None
      end
  end
with scan_array (fuel : nat) (s : string)
  : option (list py_value * string) :=
  match fuel with
  | O => None
  | S fuel =>
      '(value, s) ← scan_once fuel s;
      match skip_whitespace s with
      | String c s =>
          if bool_decide (c = "]"%char) then Some ([value], s)
          else if bool_decide (c = ","%char) then
            '(values, s) ← scan_array fuel (skip_whitespace s);
            Some (value :: values, s)
          else None
      | "" => None
      end
  end.

(** [json.loads(s)]: one value, with white space around it and nothing
    else. *)
Definition json_loads (s : string) : option py_value :=
  '(obj, rest) ← scan_once (String.length s) (skip_whitespace s);
  match skip_whitespace rest with
  | "" => Some obj
  | String _ _ => None
  end.

(** [json.load(f)] on a file that holds [text]; the file is decoded
    first. *)
Definition json_load (text : string) : option py_value :=
  if is_str text then json_loads text else None.


(** The values the model of [json.dump] and [json.load] is about: every
    string is a [str], and a dict binds each key once. *)
Fixpoint json_representable (v : py_value) : bool :=
  match v with
  | PyNone | PyBool _ => true
  | PyStr s => is_str s
  | PyList lst => forallb json_representable lst
  | PyDict dct =>
      bool_decide (NoDup dct.*1) &&
      forallb (fun kv => is_str kv.1 && json_representable kv.2) dct
  end.

(** The number of calls [scan_once] needs for a value. *)
Fixpoint py_size (v : py_value) : nat :=
  match v with
  | PyNone | PyBool _ | PyStr _ => 1
  | PyList lst => S (sum_list_with (fun x => S (py_size x)) lst)
  | PyDict dct => S (sum_list_with (fun kv => S (py_size kv.2)) dct)
  end.

(** The characters a value starts with. *)
Definition value_start (c : ascii) : Prop :=
  c ∈ ["034"; "n"; "t"; "f"; "["; "{"]%char.

Definition list_size (lst : list py_value) : nat :=
  sum_list_with (fun x => S (py_size x)) lst.

Definition dict_size (dct : list (string * py_value)) : nat :=
  sum_list_with (fun kv => S (py_size kv.2)) dct.

(** One pair of a dict as [_iterencode_dict] writes it. *)
Definition encode_pair (level : nat) (kv : string * py_value) : string :=
  encode_basestring_ascii kv.1 +:+ ": " +:+ iterencode kv.2 level.

(** A text of ASCII characters only. *)
Fixpoint all_ascii (s : string) : bool :=
  match s with
  | "" => true
  | String c s => (ord c <? 0x80) && all_ascii s
  end.


(** *** The document as a Python value *)

(** A menu item as the dict it is: the keys in the order the built-in
    tree and the edit form write them. *)
Definition py_of_item (it : item) : py_value :=
  PyDict ([("label", PyStr (label it)); ("cmd", PyStr (cmd it));
           ("info", PyStr (info it)); ("category", PyStr (category it))] ++
          match pause it with
          | Some b => [("pause", PyBool b)]
          | None => []
          end).

Definition py_of_category (cd : category_data) : py_value :=
  PyDict [("expanded", PyBool (expanded cd));
          ("items", PyList (py_of_item <$> items cd))].

Definition py_of_menu (m : menu) : py_value :=
  PyDict ((fun kv => (kv.1, py_of_category kv.2)) <$> m).

(** The dict [data] that [save_menu_data] builds and hands to
    [json.dump]. *)
Definition save_data (st : app) : py_value :=
  PyDict [("categories", py_of_menu (menu_data st));
          ("app_settings",
           PyDict [("theme", PyStr (app_theme st));
                   ("title", PyStr (app_title st))])].

(** The text [save_menu_data] writes to the file. *)
Definition saved_text (st : app) : string := json_dump (save_data st).

(** The other way round: a Python value read as an item, a category, a
    tree.  [None]: the value is not a dict with these keys and nothing
    else, which the records of the model cannot hold. *)
Definition py_str (v : py_value) : option string :=
  match v with PyStr s => Some s | _ => None end.

Definition item_of_py (v : py_value) : option item :=
  match v with
  | PyDict d =>
      label ← dict_get "label" d ≫= py_str;
      cmd ← dict_get "cmd" d ≫= py_str;
      info ← dict_get "info" d ≫= py_str;
      category ← dict_get "category" d ≫= py_str;
      pause ← match dict_get "pause" d with
              | None => Some None
              | Some (PyBool b) => Some (Some b)
              | Some _ => None
              end;
      if bool_decide (length d = if pause is Some _ then 5%nat else 4%nat)
      then Some (Item label cmd info category pause)
      else None
  | _ => None
  end.

Definition category_of_py (v : py_value) : option category_data :=
  match v with
  | PyDict d =>
      match dict_get "expanded" d, dict_get "items" d with
      | Some (PyBool e), Some (PyList lst) =>
          if bool_decide (length d = 2%nat)
          then Category e <$> mapM item_of_py lst
          else None
      | _, _ => None
      end
  | _ => None
  end.

Definition menu_of_py (v : py_value) : option menu :=
  match v with
  | PyDict d => mapM (fun kv => (kv.1,.) <$> category_of_py kv.2) d
  | _ => None
  end.

(** What [load_menu_data] takes from the value [data] that [json.load]
    returns: [data.get('categories', {})], and the theme and the title
    under ['app_settings'] when they are there.  Other keys of [data] and
    of the settings are not looked at. *)
Definition document_of_py (data : py_value) : option document :=
  match data with
  | PyDict d =>
      categories ← match dict_get "categories" d with
                   | None => Some None
                   | Some v => Some <$> menu_of_py v
                   end;
      settings ← match dict_get "app_settings" d with
                 | None => Some None
                 | Some (PyDict s) =>
                     theme ← match dict_get "theme" s with
                             | None => Some None
                             | Some v => Some <$> py_str v
                             end;
                     title ← match dict_get "title" s with
                             | None => Some None
                             | Some v => Some <$> py_str v
                             end;
                     Some (Some (SettingsObject theme title))
                 | Some _ => None
                 end;
      Some (Document categories settings)
  | _ => None
  end.

(** The file of the model that stands for a file holding [text]: the
    document [load_menu_data] takes from what [json.load] returns.
    [None]: the text is not one the model reads. *)
Definition file_of_text (text : string) : option file :=
  data ← json_load text;
  Stored <$> document_of_py data.

(** The strings a state puts into the file. *)
Definition item_strings (it : item) : list string :=
  [label it; cmd it; info it; category it].

Definition menu_strings (m : menu) : list string :=
  m ≫= fun kv => kv.1 :: (items kv.2 ≫= item_strings).

Definition stored_strings (st : app) : list string :=
  app_theme st :: app_title st :: menu_strings (menu_data st).
(** ** Flattening *)

Lemma fold_left_snoc_items (l : list item) (acc : list display_entry) :
  fold_left (fun a it => a ++ [DItem it]) l acc = acc ++ (DItem <$> l).
Proof.
  revert acc. induction l as [|it l IH]; intros acc; simpl.
  - by rewrite app_nil_r.
  - rewrite IH. by rewrite <- app_assoc.
Qed.

Lemma display_step_block acc kv :
  display_step acc kv = acc ++ category_block kv.
Proof.
  unfold display_step, category_block.
  destruct (expanded kv.2).
  - rewrite fold_left_snoc_items. by rewrite <- app_assoc.
  - done.
Qed.

Lemma build_display_app (m : menu) acc :
  build_display m acc = acc ++ flatten m.
Proof.
  unfold flatten. revert acc.
  induction m as [|kv m IH]; intros acc; simpl.
  - by rewrite app_nil_r.
  - rewrite IH. rewrite (IH (display_step [] kv)).
    rewrite !display_step_block. simpl. by rewrite <- app_assoc.
Qed.

Lemma flatten_nil : flatten [] = [].
Proof. done. Qed.

Lemma flatten_cons kv (m : menu) :
  flatten (kv :: m) = category_block kv ++ flatten m.
Proof.
  unfold flatten at 1. simpl. rewrite build_display_app.
  by rewrite display_step_block.
Qed.

Lemma flatten_app (m1 m2 : menu) :
  flatten (m1 ++ m2) = flatten m1 ++ flatten m2.
Proof.
  induction m1 as [|kv m1 IH]; [done|].
  rewrite <- app_comm_cons, !flatten_cons, IH. by rewrite <- app_assoc.
Qed.


Lemma headers_app d1 d2 : headers (d1 ++ d2) = headers d1 ++ headers d2.
Proof. unfold headers. apply omap_app. Qed.

Lemma headers_items (l : list item) : headers ((DItem <$> l)) = [].
Proof. induction l; [done|]. simpl. done. Qed.

Lemma headers_category_block kv : headers (category_block kv) = [kv.1].
Proof.
  unfold category_block.
  change (kv.1 :: headers (if expanded kv.2 then (DItem <$> items kv.2) else [])
          = [kv.1]).
  destruct (expanded kv.2); [by rewrite headers_items|done].
Qed.

Lemma headers_flatten (m : menu) : headers (flatten m) = m.*1.
Proof.
  induction m as [|kv m IH]; [done|].
  by rewrite flatten_cons, headers_app, headers_category_block, IH.
Qed.

(** ** The reactive cursor *)

Lemma with_current_index_same st :
  with_current_index (current_index st) st = st.
Proof. by destruct st. Qed.

Lemma clamp_index_idem v d : clamp_index (clamp_index v d) d = clamp_index v d.
Proof. unfold clamp_index. lia. Qed.

Lemma clamp_index_range v d :
  d ≠ [] → 0 ≤ clamp_index v d ≤ Z.of_nat (length d) - 1.
Proof.
  intros Hd. unfold clamp_index.
  destruct d as [|e d]; [done|]. simpl length. lia.
Qed.

Lemma clamp_index_fixed v d :
  0 ≤ v ≤ Z.of_nat (length d) - 1 → clamp_index v d = v.
Proof. unfold clamp_index. lia. Qed.

Lemma is_empty_true {A} (l : list A) : is_empty l = true ↔ l = [].
Proof. by destruct l. Qed.

Lemma is_empty_false {A} (l : list A) : is_empty l = false ↔ l ≠ [].
Proof. by destruct l. Qed.

Lemma set_current_index_same fuel v st :
  current_index st = v → set_current_index (S fuel) v st = Some st.
Proof. intros Hv. simpl. by rewrite bool_decide_eq_true_2. Qed.

Lemma update_highlighting_fixed fuel st :
  clamp_index (current_index st) (display_items st) = current_index st →
  update_highlighting (S (S fuel)) st = Some st.
Proof.
  intros Hc. cbn [update_highlighting].
  destruct (is_empty (display_items st)); [done|].
  by apply set_current_index_same.
Qed.

(** A watcher called on a cursor that is already where it will settle. *)
Lemma watch_current_index_settled fuel v st :
  current_index st = (if is_empty (display_items st) then 0
                      else clamp_index v (display_items st)) →
  watch_current_index (S (S (S fuel))) v st = Some st.
Proof.
  intros Hc. cbn [watch_current_index].
  destruct (is_empty (display_items st)) eqn:He; cbn [negb].
  - by apply set_current_index_same.
  - rewrite set_current_index_same by done. cbn [mbind option_bind].
    rewrite update_highlighting_fixed; [done|].
    rewrite Hc. apply clamp_index_idem.
Qed.

Lemma set_current_index_spec fuel v st :
  (6 ≤ fuel)%nat →
  set_current_index fuel v st =
    Some (with_current_index (settled_index v st) st).
Proof.
  intros Hf.
  do 6 (destruct fuel as [|fuel]; [lia|]). clear Hf.
  unfold settled_index. cbn [set_current_index].
  case_bool_decide as Hv.
  { subst v. by rewrite with_current_index_same. }
  cbn [watch_current_index]. cbn [display_items with_current_index].
  destruct (is_empty (display_items st)) eqn:He; cbn [negb].
  - cbn [set_current_index]. cbn [current_index with_current_index].
    case_bool_decide as Hz; [by subst v|].
    rewrite watch_current_index_settled; [done|].
    cbn. by rewrite He.
  - cbn [set_current_index]. cbn [current_index with_current_index].
    case_bool_decide as Hz.
    + cbn [mbind option_bind]. rewrite update_highlighting_fixed.
      * by rewrite <- Hz.
      * cbn. by rewrite <- Hz at 1.
    + rewrite watch_current_index_settled.
      * cbn [mbind option_bind]. rewrite update_highlighting_fixed; [done|].
        cbn. apply clamp_index_idem.
      * cbn. rewrite He. by rewrite clamp_index_idem.
Qed.

Lemma update_highlighting_spec fuel st :
  (7 ≤ fuel)%nat →
  update_highlighting fuel st =
    Some (if is_empty (display_items st) then st
          else with_current_index
                 (clamp_index (current_index st) (display_items st)) st).
Proof.
  intros Hf. destruct fuel as [|fuel]; [lia|].
  cbn [update_highlighting].
  destruct (is_empty (display_items st)) eqn:He; [done|].
  rewrite set_current_index_spec by lia.
  unfold settled_index. rewrite He.
  case_bool_decide as Hc; [done|].
  by rewrite clamp_index_idem.
Qed.

(** ** Ordered dictionaries: lookup, update, deletion *)

Section ordered_dict_facts.
Context {V : Type} `{!EqDecision V}.
Implicit Types (d : list (string * V)) (k : string) (v : V).

Lemma dict_get_None k d : dict_get k d = None ↔ k ∉ d.*1.
Proof.
  induction d as [|[k' v'] d IH]; csimpl.
  - split; [intros _; apply not_elem_of_nil|done].
  - rewrite not_elem_of_cons. destruct (decide (k = k')) as [->|Hne].
    + split; [done|]. by intros [? _].
    + rewrite IH. split; [done|]. by intros [_ ?].
Qed.

Lemma dict_get_Some_elem k v d : dict_get k d = Some v → (k, v) ∈ d.
Proof.
  induction d as [|[k' v'] d IH]; csimpl; [done|].
  destruct (decide (k = k')) as [->|]; intros H.
  - injection H as ->. apply list_elem_of_here.
  - apply list_elem_of_further. auto.
Qed.

Lemma dict_get_elem k v d :
  NoDup (d.*1) → (k, v) ∈ d → dict_get k d = Some v.
Proof.
  induction d as [|[k' v'] d IH]; csimpl; intros Hnd Hin.
  - by apply elem_of_nil in Hin.
  - apply NoDup_cons in Hnd as [Hk' Hnd].
    apply elem_of_cons in Hin as [Heq|Hin].
    + injection Heq as -> ->. by rewrite decide_True.
    + destruct (decide (k = k')) as [->|]; [|by apply IH].
      exfalso. apply Hk'. apply (list_elem_of_fmap_2 fst _ _ Hin).
  Qed.

Lemma dict_get_app k d1 d2 :
  dict_get k (d1 ++ d2) =
    match dict_get k d1 with Some v => Some v | None => dict_get k d2 end.
Proof.
  induction d1 as [|[k' v'] d1 IH]; csimpl; [done|].
  by destruct (decide (k = k')).
Qed.

Lemma dict_mem_get k d : dict_mem k d = bool_decide (is_Some (dict_get k d)).
Proof.
  unfold dict_mem. destruct (dict_get k d).
  - by rewrite bool_decide_eq_true_2.
  - rewrite bool_decide_eq_false_2; [done|]. by intros [? ?].
Qed.

Lemma dict_set_fresh k v d : k ∉ d.*1 → dict_set k v d = d ++ [(k, v)].
Proof.
  induction d as [|[k' v'] d IH]; csimpl; [done|].
  rewrite not_elem_of_cons. intros [Hne Hk].
  rewrite decide_False by done. by rewrite IH.
Qed.

Lemma dict_set_keys k v d :
  (dict_set k v d).*1 =
    if dict_mem k d then d.*1 else d.*1 ++ [k].
Proof.
  unfold dict_mem.
  induction d as [|[k' v'] d IH]; csimpl; [done|].
  destruct (decide (k = k')) as [->|]; csimpl; [done|].
  rewrite IH. by destruct (dict_get k d).
Qed.

Lemma dict_get_set k k' v d :
  dict_get k' (dict_set k v d) =
    if decide (k' = k) then Some v else dict_get k' d.
Proof.
  induction d as [|[k0 v0] d IH]; csimpl.
  - by destruct (decide (k' = k)).
  - destruct (decide (k = k0)) as [->|Hne]; csimpl.
    + by destruct (decide (k' = k0)).
    + destruct (decide (k' = k0)) as [->|]; [|done].
      by rewrite decide_False.
Qed.

Lemma dict_set_NoDup k v d :
  NoDup (d.*1) → NoDup ((dict_set k v d).*1).
Proof.
  intros Hnd. rewrite dict_set_keys. unfold dict_mem.
  destruct (dict_get k d) eqn:Hg; [done|].
  apply dict_get_None in Hg.
  apply NoDup_app. split; [done|]. split.
  - intros x Hx Hx'. apply list_elem_of_singleton in Hx'. by subst.
  - apply NoDup_singleton.
Qed.

Lemma dict_set_length k v d :
  length (dict_set k v d) =
    if dict_mem k d then length d else S (length d).
Proof.
  rewrite <- !(length_fmap fst). rewrite dict_set_keys.
  destruct (dict_mem k d); [done|]. rewrite length_app. csimpl. lia.
Qed.

Lemma dict_set_Forall (P : string * V → Prop) k v d :
  Forall P d → P (k, v) → Forall P (dict_set k v d).
Proof.
  intros Hd Hkv. induction Hd as [|[k' v'] d Hx Hd IH]; csimpl.
  - by constructor.
  - destruct (decide (k = k')) as [->|]; constructor; auto.
Qed.

(** Writing a key in the middle of a dict keeps its place. *)
Lemma dict_set_middle k v v0 d1 d2 :
  k ∉ d1.*1 →
  dict_set k v (d1 ++ (k, v0) :: d2) = d1 ++ (k, v) :: d2.
Proof.
  induction d1 as [|[k' v'] d1 IH]; csimpl.
  - intros _. by rewrite decide_True.
  - rewrite not_elem_of_cons. intros [Hne Hk].
    rewrite decide_False by done. by rewrite IH.
Qed.

Lemma dict_del_keys_subseteq k d : (dict_del k d).*1 ⊆ d.*1.
Proof.
  induction d as [|[k' v'] d IH]; csimpl; [done|].
  destruct (decide (k = k')); csimpl.
  - by apply list_subseteq_cons.
  - intros x. rewrite !elem_of_cons. intros [?|?]; [by left|right; by apply IH].
Qed.

Lemma dict_del_NoDup k d :
  NoDup (d.*1) → NoDup ((dict_del k d).*1).
Proof.
  induction d as [|[k' v'] d IH]; csimpl; [done|].
  rewrite NoDup_cons. intros [Hk Hnd].
  destruct (decide (k = k')); csimpl; [done|].
  apply NoDup_cons. split; [|auto].
  intros Hin. apply Hk. by apply (dict_del_keys_subseteq k).
Qed.

Lemma dict_get_del k k' d :
  NoDup (d.*1) →
  dict_get k' (dict_del k d) =
    if decide (k' = k) then None else dict_get k' d.
Proof.
  induction d as [|[k0 v0] d IH]; csimpl; intros Hnd.
  - by destruct (decide (k' = k)).
  - apply NoDup_cons in Hnd as [Hk0 Hnd].
    destruct (decide (k = k0)) as [->|Hne]; csimpl.
    + destruct (decide (k' = k0)) as [->|]; [|done].
      by apply dict_get_None.
    + rewrite IH by done.
      destruct (decide (k' = k0)) as [->|]; [|done].
      by rewrite decide_False.
Qed.

Lemma dict_del_length k d :
  dict_mem k d = true → S (length (dict_del k d)) = length d.
Proof.
  unfold dict_mem.
  induction d as [|[k' v'] d IH]; csimpl; [done|].
  destruct (decide (k = k')); csimpl; [done|].
  intros H. by rewrite IH.
Qed.

Lemma dict_del_Forall (P : string * V → Prop) k d :
  Forall P d → Forall P (dict_del k d).
Proof.
  intros Hd. induction Hd as [|[k' v'] d Hx Hd IH]; csimpl; [done|].
  destruct (decide (k = k')); [done|]. by constructor.
Qed.

Lemma dict_del_middle k v0 d1 d2 :
  k ∉ d1.*1 → dict_del k (d1 ++ (k, v0) :: d2) = d1 ++ d2.
Proof.
  induction d1 as [|[k' v'] d1 IH]; csimpl.
  - intros _. by rewrite decide_True.
  - rewrite not_elem_of_cons. intros [Hne Hk].
    rewrite decide_False by done. by rewrite IH.
Qed.


Lemma dict_eqb_refl d : NoDup (d.*1) → dict_eqb d d = true.
Proof.
  intros Hnd. unfold dict_eqb.
  rewrite bool_decide_eq_true_2 by done. csimpl.
  apply forallb_forall. intros [k v] Hin. csimpl.
  apply list_elem_of_In in Hin.
  rewrite (dict_get_elem k v d Hnd Hin). by apply bool_decide_eq_true_2.
Qed.

Lemma dict_eqb_length d1 d2 :
  length d1 ≠ length d2 → dict_eqb d1 d2 = false.
Proof. intros H. unfold dict_eqb. by rewrite bool_decide_eq_false_2. Qed.

Lemma dict_eqb_missing k v d1 d2 :
  (k, v) ∈ d1 → dict_get k d2 = None → dict_eqb d1 d2 = false.
Proof.
  intros Hin Hg. unfold dict_eqb.
  apply andb_false_iff. right.
  apply not_true_iff_false. intros Hall.
  rewrite forallb_forall in Hall.
  apply list_elem_of_In in Hin. specialize (Hall _ Hin). csimpl in Hall.
  by rewrite Hg in Hall.
Qed.
End ordered_dict_facts.

(** Read the fields of a state built from field updates.  Only the
    updates and the projections are unfolded, by need, so that nested
    updates are never spelled out. *)
Ltac fields :=
  cbn beta iota zeta delta
    [notify call_later_update_highlighting update_status apply_theme
     with_menu_data with_current_index with_display_items
     with_menu_container with_app_theme with_app_title with_config_file
     with_notifications with_scheduled document_of
     menu_data current_index display_items menu_container app_theme
     app_title config_file disk_writable notifications scheduled] in *.

(** Normal form of a whole state, to compare two states field by field. *)
Ltac state_nf :=
  lazy beta iota zeta delta
    [notify call_later_update_highlighting update_status apply_theme
     with_menu_data with_current_index with_display_items
     with_menu_container with_app_theme with_app_title with_config_file
     with_notifications with_scheduled document_of
     menu_data current_index display_items menu_container app_theme
     app_title config_file disk_writable notifications scheduled].

Lemma save_menu_data_writable st :
  disk_writable st = true →
  save_menu_data st = with_config_file (Stored (document_of st)) st.
Proof. intros Hw. unfold save_menu_data. by rewrite Hw. Qed.

Lemma save_menu_data_readonly st :
  disk_writable st = false →
  save_menu_data st = notify "Error saving menu data" error st.
Proof. intros Hw. unfold save_menu_data. by rewrite Hw. Qed.

(** [save_menu_data] touches the file and the notifications only. *)
Lemma save_menu_data_menu_data st : menu_data (save_menu_data st) = menu_data st.
Proof. unfold save_menu_data. by destruct (disk_writable st). Qed.

Lemma save_menu_data_menu_container st :
  menu_container (save_menu_data st) = menu_container st.
Proof. unfold save_menu_data. by destruct (disk_writable st). Qed.

Lemma save_menu_data_current_index st :
  current_index (save_menu_data st) = current_index st.
Proof. unfold save_menu_data. by destruct (disk_writable st). Qed.

Lemma save_menu_data_scheduled st :
  scheduled (save_menu_data st) = scheduled st.
Proof. unfold save_menu_data. by destruct (disk_writable st). Qed.

(** ** Redrawing a well-formed tree *)

Lemma nonempty_categories_app (m acc : menu) :
  NoDup (acc ++ m).*1 → Forall (fun kv => items kv.2 ≠ []) m →
  fold_left (fun updated_data kv =>
               if negb (is_empty (items kv.2))
               then dict_set kv.1 kv.2 updated_data
               else updated_data) m acc = acc ++ m.
Proof.
  revert acc. induction m as [|[k c] m IH]; intros acc Hnd Hne; csimpl.
  - by rewrite app_nil_r.
  - apply Forall_cons in Hne as [Hc Hne]. simpl in Hc.
    apply is_empty_false in Hc. rewrite Hc. cbn [negb].
    rewrite fmap_app in Hnd. csimpl in Hnd.
    rewrite dict_set_fresh.
    + rewrite IH; [by rewrite <- app_assoc| |done].
      by rewrite <- app_assoc, fmap_app.
    + apply NoDup_app in Hnd as (_ & Hdisj & _).
      intros Hk. apply (Hdisj _ Hk). apply list_elem_of_here.
Qed.

Lemma nonempty_categories_wf (m : menu) :
  wf_menu m → nonempty_categories m = m.
Proof.
  intros [Hnd Hne]. unfold nonempty_categories.
  by rewrite nonempty_categories_app.
Qed.

Lemma cleanup_empty_categories_wf fuel st :
  wf_menu (menu_data st) → cleanup_empty_categories (S fuel) st = Some st.
Proof.
  intros Hwf. cbn [cleanup_empty_categories].
  rewrite nonempty_categories_wf by done.
  rewrite dict_eqb_refl; [done|]. apply Hwf.
Qed.

Lemma update_menu_display_spec fuel st :
  (9 ≤ fuel)%nat → menu_container st = true → wf_menu (menu_data st) →
  update_menu_display fuel st =
    Some (with_scheduled (S (scheduled st))
            (with_current_index
               (highlighted_index (current_index st) (flatten (menu_data st)))
               (with_display_items (flatten (menu_data st)) st))).
Proof.
  intros Hf Hm Hwf.
  do 2 (destruct fuel as [|fuel]; [lia|]).
  cbn [update_menu_display]. rewrite Hm. cbn [negb].
  rewrite cleanup_empty_categories_wf by done.
  cbn [mbind option_bind]. cbn [menu_data display_items with_display_items].
  change (build_display (menu_data st) []) with (flatten (menu_data st)).
  rewrite update_highlighting_spec by lia.
  cbn [mbind option_bind display_items with_display_items].
  unfold highlighted_index, call_later_update_highlighting.
  destruct (is_empty (flatten (menu_data st))); [|done].
  cbn. by destruct st.
Qed.

Lemma set_menu_data_spec fuel v st :
  (11 ≤ fuel)%nat → menu_container st = true → wf_menu v →
  set_menu_data fuel v st =
    Some (if dict_eqb (menu_data st) v then st
          else with_scheduled (S (scheduled st))
                 (with_current_index
                    (highlighted_index (current_index st) (flatten v))
                    (with_display_items (flatten v) (with_menu_data v st)))).
Proof.
  intros Hf Hm Hwf.
  do 2 (destruct fuel as [|fuel]; [lia|]).
  cbn [set_menu_data]. destruct (dict_eqb (menu_data st) v); [done|].
  cbn [watch_menu_data]. rewrite update_menu_display_spec by (done || lia).
  done.
Qed.

Lemma highlighted_index_idem i d :
  highlighted_index (highlighted_index i d) d = highlighted_index i d.
Proof.
  unfold highlighted_index. destruct (is_empty d); [done|].
  apply clamp_index_idem.
Qed.

Lemma highlighted_index_range i d :
  d ≠ [] → 0 ≤ highlighted_index i d ≤ Z.of_nat (length d) - 1.
Proof.
  intros Hd. unfold highlighted_index.
  apply is_empty_false in Hd as Hd'. rewrite Hd'.
  by apply clamp_index_range.
Qed.

(** The pipeline every mutation ends with, on a tree that is either the
    one [self.menu_data] already shows (a store into shared data) or one
    that differs from it as a mapping. *)
Lemma commit_spec fuel v st :
  (11 ≤ fuel)%nat → menu_container st = true → wf_menu v →
  menu_data st = v ∨ dict_eqb (menu_data st) v = false →
  ∃ n, commit fuel v st = Some (committed v n st).
Proof.
  intros Hf Hm Hwf Hcase. unfold commit.
  rewrite set_menu_data_spec by done.
  cbn [mbind option_bind].
  destruct (dict_eqb (menu_data st) v) eqn:Heq.
  - destruct Hcase as [Hv|?]; [|done].
    exists 1%nat. rewrite update_menu_display_spec; first last.
    { by rewrite save_menu_data_menu_data, Hv. }
    { by rewrite save_menu_data_menu_container. }
    { lia. }
    f_equal. unfold committed.
    rewrite save_menu_data_menu_data, save_menu_data_current_index,
      save_menu_data_scheduled, Hv.
    destruct (disk_writable st) eqn:Hw.
    + rewrite !save_menu_data_writable by done.
      subst v. state_nf. f_equal. lia.
    + rewrite !save_menu_data_readonly by done.
      subst v. state_nf. f_equal. lia.
  - exists 2%nat. rewrite update_menu_display_spec; first last.
    { by rewrite save_menu_data_menu_data. }
    { by rewrite save_menu_data_menu_container. }
    { lia. }
    f_equal. unfold committed.
    rewrite save_menu_data_menu_data, save_menu_data_current_index,
      save_menu_data_scheduled.
    change (menu_data (with_scheduled _ _)) with v.
    change (current_index (with_scheduled _ _))
      with (highlighted_index (current_index st) (flatten v)).
    change (scheduled (with_scheduled _ _)) with (S (scheduled st)).
    rewrite highlighted_index_idem.
    destruct (disk_writable st) eqn:Hw.
    + rewrite !save_menu_data_writable by done.
      state_nf. f_equal. lia.
    + rewrite !save_menu_data_readonly by done.
      state_nf. f_equal. lia.
Qed.

Lemma committed_menu_data v n st : menu_data (committed v n st) = v.
Proof.
  change (menu_data (save_menu_data (with_menu_data v st)) = v).
  by rewrite save_menu_data_menu_data.
Qed.

Lemma committed_display_items v n st :
  display_items (committed v n st) = flatten v.
Proof. done. Qed.

Lemma committed_current_index v n st :
  current_index (committed v n st) =
    highlighted_index (current_index st) (flatten v).
Proof. done. Qed.

Lemma committed_menu_container v n st :
  menu_container (committed v n st) = menu_container st.
Proof.
  change (menu_container (save_menu_data (with_menu_data v st)) =
          menu_container st).
  by rewrite save_menu_data_menu_container.
Qed.

Lemma committed_notifications v n st :
  notifications (committed v n st) =
    notifications st ++
    (if disk_writable st then []
     else [Notification error "Error saving menu data"]).
Proof.
  change (notifications (save_menu_data (with_menu_data v st)) =
          notifications st ++
          (if disk_writable (with_menu_data v st) then []
           else [Notification error "Error saving menu data"])).
  unfold save_menu_data.
  destruct (disk_writable (with_menu_data v st)); [|done].
  symmetry. apply app_nil_r.
Qed.

Lemma committed_config_file v n st :
  disk_writable st = true →
  config_file (committed v n st) =
    Stored (Document (Some v)
              (Some (SettingsObject (Some (app_theme st))
                                    (Some (app_title st))))).
Proof.
  intros Hw.
  change (config_file (save_menu_data (with_menu_data v st)) =
          Stored (document_of (with_menu_data v st))).
  by rewrite save_menu_data_writable.
Qed.

Lemma flatten_eq_nil (m : menu) : flatten m = [] ↔ m = [].
Proof.
  split; [|by intros ->].
  destruct m as [|kv m]; [done|]. by rewrite flatten_cons.
Qed.

Lemma cursor_in_range_highlighted i d :
  d ≠ [] → cursor_in_range (highlighted_index i d) d.
Proof.
  intros Hd. unfold cursor_in_range.
  apply is_empty_false in Hd as Hd'. rewrite Hd'.
  by apply highlighted_index_range.
Qed.

Lemma committed_consistent v n st :
  menu_container st = true → wf_menu v → v ≠ [] →
  consistent (committed v n st).
Proof.
  intros Hm Hwf Hv. split; [|split; [|split]].
  - by rewrite committed_menu_container.
  - by rewrite committed_menu_data.
  - by rewrite committed_menu_data.
  - rewrite committed_display_items, committed_current_index.
    apply cursor_in_range_highlighted. by rewrite flatten_eq_nil.
Qed.

(** ** Reading the entry under the cursor *)

Lemma py_getitem_nonneg {A} (l : list A) i :
  0 ≤ i → py_getitem l i = l !! Z.to_nat i.
Proof. intros Hi. unfold py_getitem. by rewrite bool_decide_eq_true_2. Qed.

Lemma cursor_in_range_lookup i d e :
  cursor_in_range i d → py_getitem d i = Some e →
  0 ≤ i < Z.of_nat (length d) ∧ d !! Z.to_nat i = Some e.
Proof.
  unfold cursor_in_range. intros Hc Hg.
  destruct d as [|e0 d]; simpl in Hc.
  - subst i. done.
  - rewrite py_getitem_nonneg in Hg by lia. split; [|done].
    simpl length. lia.
Qed.

Lemma selection_lookup st e :
  consistent st →
  py_getitem (display_items st) (current_index st) = Some e →
  no_selection st = false ∧
  flatten (menu_data st) !! Z.to_nat (current_index st) = Some e.
Proof.
  intros (_ & _ & Hd & Hc) Hg.
  destruct (cursor_in_range_lookup _ _ _ Hc Hg) as [Hr Hl].
  split; [|by rewrite <- Hd].
  unfold no_selection. apply orb_false_iff. split.
  - apply is_empty_false. intros Hnil. rewrite Hnil in Hr. simpl in Hr. lia.
  - apply bool_decide_eq_false_2. lia.
Qed.

Lemma elem_of_headers name d : name ∈ headers d ↔ DCategory name ∈ d.
Proof.
  unfold headers. rewrite list_elem_of_omap. split.
  - intros ([n|it] & Hin & Heq); simplify_eq. done.
  - intros Hin. by exists (DCategory name).
Qed.

Lemma header_in_flatten name (m : menu) :
  DCategory name ∈ flatten m ↔ name ∈ m.*1.
Proof. by rewrite <- elem_of_headers, headers_flatten. Qed.

Lemma find_category_entry_Some name d k :
  name ∈ headers d →
  ∃ j, find_category_entry name d k = Some j ∧
       k ≤ j < k + Z.of_nat (length d) ∧
       d !! Z.to_nat (j - k) = Some (DCategory name).
Proof.
  revert k. induction d as [|e d IH]; intros k Hin.
  - by apply elem_of_nil in Hin.
  - destruct e as [n|it]; cbn [find_category_entry].
    + destruct (decide (n = name)) as [->|Hne].
      * exists k. split; [done|]. split; [simpl length; lia|].
        by rewrite Z.sub_diag.
      * change (headers (DCategory n :: d)) with (n :: headers d) in Hin.
        apply elem_of_cons in Hin as [?|Hin]; [by subst|].
        destruct (IH (k + 1) Hin) as (j & Hj & Hr & Hl).
        exists j. split; [done|]. split; [simpl length; lia|].
        replace (Z.to_nat (j - k)) with (S (Z.to_nat (j - (k + 1)))) by lia.
        done.
    + change (headers (DItem it :: d)) with (headers d) in Hin.
      destruct (IH (k + 1) Hin) as (j & Hj & Hr & Hl).
      exists j. split; [done|]. split; [simpl length; lia|].
      replace (Z.to_nat (j - k)) with (S (Z.to_nat (j - (k + 1)))) by lia.
      done.
Qed.

Lemma restore_position_to_category_spec fuel name st :
  (6 ≤ fuel)%nat → DCategory name ∈ display_items st →
  ∃ i, restore_position_to_category fuel name st =
         Some (with_current_index i st) ∧
       py_getitem (display_items st) i = Some (DCategory name) ∧
       cursor_in_range i (display_items st).
Proof.
  intros Hf Hin. apply elem_of_headers in Hin.
  destruct (find_category_entry_Some name _ 0 Hin) as (j & Hj & Hr & Hl).
  rewrite Z.sub_0_r in Hl.
  assert (Hne : is_empty (display_items st) = false).
  { apply is_empty_false. intros Hnil. rewrite Hnil in Hr. simpl in Hr. lia. }
  exists j. unfold restore_position_to_category. rewrite Hj.
  rewrite set_current_index_spec by done.
  split; [|split].
  - f_equal. f_equal. unfold settled_index.
    case_bool_decide; [done|]. rewrite Hne.
    apply clamp_index_fixed. lia.
  - by rewrite py_getitem_nonneg by lia.
  - unfold cursor_in_range. rewrite Hne. lia.
Qed.

Lemma consistent_with_current_index i st :
  consistent st → cursor_in_range i (display_items st) →
  consistent (with_current_index i st).
Proof. intros (Hm & Hwf & Hd & _) Hc. unfold consistent. by fields. Qed.

Lemma wf_menu_items_nonempty (m : menu) k cd :
  wf_menu m → dict_get k m = Some cd → items cd ≠ [].
Proof.
  intros [_ Hne] Hg. apply dict_get_Some_elem in Hg.
  rewrite Forall_forall in Hne. apply (Hne _ Hg).
Qed.

Lemma wf_menu_dict_set (m : menu) k cd :
  wf_menu m → items cd ≠ [] → wf_menu (dict_set k cd m).
Proof.
  intros [Hnd Hne] Hcd. split.
  - by apply dict_set_NoDup.
  - by apply dict_set_Forall.
Qed.

Lemma wf_menu_dict_del (m : menu) k : wf_menu m → wf_menu (dict_del k m).
Proof.
  intros [Hnd Hne]. split.
  - by apply dict_del_NoDup.
  - by apply dict_del_Forall.
Qed.

Lemma dict_set_nonempty {V} k (v : V) d : dict_set k v d ≠ [].
Proof. destruct d as [|[k' v'] d]; simpl; [done|]. by destruct (decide (k = k')). Qed.

Lemma dict_set_set {V} k (v v' : V) d :
  dict_set k v (dict_set k v' d) = dict_set k v d.
Proof.
  induction d as [|[k0 v0] d IH]; simpl.
  - by rewrite decide_True.
  - destruct (decide (k = k0)) as [->|Hne]; simpl.
    + by rewrite decide_True.
    + rewrite decide_False by done. by rewrite IH.
Qed.

Lemma dict_set_same {V} k (v : V) d : dict_get k d = Some v → dict_set k v d = d.
Proof.
  induction d as [|[k0 v0] d IH]; simpl; [done|].
  destruct (decide (k = k0)) as [->|Hne]; intros H.
  - by injection H as ->.
  - by rewrite IH.
Qed.

(** ** Toggling a category *)

Lemma action_toggle_category_spec fuel st name :
  (11 ≤ fuel)%nat → consistent st →
  py_getitem (display_items st) (current_index st) = Some (DCategory name) →
  ∃ cd st',
    dict_get name (menu_data st) = Some cd ∧
    action_toggle_category fuel st = Some st' ∧
    menu_data st' =
      dict_set name (Category (negb (expanded cd)) (items cd)) (menu_data st) ∧
    consistent st' ∧
    py_getitem (display_items st') (current_index st') = Some (DCategory name).
Proof.
  intros Hf Hst Hsel.
  destruct (selection_lookup _ _ Hst Hsel) as [Hns Hl].
  destruct Hst as (Hm & Hwf & Hd & Hc).
  assert (Hk : name ∈ (menu_data st).*1).
  { apply header_in_flatten. by apply list_elem_of_lookup_2 in Hl. }
  destruct (dict_get name (menu_data st)) as [cd|] eqn:Hg;
    [|by apply dict_get_None in Hg].
  set (v := dict_set name (Category (negb (expanded cd)) (items cd))
                     (menu_data st)).
  assert (Hwfv : wf_menu v).
  { apply wf_menu_dict_set; [done|]. simpl.
    exact (wf_menu_items_nonempty _ _ _ Hwf Hg). }
  destruct (commit_spec fuel v (with_menu_data v st)) as [n Hn];
    [done|done|done|by left|].
  assert (Hcons : consistent (committed v n (with_menu_data v st))).
  { apply committed_consistent; [done|done|apply dict_set_nonempty]. }
  destruct (restore_position_to_category_spec fuel name
              (committed v n (with_menu_data v st))) as (i & Hr & Hi & Hci).
  { lia. }
  { rewrite committed_display_items. apply header_in_flatten.
    unfold v. rewrite dict_set_keys.
    rewrite dict_mem_get, Hg. by rewrite bool_decide_eq_true_2. }
  exists cd, (with_current_index i (committed v n (with_menu_data v st))).
  split; [done|]. split; [|split; [|split]].
  - unfold action_toggle_category. rewrite Hns, Hsel.
    cbn [mbind option_bind]. rewrite Hg. fold v.
    unfold commit in Hn.
    destruct (set_menu_data fuel v (with_menu_data v st)) as [s1|];
      [|done].
    cbn [mbind option_bind] in *. rewrite Hn. cbn [mbind option_bind].
    exact Hr.
  - change (menu_data (committed v n (with_menu_data v st)) = v).
    apply committed_menu_data.
  - by apply consistent_with_current_index.
  - exact Hi.
Qed.

Lemma consistent_notify msg sev st : consistent st → consistent (notify msg sev st).
Proof. intros (Hm & Hwf & Hd & Hc). unfold consistent. by fields. Qed.

Lemma commit_consistent fuel v st :
  (11 ≤ fuel)%nat → menu_container st = true → wf_menu v → v ≠ [] →
  menu_data st = v ∨ dict_eqb (menu_data st) v = false →
  ∃ n, commit fuel v st = Some (committed v n st) ∧
       consistent (committed v n st).
Proof.
  intros Hf Hm Hwf Hv Hcase.
  destruct (commit_spec fuel v st Hf Hm Hwf Hcase) as [n Hn].
  exists n. split; [done|]. by apply committed_consistent.
Qed.

(** Unfold the pipeline at the end of a mutation with its result. *)
Lemma commit_bind fuel v st st' (k : app → option app) :
  commit fuel v st = Some st' →
  (s ← set_menu_data fuel v st;
   s' ← update_menu_display fuel (save_menu_data s); k s') = k st'.
Proof.
  unfold commit. intros H.
  destruct (set_menu_data fuel v st) as [s|]; [|done].
  cbn [mbind option_bind] in *. by rewrite H.
Qed.

(** ** Adding an item *)

(** The tree [add_new_item] builds. *)
Lemma append_item_existing (m : menu) (it : item) cd :
  dict_get (category it) m = Some cd →
  append_item (category it) it m =
    dict_set (category it) (Category (expanded cd) (items cd ++ [it])) m.
Proof. intros Hg. unfold append_item. by rewrite Hg. Qed.

Lemma append_item_new (m : menu) (it : item) :
  dict_get (category it) m = None →
  append_item (category it) it
    (dict_set (category it) (Category true []) m) =
  m ++ [(category it, Category true [it])].
Proof.
  intros Hg. unfold append_item.
  rewrite dict_get_set, decide_True by done. simpl.
  rewrite dict_set_set. apply dict_set_fresh. by apply dict_get_None.
Qed.

Lemma add_new_item_redraw fuel (it : item) st :
  (11 ≤ fuel)%nat → menu_container st = true → wf_menu (menu_data st) →
  ∃ v n,
    v = match dict_get (category it) (menu_data st) with
        | Some cd =>
            dict_set (category it)
                     (Category (expanded cd) (items cd ++ [it])) (menu_data st)
        | None => menu_data st ++ [(category it, Category true [it])]
        end ∧
    add_new_item fuel it st =
      Some (notify ("Added: " +:+ label it) information (committed v n st)) ∧
    consistent (committed v n st).
Proof.
  intros Hf Hm Hwf.
  unfold add_new_item. rewrite dict_mem_get.
  destruct (dict_get (category it) (menu_data st)) as [cd|] eqn:Hg.
  - rewrite bool_decide_eq_true_2 by done. cbn [negb].
    rewrite (append_item_existing _ _ cd Hg).
    set (v := dict_set _ _ _).
    destruct (commit_consistent fuel v (with_menu_data v st)) as (n & Hn & Hcons);
      [done|done| |apply dict_set_nonempty|by left|].
    { apply wf_menu_dict_set; [done|]. by destruct (items cd). }
    exists v, n. split; [done|].
    rewrite (commit_bind _ _ _ _ _ Hn). done.
  - rewrite bool_decide_eq_false_2 by (by intros [? ?]). cbn [negb].
    rewrite (append_item_new _ _ Hg).
    set (v := _ ++ _).
    destruct (commit_consistent fuel v st) as (n & Hn & Hcons);
      [done|done| | |right|].
    { destruct Hwf as [Hnd Hne]. split.
      - unfold v. rewrite fmap_app. apply NoDup_app. split; [done|].
        split; [|apply NoDup_singleton].
        intros x Hx Hx'. apply list_elem_of_singleton in Hx'. subst x.
        by apply dict_get_None in Hg.
      - apply Forall_app. split; [done|]. by repeat constructor. }
    { unfold v. by destruct (menu_data st). }
    { apply dict_eqb_length. unfold v. rewrite length_app. simpl. lia. }
    exists v, n. split; [done|].
    rewrite (commit_bind _ _ _ _ _ Hn). done.
Qed.

Lemma add_new_item_spec fuel (it : item) st :
  (11 ≤ fuel)%nat → consistent st →
  ∃ v n,
    v = match dict_get (category it) (menu_data st) with
        | Some cd =>
            dict_set (category it)
                     (Category (expanded cd) (items cd ++ [it])) (menu_data st)
        | None => menu_data st ++ [(category it, Category true [it])]
        end ∧
    add_new_item fuel it st =
      Some (notify ("Added: " +:+ label it) information (committed v n st)) ∧
    consistent (committed v n st).
Proof.
  intros Hf (Hm & Hwf & _). by apply add_new_item_redraw.
Qed.

(** ** Updating an item *)

Lemma first_match_none ol oc (l : list item) i :
  Forall (fun x => same_label_cmd ol oc x = false) l →
  first_match ol oc l i = None.
Proof.
  intros Hl. revert i. induction Hl as [|x l Hx Hl IH]; intros i; simpl.
  - done.
  - by rewrite Hx.
Qed.

Lemma first_match_found ol oc (l1 l2 : list item) it i :
  Forall (fun x => same_label_cmd ol oc x = false) l1 →
  same_label_cmd ol oc it = true →
  first_match ol oc (l1 ++ it :: l2) i = Some (i + length l1)%nat.
Proof.
  intros Hl Hit. revert i. induction Hl as [|x l Hx Hl IH]; intros i; simpl.
  - rewrite Hit. f_equal. lia.
  - rewrite Hx, IH. f_equal. lia.
Qed.

Lemma first_match_bound ol oc (l : list item) i j :
  first_match ol oc l i = Some j → (i ≤ j < i + length l)%nat.
Proof.
  revert i. induction l as [|x l IH]; intros i; simpl; [done|].
  destruct (same_label_cmd ol oc x).
  - intros [= <-]. lia.
  - intros H. apply IH in H. lia.
Qed.

Lemma replace_first_match_none ol oc new_item (m : menu) :
  Forall (fun kv => Forall (fun x => same_label_cmd ol oc x = false)
                           (items kv.2)) m →
  replace_first_match ol oc new_item m = None.
Proof.
  intros Hm. induction Hm as [|[k c] m Hc Hm IH]; simpl; [done|].
  simpl in Hc. rewrite first_match_none by done. by rewrite IH.
Qed.

Lemma replace_first_match_found ol oc new_item (m1 m2 : menu) k c l1 l2 it :
  Forall (fun kv => Forall (fun x => same_label_cmd ol oc x = false)
                           (items kv.2)) m1 →
  items c = l1 ++ it :: l2 →
  Forall (fun x => same_label_cmd ol oc x = false) l1 →
  same_label_cmd ol oc it = true →
  replace_first_match ol oc new_item (m1 ++ (k, c) :: m2) =
    Some (m1 ++ (k, Category (expanded c) (l1 ++ new_item :: l2)) :: m2).
Proof.
  intros Hm1 Hc Hl1 Hit.
  induction Hm1 as [|[k' c'] m1 Hc' Hm1 IH]; simpl.
  - rewrite Hc, first_match_found by done. simpl.
    replace (length l1) with (length l1 + 0)%nat by lia.
    by rewrite insert_app_r.
  - simpl in Hc'. rewrite first_match_none by done. by rewrite IH.
Qed.

Lemma replace_first_match_wf ol oc new_item (m v : menu) :
  replace_first_match ol oc new_item m = Some v →
  wf_menu m → wf_menu v ∧ v ≠ [].
Proof.
  revert v. induction m as [|[k c] m IH]; intros v; simpl; [done|].
  destruct (first_match ol oc (items c) 0) as [i|] eqn:Hi.
  - intros [= <-] [Hnd Hne]. split; [|done]. split; [done|].
    apply Forall_cons in Hne as [Hc Hne]. apply Forall_cons. split; [|done].
    simpl in *. intros Hnil. apply Hc.
    apply (f_equal length) in Hnil. rewrite length_insert in Hnil.
    by destruct (items c).
  - destruct (replace_first_match ol oc new_item m) as [v'|] eqn:Hv; [|done].
    intros [= <-] [Hnd Hne]. split; [|done].
    csimpl in Hnd. apply NoDup_cons in Hnd as [Hk Hnd].
    apply Forall_cons in Hne as [Hc Hne].
    destruct (IH v' eq_refl) as [[Hnd' Hne'] _]; [by split|].
    assert (Hkeys : ∀ (m0 v0 : menu),
               replace_first_match ol oc new_item m0 = Some v0 →
               v0.*1 = m0.*1).
    { clear. induction m0 as [|[k0 c0] m0 IH0]; intros v0; simpl; [done|].
      destruct (first_match ol oc (items c0) 0); [by intros [= <-]|].
      destruct (replace_first_match ol oc new_item m0) as [w|]; [|done].
      intros [= <-]. csimpl. by rewrite (IH0 w). }
    split.
    + csimpl. apply NoDup_cons. split; [|done]. by rewrite (Hkeys _ _ Hv).
    + by apply Forall_cons.
Qed.

Lemma update_item_redraw fuel old_item new_item st :
  (11 ≤ fuel)%nat → menu_container st = true → wf_menu (menu_data st) →
  match replace_first_match (label old_item) (cmd old_item) new_item
          (menu_data st) with
  | Some v =>
      ∃ n, update_item fuel old_item new_item st =
             Some (notify ("Updated: " +:+ label new_item) information
                          (committed v n st)) ∧
           consistent (committed v n st)
  | None =>
      update_item fuel old_item new_item st =
        Some (notify ("Item not found for update: " +:+ label old_item)
                     warning st)
  end.
Proof.
  intros Hf Hm Hwf. unfold update_item.
  destruct (replace_first_match _ _ _ _) as [v|] eqn:Hv; [|done].
  destruct (replace_first_match_wf _ _ _ _ _ Hv Hwf) as [Hwfv Hne].
  destruct (commit_consistent fuel v (with_menu_data v st))
    as (n & Hn & Hcons); [done|done|done|done|by left|].
  exists n. split; [|done].
  by rewrite (commit_bind _ _ _ _ _ Hn).
Qed.

Lemma update_item_spec fuel old_item new_item st :
  (11 ≤ fuel)%nat → consistent st →
  match replace_first_match (label old_item) (cmd old_item) new_item
          (menu_data st) with
  | Some v =>
      ∃ n, update_item fuel old_item new_item st =
             Some (notify ("Updated: " +:+ label new_item) information
                          (committed v n st)) ∧
           consistent (committed v n st)
  | None =>
      update_item fuel old_item new_item st =
        Some (notify ("Item not found for update: " +:+ label old_item)
                     warning st)
  end.
Proof.
  intros Hf (Hm & Hwf & _). by apply update_item_redraw.
Qed.

(** C3.  [update_item] looks for the first item, in category order and then
    in item order, whose label and command are those of [old_item].  When
    the tree reads [m1 ++ (k, c) :: m2] with no such item in [m1], and the
    items of [c] read [l1 ++ it :: l2] with no such item in [l1] and [it]
    such an item, the call ends with the tree in which that one slot holds
    [new_item] (same category [k], same position, whatever the category
    field of [new_item] says) and announces the update.  When no item of the
    tree has that label and command, the call leaves the state as it is
    but for one warning, "Item not found for update". *)
Theorem update_item_first_match fuel old_item new_item st :
  (11 ≤ fuel)%nat → consistent st →
  (∀ (m1 m2 : menu) k c l1 l2 it,
     menu_data st = m1 ++ (k, c) :: m2 →
     Forall (fun kv =>
               Forall (fun x => same_label_cmd (label old_item) (cmd old_item)
                                               x = false) (items kv.2)) m1 →
     items c = l1 ++ it :: l2 →
     Forall (fun x => same_label_cmd (label old_item) (cmd old_item) x = false)
            l1 →
     label it = label old_item → cmd it = cmd old_item →
     ∃ st',
       update_item fuel old_item new_item st = Some st' ∧
       menu_data st' =
         m1 ++ (k, Category (expanded c) (l1 ++ new_item :: l2)) :: m2 ∧
       display_items st' = flatten (menu_data st') ∧
       last (notifications st') =
         Some (Notification information ("Updated: " +:+ label new_item))) ∧
  (Forall (fun kv =>
             Forall (fun x => same_label_cmd (label old_item) (cmd old_item)
                                             x = false) (items kv.2))
          (menu_data st) →
   ∃ st',
     update_item fuel old_item new_item st = Some st' ∧
     menu_data st' = menu_data st ∧
     display_items st' = display_items st ∧
     current_index st' = current_index st ∧
     config_file st' = config_file st ∧
     notifications st' =
       notifications st ++
       [Notification warning
          ("Item not found for update: " +:+ label old_item)]).
Proof.
  intros Hf Hst.
  pose proof (update_item_spec fuel old_item new_item st Hf Hst) as Hspec.
  split.
  - intros m1 m2 k c l1 l2 it Hmenu Hm1 Hitems Hl1 Hlabel Hcmd.
    rewrite Hmenu in Hspec.
    rewrite (replace_first_match_found _ _ _ m1 m2 k c l1 l2 it) in Hspec;
      [|done|done|done|].
    2:{ unfold same_label_cmd. by rewrite !bool_decide_eq_true_2. }
    destruct Hspec as (n & Hupd & Hcons).
    eexists. split; [exact Hupd|]. split; [|split].
    + change (menu_data (committed
                (m1 ++ (k, Category (expanded c) (l1 ++ new_item :: l2)) :: m2)
                n st) = m1 ++ (k, Category (expanded c) (l1 ++ new_item :: l2)) :: m2).
      apply committed_menu_data.
    + apply (consistent_notify _ _ _ Hcons).
    + unfold notify. fields. by rewrite last_snoc.
  - intros Hnone. rewrite (replace_first_match_none _ _ _ _ Hnone) in Hspec.
    eexists. split; [exact Hspec|]. by repeat split.
Qed.

(** ** Renaming a category *)

Lemma rename_category_noop fuel old_name new_name st :
  dict_get old_name (menu_data st) = None ∨ new_name = old_name →
  rename_category fuel old_name new_name st = Some st.
Proof.
  intros Hcase. unfold rename_category. rewrite dict_mem_get.
  destruct Hcase as [Hg| ->].
  - rewrite Hg. rewrite bool_decide_eq_false_2; [done|]. by intros [? ?].
  - rewrite (bool_decide_eq_true_2 (old_name = old_name)) by done.
    by rewrite orb_true_r.
Qed.

Lemma rename_category_redraw fuel old_name new_name st cd :
  (11 ≤ fuel)%nat → menu_container st = true → wf_menu (menu_data st) →
  dict_get old_name (menu_data st) = Some cd → new_name ≠ old_name →
  let renamed := Category (expanded cd) (set_category new_name <$> items cd) in
  ∃ v n,
    rename_category fuel old_name new_name st =
      Some (notify ("Renamed category: " +:+ old_name +:+ " → " +:+ new_name)
                   information (committed v n st)) ∧
    consistent (committed v n st) ∧
    dict_get new_name v = Some renamed ∧
    dict_get old_name v = None ∧
    (∀ k, k ≠ old_name → k ≠ new_name →
          dict_get k v = dict_get k (menu_data st)).
Proof.
  intros Hf Hm Hwf Hg Hne renamed.
  set (shared := dict_set old_name renamed (menu_data st)).
  set (v := dict_del old_name (dict_set new_name renamed shared)).
  assert (Hitems : items renamed ≠ []).
  { simpl. intros Hnil. apply fmap_nil_inv in Hnil.
    by apply (wf_menu_items_nonempty _ _ _ Hwf Hg). }
  assert (Hwfs : wf_menu shared) by by apply wf_menu_dict_set.
  assert (Hwf2 : wf_menu (dict_set new_name renamed shared))
    by by apply wf_menu_dict_set.
  assert (Hwfv : wf_menu v) by by apply wf_menu_dict_del.
  assert (Hget : ∀ k, dict_get k v =
                      if decide (k = old_name) then None
                      else if decide (k = new_name) then Some renamed
                           else dict_get k (menu_data st)).
  { intros k. unfold v. rewrite dict_get_del by apply Hwf2.
    destruct (decide (k = old_name)); [done|].
    rewrite dict_get_set. destruct (decide (k = new_name)); [done|].
    unfold shared. rewrite dict_get_set. by rewrite decide_False. }
  assert (Hnew : dict_get new_name v = Some renamed).
  { rewrite Hget. rewrite decide_False by done. by rewrite decide_True. }
  assert (Hold : dict_get old_name v = None).
  { rewrite Hget. by rewrite decide_True. }
  destruct (commit_consistent fuel v (with_menu_data shared st))
    as (n & Hn & Hcons); [done|done|done| |right|].
  { intros Hnil. by rewrite Hnil in Hnew. }
  { apply (dict_eqb_missing old_name renamed); [|done].
    apply dict_get_Some_elem.
    change (dict_get old_name shared = Some renamed). unfold shared.
    rewrite dict_get_set. by rewrite decide_True. }
  exists v, n. split; [|split; [done|split; [done|split; [done|]]]].
  - unfold rename_category. rewrite dict_mem_get, Hg.
    rewrite bool_decide_eq_true_2 by done.
    rewrite bool_decide_eq_false_2 by done. cbn [negb orb].
    fold renamed. fold shared. fold v.
    by rewrite (commit_bind _ _ _ _ _ Hn).
  - intros k Hk1 Hk2. rewrite Hget. by rewrite !decide_False.
Qed.

Lemma rename_category_spec fuel old_name new_name st cd :
  (11 ≤ fuel)%nat → consistent st →
  dict_get old_name (menu_data st) = Some cd → new_name ≠ old_name →
  let renamed := Category (expanded cd) (set_category new_name <$> items cd) in
  ∃ v n,
    rename_category fuel old_name new_name st =
      Some (notify ("Renamed category: " +:+ old_name +:+ " → " +:+ new_name)
                   information (committed v n st)) ∧
    consistent (committed v n st) ∧
    dict_get new_name v = Some renamed ∧
    dict_get old_name v = None ∧
    (∀ k, k ≠ old_name → k ≠ new_name →
          dict_get k v = dict_get k (menu_data st)).
Proof.
  intros Hf (Hm & Hwf & _). by apply rename_category_redraw.
Qed.

(** C5.  [rename_category] returns at once, leaving the state as it is,
    when the old name is not a key of the tree or the new name is the old
    one.  Otherwise, in a consistent state, the tree it leaves binds the
    new name to the old category's expanded flag and item list, with the
    category field of each of these items set to the new name; the old name
    is no longer a key; the other categories are as before; and the
    display list, rebuilt from that tree, has a header for the new name. *)
Theorem rename_category_correct fuel old_name new_name st :
  (dict_get old_name (menu_data st) = None ∨ new_name = old_name →
   rename_category fuel old_name new_name st = Some st) ∧
  (∀ cd,
     (11 ≤ fuel)%nat → consistent st →
     dict_get old_name (menu_data st) = Some cd → new_name ≠ old_name →
     ∃ st',
       rename_category fuel old_name new_name st = Some st' ∧
       dict_get new_name (menu_data st') =
         Some (Category (expanded cd) (set_category new_name <$> items cd)) ∧
       dict_get old_name (menu_data st') = None ∧
       (∀ k, k ≠ old_name → k ≠ new_name →
             dict_get k (menu_data st') = dict_get k (menu_data st)) ∧
       display_items st' = flatten (menu_data st') ∧
       DCategory new_name ∈ flatten (menu_data st') ∧
       (∀ cd' it, dict_get new_name (menu_data st') = Some cd' →
                  it ∈ items cd' → category it = new_name)).
Proof.
  split; [apply rename_category_noop|].
  intros cd Hf Hst Hg Hne.
  destruct (rename_category_spec fuel old_name new_name st cd Hf Hst Hg Hne)
    as (v & n & Hren & Hcons & Hnew & Hold & Hother).
  assert (Hmenu : menu_data
            (notify ("Renamed category: " +:+ old_name +:+ " → " +:+ new_name)
                    information (committed v n st)) = v)
    by apply committed_menu_data.
  eexists. split; [exact Hren|]. rewrite Hmenu.
  split; [done|]. split; [done|]. split; [done|]. split; [|split].
  - change (display_items (committed v n st) = flatten v).
    apply committed_display_items.
  - apply header_in_flatten. apply dict_get_Some_elem in Hnew.
    apply (list_elem_of_fmap_2 fst _ _ Hnew).
  - intros cd' it Hcd' Hit. rewrite Hnew in Hcd'. injection Hcd' as <-.
    simpl in Hit. apply list_elem_of_fmap in Hit as (x & -> & _). done.
Qed.

(** ** Deleting an item *)

Lemma dict_del_set {V} k (v : V) d : dict_del k (dict_set k v d) = dict_del k d.
Proof.
  induction d as [|[k0 v0] d IH]; simpl.
  - by rewrite decide_True.
  - destruct (decide (k = k0)) as [->|Hne]; simpl.
    + by rewrite decide_True.
    + rewrite decide_False by done. by rewrite IH.
Qed.

(** The two guards of [action_delete_item] without an [else]: the category
    named by the item is not a key of the tree, or its list holds no item
    equal to the selected one.  The call then returns the state as it is. *)
Lemma action_delete_item_silent fuel st it :
  py_getitem (display_items st) (current_index st) = Some (DItem it) →
  dict_get (category it) (menu_data st) = None ∨
  (∃ cd, dict_get (category it) (menu_data st) = Some cd ∧ it ∉ items cd) →
  action_delete_item fuel st = Some st.
Proof.
  intros Hsel Hcase. unfold action_delete_item.
  destruct (no_selection st); [done|].
  rewrite Hsel. cbn [mbind option_bind].
  destruct Hcase as [Hg|(cd & Hg & Hnin)]; rewrite Hg; [done|].
  by rewrite bool_decide_eq_false_2.
Qed.

Lemma action_delete_item_category fuel st name :
  consistent st →
  py_getitem (display_items st) (current_index st) = Some (DCategory name) →
  action_delete_item fuel st =
    Some (notify "Cannot delete categories directly" warning st).
Proof.
  intros Hst Hsel. unfold action_delete_item.
  destruct (selection_lookup _ _ Hst Hsel) as [Hns _].
  rewrite Hns, Hsel. done.
Qed.

Lemma tree_without_wf it cd (m : menu) :
  wf_menu m → wf_menu (tree_without it cd m).
Proof.
  intros Hwf. unfold tree_without.
  destruct (is_empty _) eqn:He.
  - by apply wf_menu_dict_del.
  - apply wf_menu_dict_set; [done|]. simpl. by apply is_empty_false.
Qed.

Lemma action_delete_item_redraw fuel st it cd :
  (11 ≤ fuel)%nat → menu_container st = true → wf_menu (menu_data st) →
  no_selection st = false → 0 ≤ current_index st →
  py_getitem (display_items st) (current_index st) = Some (DItem it) →
  dict_get (category it) (menu_data st) = Some cd → it ∈ items cd →
  ∃ st',
    action_delete_item fuel st = Some st' ∧
    menu_data st' = tree_without it cd (menu_data st) ∧
    consistent st' ∧
    last (notifications st') =
      Some (Notification information ("Deleted: " +:+ label it)).
Proof.
  intros Hf Hm Hwf Hns Hcur Hsel Hg Hin.
  set (remaining := list_remove_first it (items cd)).
  set (shared := dict_set (category it) (Category (expanded cd) remaining)
                          (menu_data st)).
  set (v := tree_without it cd (menu_data st)).
  assert (Hv : v = if is_empty remaining then dict_del (category it) shared
                   else shared).
  { unfold v, tree_without. fold remaining.
    destruct (is_empty remaining); [|done].
    unfold shared. by rewrite dict_del_set. }
  assert (Hwfv : wf_menu v) by by apply tree_without_wf.
  destruct (commit_spec fuel v (with_menu_data shared st)) as [n Hn];
    [done|done|done| |].
  { change (shared = v ∨ dict_eqb shared v = false). rewrite Hv.
    destruct (is_empty remaining); [right|by left].
    apply dict_eqb_length.
    assert (dict_mem (category it) shared = true) as Hmem.
    { unfold shared. rewrite dict_mem_get, dict_get_set.
      rewrite decide_True by done. by apply bool_decide_eq_true_2. }
    apply dict_del_length in Hmem. lia. }
  set (s1 := notify ("Deleted: " +:+ label it) information
                    (committed v n (with_menu_data shared st))).
  assert (Hstep : action_delete_item fuel st =
            if bool_decide (Z.of_nat (length (display_items s1)) - 1
                            ≤ current_index s1)
            then set_current_index fuel
                   (Z.max 0 (Z.of_nat (length (display_items s1)) - 2)) s1
            else Some s1).
  { unfold action_delete_item. rewrite Hns, Hsel.
    cbn [mbind option_bind]. rewrite Hg.
    rewrite bool_decide_eq_true_2 by done.
    fold remaining. fold shared. rewrite <- Hv.
    by rewrite (commit_bind _ _ _ _ _ Hn). }
  assert (Hd1 : display_items s1 = flatten v) by done.
  assert (Hc1 : current_index s1 =
                highlighted_index (current_index st) (flatten v)) by done.
  assert (Hm1 : menu_data s1 = v) by apply committed_menu_data.
  assert (Hmc1 : menu_container s1 = true).
  { change (menu_container (committed v n (with_menu_data shared st)) = true).
    by rewrite committed_menu_container. }
  assert (Hn1 : last (notifications s1) =
                Some (Notification information ("Deleted: " +:+ label it))).
  { unfold s1, notify. fields. by rewrite last_snoc. }
  rewrite Hstep. clear Hstep Hn. clearbody s1.
  rewrite set_current_index_spec by lia.
  unfold settled_index. rewrite Hd1, Hc1.
  destruct (is_empty (flatten v)) eqn:He.
  - (* the display list is empty: the cursor goes to 0 *)
    apply is_empty_true in He as Hnil.
    unfold highlighted_index. rewrite He, Hnil. simpl length.
    rewrite bool_decide_eq_true_2 by lia.
    eexists. split; [done|]. fields. split; [done|]. split; [|done].
    unfold consistent. fields. rewrite Hm1, Hd1.
    split; [done|]. split; [done|]. split; [done|].
    rewrite Hnil. unfold cursor_in_range. simpl. by case_bool_decide.
  - apply is_empty_false in He as Hne.
    pose proof (highlighted_index_range (current_index st) _ Hne) as Hr.
    case_bool_decide as Hlast.
    + eexists. split; [done|]. fields. split; [done|]. split; [|done].
      unfold consistent. fields. rewrite Hm1, Hd1.
      split; [done|]. split; [done|]. split; [done|].
      unfold cursor_in_range. rewrite He.
      case_bool_decide; [lia|].
      pose proof (clamp_index_range
                    (Z.max 0 (Z.of_nat (length (flatten v)) - 2)) _ Hne).
      lia.
    + eexists. split; [done|]. split; [done|]. split; [|done].
      unfold consistent. rewrite Hm1, Hd1, Hc1.
      split; [done|]. split; [done|]. split; [done|].
      unfold cursor_in_range. by rewrite He.
Qed.

Lemma action_delete_item_spec fuel st it cd :
  (11 ≤ fuel)%nat → consistent st →
  py_getitem (display_items st) (current_index st) = Some (DItem it) →
  dict_get (category it) (menu_data st) = Some cd → it ∈ items cd →
  ∃ st',
    action_delete_item fuel st = Some st' ∧
    menu_data st' = tree_without it cd (menu_data st) ∧
    consistent st' ∧
    last (notifications st') =
      Some (Notification information ("Deleted: " +:+ label it)).
Proof.
  intros Hf Hst Hsel Hg Hin.
  destruct (selection_lookup _ _ Hst Hsel) as [Hns _].
  destruct Hst as (Hm & Hwf & _ & Hc).
  destruct (cursor_in_range_lookup _ _ _ Hc Hsel) as [Hcur _].
  apply action_delete_item_redraw; (done || lia).
Qed.

(** ** Every mutation keeps the state consistent *)

Lemma consistent_selection st :
  consistent st →
  no_selection st = true ∨
  ∃ e, py_getitem (display_items st) (current_index st) = Some e.
Proof.
  intros (_ & _ & _ & Hc). unfold no_selection, cursor_in_range in *.
  destruct (is_empty (display_items st)) eqn:He; [by left|]. right.
  rewrite py_getitem_nonneg by lia.
  apply lookup_lt_is_Some. lia.
Qed.

Lemma mutate_consistent fuel mu st :
  (11 ≤ fuel)%nat → consistent st →
  ∃ st', mutate fuel mu st = Some st' ∧ consistent st'.
Proof.
  intros Hf Hst. destruct mu as [it|old_item new_item| |old_name new_name|];
    cbn [mutate].
  - destruct (add_new_item_spec fuel it st Hf Hst) as (v & n & _ & Hadd & Hc).
    eexists. split; [exact Hadd|]. by apply consistent_notify.
  - pose proof (update_item_spec fuel old_item new_item st Hf Hst) as Hupd.
    destruct (replace_first_match _ _ _ _) as [v|].
    + destruct Hupd as (n & Hupd & Hc).
      eexists. split; [exact Hupd|]. by apply consistent_notify.
    + eexists. split; [exact Hupd|]. by apply consistent_notify.
  - destruct (consistent_selection st Hst) as [Hns|[e Hsel]].
    { exists st. split; [|done]. unfold action_delete_item. by rewrite Hns. }
    destruct e as [name|it].
    { rewrite (action_delete_item_category _ _ name Hst Hsel).
      eexists. split; [done|]. by apply consistent_notify. }
    destruct (dict_get (category it) (menu_data st)) as [cd|] eqn:Hg.
    + destruct (decide (it ∈ items cd)) as [Hin|Hnin].
      * destruct (action_delete_item_spec fuel st it cd Hf Hst Hsel Hg Hin)
          as (st' & Hdel & _ & Hc & _).
        by exists st'.
      * exists st. split; [|done].
        apply (action_delete_item_silent _ _ it Hsel). right. by exists cd.
    + exists st. split; [|done].
      apply (action_delete_item_silent _ _ it Hsel). by left.
  - destruct (dict_get old_name (menu_data st)) as [cd|] eqn:Hg.
    + destruct (decide (new_name = old_name)) as [Heq|Hne].
      * exists st. split; [|done]. apply rename_category_noop. by right.
      * destruct (rename_category_spec fuel old_name new_name st cd
                    Hf Hst Hg Hne) as (v & n & Hren & Hc & _).
        eexists. split; [exact Hren|]. by apply consistent_notify.
    + exists st. split; [|done]. apply rename_category_noop. by left.
  - destruct (consistent_selection st Hst) as [Hns|[e Hsel]].
    { exists st. split; [|done]. unfold action_toggle_category.
      by rewrite Hns. }
    destruct e as [name|it].
    + destruct (action_toggle_category_spec fuel st name Hf Hst Hsel)
        as (cd & st' & _ & Htog & _ & Hc & _).
      by exists st'.
    + exists st. split; [|done]. unfold action_toggle_category.
      destruct (no_selection st); [done|]. by rewrite Hsel.
Qed.



(** ** Start-up and persistence *)

(** Before the application is mounted the watcher of [menu_data] finds no
    container and draws nothing. *)
Lemma set_menu_data_unmounted n v st :
  menu_container st = false →
  set_menu_data (S (S (S n))) v st =
    Some (if dict_eqb (menu_data st) v then st else with_menu_data v st).
Proof.
  intros Hm. cbn [set_menu_data].
  destruct (dict_eqb (menu_data st) v); [done|].
  cbn [watch_menu_data update_menu_display].
  cbn [menu_container with_menu_data]. by rewrite Hm.
Qed.

Lemma dict_eqb_nil_l {V} `{!EqDecision V} (d : list (string * V)) :
  dict_eqb [] d = true → d = [].
Proof.
  unfold dict_eqb. intros H. apply andb_true_iff in H as [H _].
  apply bool_decide_eq_true_1 in H. by destruct d.
Qed.

Lemma set_menu_data_init n v disk w :
  ∃ st, set_menu_data (S (S (S n))) v (init_fields disk w) = Some st ∧
        st = with_menu_data v (init_fields disk w).
Proof.
  rewrite set_menu_data_unmounted by done.
  destruct (dict_eqb _ v) eqn:He; [|by eexists].
  apply dict_eqb_nil_l in He. subst v. by eexists.
Qed.

Lemma create_default_menu_init n disk :
  create_default_menu (S (S (S n))) (init_fields disk true) =
    Some (App default_data 0 [] false default_theme default_title
              (Stored default_document) true [] 0).
Proof.
  unfold create_default_menu.
  destruct (set_menu_data_init n default_data disk true) as (st & -> & ->).
  done.
Qed.

(** C7.  When the configuration file is missing, or is there but empty, a
    new application holds the built-in tree (one category "System Tools",
    expanded, with the one item "System Monitor" running "htop") and the
    built-in settings, and the file holds that tree and those settings
    from then on. *)
Theorem load_without_file_writes_default n disk :
  disk = Absent ∨ disk = Corrupt "" →
  ∃ st' it,
    new_app (S (S (S n))) disk true = Some st' ∧
    menu_data st' = [("System Tools", Category true [it])] ∧
    label it = "System Monitor" ∧ cmd it = "htop" ∧
    app_theme st' = default_theme ∧ app_title st' = default_title ∧
    config_file st' =
      Stored (Document (Some (menu_data st'))
                (Some (SettingsObject (Some default_theme)
                                      (Some default_title)))).
Proof.
  intros Hdisk. exists
    (App default_data 0 [] false default_theme default_title
         (Stored default_document) true [] 0), default_item.
  split; [|done].
  unfold new_app, load_menu_data.
  destruct Hdisk as [-> | ->]; cbn [config_file init_fields];
    apply create_default_menu_init.
Qed.

(** C9.  When the configuration file is there but cannot be read or parsed,
    a new application not only holds the built-in tree: it has written the
    built-in document to the file, whose former content is gone. *)
Theorem load_corrupt_file_overwrites n raw :
  ∃ st',
    new_app (S (S (S n))) (Corrupt raw) true = Some st' ∧
    menu_data st' = default_data ∧
    config_file st' = Stored default_document ∧
    config_file st' ≠ Corrupt raw.
Proof.
  eexists. split.
  - unfold new_app, load_menu_data. cbn [config_file init_fields].
    apply create_default_menu_init.
  - done.
Qed.

(** ** Sessions stay consistent *)

Lemma load_settings_fields s st :
  menu_data (load_settings s st) = menu_data st ∧
  current_index (load_settings s st) = current_index st.
Proof.
  unfold load_settings. destruct (so_theme s), (so_title s); done.
Qed.

Lemma new_app_spec n disk w :
  ∃ st,
    new_app (S (S (S n))) disk w = Some st ∧
    menu_data st = match disk with
                   | Stored d => default [] (doc_categories d)
                   | Absent | Corrupt _ => default_data
                   end ∧
    current_index st = 0.
Proof.
  unfold new_app, load_menu_data. cbn [config_file init_fields].
  destruct disk as [|raw|d].
  - unfold create_default_menu.
    destruct (set_menu_data_init n default_data Absent w) as (s & -> & ->).
    eexists. split; [done|]. by rewrite save_menu_data_menu_data,
      save_menu_data_current_index.
  - unfold create_default_menu.
    destruct (set_menu_data_init n default_data (Corrupt raw) w)
      as (s & -> & ->).
    eexists. split; [done|]. by rewrite save_menu_data_menu_data,
      save_menu_data_current_index.
  - destruct (set_menu_data_init n (default [] (doc_categories d))
                (Stored d) w) as (s & -> & ->).
    cbn [mbind option_bind].
    destruct (doc_app_settings d) as [so|]; eexists; (split; [done|]).
    + destruct (load_settings_fields so
                  (with_menu_data (default [] (doc_categories d))
                                  (init_fields (Stored d) w))) as [-> ->].
      done.
    + done.
Qed.

Lemma default_data_wf : wf_menu default_data.
Proof. apply (bool_decide_unpack _). vm_compute. exact I. Qed.

Lemma on_mount_consistent fuel st :
  (9 ≤ fuel)%nat → wf_menu (menu_data st) → current_index st = 0 →
  ∃ st', on_mount fuel st = Some st' ∧ consistent st'.
Proof.
  intros Hf Hwf Hc. unfold on_mount.
  rewrite update_menu_display_spec by done.
  eexists. split; [done|].
  unfold consistent, update_status. fields.
  split; [done|]. split; [done|]. split; [done|].
  rewrite Hc. unfold cursor_in_range, highlighted_index.
  destruct (flatten (menu_data st)) as [|e d]; [done|].
  simpl is_empty. cbv iota.
  unfold clamp_index. simpl length. lia.
Qed.

Lemma startup_consistent fuel disk w st :
  (11 ≤ fuel)%nat → loadable disk →
  (st ← new_app fuel disk w; on_mount fuel st) = Some st →
  consistent st.
Proof.
  intros Hf Hdisk Hstart.
  do 3 (destruct fuel as [|fuel]; [lia|]).
  destruct (new_app_spec fuel disk w) as (s & Hs & Hmenu & Hcur).
  rewrite Hs in Hstart. cbn [mbind option_bind] in Hstart.
  destruct (on_mount_consistent (S (S (S fuel))) s) as (st' & Hst' & Hcons);
    [lia| |done|].
  - rewrite Hmenu. destruct disk; [apply default_data_wf..|done].
  - rewrite Hst' in Hstart. by injection Hstart as <-.
Qed.

Lemma action_cursor_up_consistent fuel st st' :
  (6 ≤ fuel)%nat → consistent st →
  action_cursor_up fuel st = Some st' → consistent st'.
Proof.
  intros Hf Hst. unfold action_cursor_up.
  destruct (is_empty (display_items st)) eqn:He; cbn [negb];
    [by intros [= <-]|].
  case_bool_decide as Hnew; [|by intros [= <-]].
  rewrite set_current_index_spec by done. intros [= <-].
  apply consistent_with_current_index; [done|].
  destruct Hst as (_ & _ & _ & Hc). unfold cursor_in_range in *.
  rewrite He in *. unfold settled_index. rewrite He.
  case_bool_decide; [lia|].
  apply is_empty_false in He.
  pose proof (clamp_index_range (Z.max 0 (current_index st - 1)) _ He). lia.
Qed.

Lemma action_cursor_down_consistent fuel st st' :
  (6 ≤ fuel)%nat → consistent st →
  action_cursor_down fuel st = Some st' → consistent st'.
Proof.
  intros Hf Hst. unfold action_cursor_down.
  destruct (is_empty (display_items st)) eqn:He; cbn [negb];
    [by intros [= <-]|].
  case_bool_decide as Hnew; [|by intros [= <-]].
  rewrite set_current_index_spec by done. intros [= <-].
  apply consistent_with_current_index; [done|].
  destruct Hst as (_ & _ & _ & Hc). unfold cursor_in_range in *.
  rewrite He in *. unfold settled_index. rewrite He.
  case_bool_decide; [lia|].
  apply is_empty_false in He.
  pose proof (clamp_index_range
                (Z.min (Z.of_nat (length (display_items st)) - 1)
                       (current_index st + 1)) _ He). lia.
Qed.

Lemma handles_consistent st st' : consistent st → handles st st' → consistent st'.
Proof.
  intros Hst Hh. destruct Hh as [fuel mu st st' Hf Hmu|fuel st st' Hf Hup
                                |fuel st st' Hf Hdown].
  - destruct (mutate_consistent fuel mu st Hf Hst) as (s & Hs & Hcons).
    rewrite Hs in Hmu. by injection Hmu as <-.
  - apply (action_cursor_up_consistent fuel st); [lia|done|done].
  - apply (action_cursor_down_consistent fuel st); [lia|done|done].
Qed.

(** Every state of a session is consistent: the display list is the
    flattened tree and the cursor is in range. *)
Lemma reachable_consistent st : reachable st → consistent st.
Proof.
  induction 1 as [fuel disk w st Hf Hdisk Hstart|st st' _ IH Hh].
  - by apply (startup_consistent fuel disk w).
  - by apply (handles_consistent st).
Qed.

(** ** Sample sessions *)

(** A tree read from a file that lists an empty category.  The cleanup
    inside [update_menu_display] assigns [menu_data]; the watcher redraws
    the menu in the middle of the outer redraw, whose loop then appends
    the entries once more.  This is why [loadable] asks for a tree without
    empty categories. *)
Example on_mount_with_empty_category :
  display_items <$>
    on_mount 11 (with_menu_data [("Old", Category true []);
                                 ("Net", Category true [ping_net])]
                                (init_fields Absent true)) =
  Some [DCategory "Net"; DItem ping_net; DCategory "Net"; DItem ping_net].
Proof. vm_compute. reflexivity. Qed.

Lemma first_start_reachable :
  (st ← new_app 11 Absent true; on_mount 11 st) = Some first_start.
Proof. vm_compute. reflexivity. Qed.

Lemma first_start_consistent : consistent first_start.
Proof. apply (bool_decide_unpack _). vm_compute. exact I. Qed.

Lemma refiled_state_reachable :
  (st ← action_cursor_down 11 first_start;
   update_item 11 default_item refiled_item st) = Some refiled_state.
Proof. vm_compute. reflexivity. Qed.

Lemma refiled_state_consistent : consistent refiled_state.
Proof. apply (bool_decide_unpack _). vm_compute. exact I. Qed.

Lemma twin_state_reachable : twin_session 11 = Some twin_state.
Proof. vm_compute. reflexivity. Qed.

Lemma twin_state_consistent : consistent twin_state.
Proof. apply (bool_decide_unpack _). vm_compute. exact I. Qed.

(** ** Deleting looks in the category the item names *)

(** C10, as stated, fails.  In [twin_state] the cursor is on the item in
    the list of "Net", whose category field reads "Admin"; the list of
    "Admin" holds an equal item.  [action_delete_item] finds that one,
    removes it, removes "Admin", which is left empty, and announces the
    deletion: the tree and the notifications both change. *)
Lemma delete_of_misfiled_item_not_silent : ¬ delete_of_misfiled_item_is_silent.
Proof.
  intros Hclaim.
  destruct (action_delete_item 11 twin_state) as [st'|] eqn:Hdel;
    [|vm_compute in Hdel; discriminate].
  destruct (Hclaim 11%nat twin_state
              [("System Tools", Category true [default_item])]
              [("Admin", Category true [ping_admin])]
              "Net" (Category true [ping_admin]) [] [] ping_admin st'
              twin_state_consistent eq_refl eq_refl eq_refl eq_refl)
    as [Hmenu _]; [done|exact Hdel|].
  vm_compute in Hdel. injection Hdel as <-.
  vm_compute in Hmenu. discriminate.
Qed.

(** C10, amended.  [action_delete_item] looks for the selected item in one
    list only, the list of the category its category field names.  When
    that category is not in the tree, or its list holds no item equal to
    the selected one, the call returns the state as it is: same tree, no
    notification, whatever the other categories hold. *)
Theorem delete_looks_only_in_named_category fuel st it :
  py_getitem (display_items st) (current_index st) = Some (DItem it) →
  dict_get (category it) (menu_data st) = None ∨
  (∃ cd, dict_get (category it) (menu_data st) = Some cd ∧ it ∉ items cd) →
  ∃ st',
    action_delete_item fuel st = Some st' ∧
    st' = st ∧
    menu_data st' = menu_data st ∧
    notifications st' = notifications st.
Proof.
  intros Hsel Hcase. exists st.
  split; [|done]. by apply (action_delete_item_silent fuel st it).
Qed.

Lemma delete_looks_only_in_named_category_witness :
  ∃ st',
    action_delete_item 11 refiled_state = Some st' ∧
    st' = refiled_state ∧
    menu_data st' = menu_data refiled_state ∧
    notifications st' = notifications refiled_state.
Proof.
  apply (delete_looks_only_in_named_category 11 refiled_state refiled_item).
  - reflexivity.
  - left. reflexivity.
Defined.

(** C4, at the failing input.  In [refiled_state] the cursor is on an
    item whose category field names "Utils", a category the tree does not
    have.  Pressing the delete key leaves the state as it is: the item
    stays and nothing is notified, so the only notification is still the
    one of the edit and no warning says that the item was not found. *)
Theorem delete_unmatched_item_gives_no_warning (fuel : nat) :
  py_getitem (display_items refiled_state) (current_index refiled_state) =
    Some (DItem refiled_item) ∧
  dict_get (category refiled_item) (menu_data refiled_state) = None ∧
  action_delete_item fuel refiled_state = Some refiled_state ∧
  notifications refiled_state =
    [Notification information "Updated: System Monitor"].
Proof.
  split; [reflexivity|]. split; [reflexivity|]. split; [|reflexivity].
  apply (action_delete_item_silent fuel refiled_state refiled_item).
  - reflexivity.
  - by left.
Qed.

(** ** The theorems at work on the sample sessions *)

Lemma load_without_file_writes_default_witness :
  ∃ st' it,
    new_app 3 Absent true = Some st' ∧
    menu_data st' = [("System Tools", Category true [it])] ∧
    label it = "System Monitor" ∧ cmd it = "htop" ∧
    app_theme st' = default_theme ∧ app_title st' = default_title ∧
    config_file st' =
      Stored (Document (Some (menu_data st'))
                (Some (SettingsObject (Some default_theme)
                                      (Some default_title)))).
Proof. apply (load_without_file_writes_default 0 Absent). left. reflexivity. Defined.

Lemma before_edit_state_reachable :
  (st ← add_new_item 11 ping_net first_start;
   st ← add_new_item 11 ping_admin st;
   st ← action_cursor_down 11 st;
   st ← action_cursor_down 11 st;
   action_cursor_down 11 st) = Some before_edit_state.
Proof. vm_compute. reflexivity. Qed.

Lemma before_edit_state_consistent : consistent before_edit_state.
Proof. apply (bool_decide_unpack _). vm_compute. exact I. Qed.

Lemma update_item_first_match_witness :
  (∃ st',
     update_item 11 ping_net ping_admin before_edit_state = Some st' ∧
     menu_data st' =
       [("System Tools", Category true [default_item])] ++
       ("Net", Category true ([] ++ ping_admin :: [])) ::
       [("Admin", Category true [ping_admin])] ∧
     display_items st' = flatten (menu_data st') ∧
     last (notifications st') =
       Some (Notification information ("Updated: " +:+ label ping_admin))) ∧
  (∃ st',
     update_item 11 ping_net ping_admin first_start = Some st' ∧
     menu_data st' = menu_data first_start ∧
     display_items st' = display_items first_start ∧
     current_index st' = current_index first_start ∧
     config_file st' = config_file first_start ∧
     notifications st' =
       notifications first_start ++
       [Notification warning
          ("Item not found for update: " +:+ label ping_net)]).
Proof.
  split.
  - apply (proj1 (update_item_first_match 11 ping_net ping_admin
                    before_edit_state ltac:(lia) before_edit_state_consistent)
             [("System Tools", Category true [default_item])]
             [("Admin", Category true [ping_admin])]
             "Net" (Category true [ping_net]) [] [] ping_net).
    + reflexivity.
    + repeat constructor.
    + reflexivity.
    + constructor.
    + reflexivity.
    + reflexivity.
  - apply (proj2 (update_item_first_match 11 ping_net ping_admin
                    first_start ltac:(lia) first_start_consistent)).
    repeat constructor.
Defined.

Lemma rename_category_correct_witness :
  rename_category 11 "Utils" "Tools" first_start = Some first_start ∧
  ∃ st',
    rename_category 11 "System Tools" "Utils" first_start = Some st' ∧
    dict_get "Utils" (menu_data st') =
      Some (Category (expanded (Category true [default_item]))
              (set_category "Utils" <$> items (Category true [default_item]))) ∧
    dict_get "System Tools" (menu_data st') = None ∧
    (∀ k, k ≠ "System Tools" → k ≠ "Utils" →
          dict_get k (menu_data st') = dict_get k (menu_data first_start)) ∧
    display_items st' = flatten (menu_data st') ∧
    DCategory "Utils" ∈ flatten (menu_data st') ∧
    (∀ cd' it, dict_get "Utils" (menu_data st') = Some cd' →
               it ∈ items cd' → category it = "Utils").
Proof.
  split.
  - apply (proj1 (rename_category_correct 11 "Utils" "Tools" first_start)).
    left. reflexivity.
  - apply (proj2 (rename_category_correct 11 "System Tools" "Utils"
                    first_start) (Category true [default_item])).
    + lia.
    + exact first_start_consistent.
    + reflexivity.
    + discriminate.
Defined.

(** * Further properties of the code *)

(** ** Cleaning up empty categories *)

Lemma nonempty_categories_fold (m acc : menu) :
  NoDup (acc ++ m).*1 →
  fold_left (fun updated_data kv =>
               if negb (is_empty (items kv.2))
               then dict_set kv.1 kv.2 updated_data
               else updated_data) m acc =
  acc ++ filter (fun kv => items kv.2 ≠ []) m.
Proof.
  revert acc. induction m as [|[k c] m IH]; intros acc Hnd; csimpl.
  - by rewrite app_nil_r.
  - rewrite fmap_app in Hnd. csimpl in Hnd.
    apply NoDup_app in Hnd as (Hacc & Hdisj & Hkm).
    apply NoDup_cons in Hkm as [Hk Hm].
    rewrite filter_cons. simpl.
    destruct (items c) as [|it l] eqn:Hc; simpl.
    + apply IH.
      rewrite fmap_app. apply NoDup_app. split; [done|]. split; [|done].
      intros x Hx Hx'. apply (Hdisj x Hx). by apply list_elem_of_further.
    + rewrite dict_set_fresh.
      2:{ intros Hin. apply (Hdisj k Hin). apply list_elem_of_here. }
      rewrite IH; [by rewrite <- app_assoc|].
      rewrite <- app_assoc, fmap_app. csimpl.
      apply NoDup_app. split; [done|]. split.
      * intros x Hx Hx'. by apply (Hdisj x Hx).
      * by apply NoDup_cons.
Qed.

Lemma nonempty_categories_eq_filter (m : menu) :
  NoDup m.*1 →
  nonempty_categories m = filter (fun kv => items kv.2 ≠ []) m.
Proof.
  intros Hnd. unfold nonempty_categories.
  by rewrite nonempty_categories_fold.
Qed.

Lemma filter_nonempty_wf (m : menu) :
  NoDup m.*1 → wf_menu (filter (fun kv => items kv.2 ≠ []) m).
Proof.
  intros Hnd. split.
  - apply (sublist_NoDup _ m.*1); [done|].
    apply fmap_sublist, sublist_filter.
  - apply Forall_forall. intros kv Hkv.
    by apply list_elem_of_filter in Hkv as [? _].
Qed.

(** X1.  On a dict, the tree [cleanup_empty_categories] builds keeps
    exactly the categories that have items, in their order; it is
    therefore well formed, and cleaning it again changes nothing. *)
Theorem nonempty_categories_filter (m : menu) :
  NoDup m.*1 →
  nonempty_categories m = filter (fun kv => items kv.2 ≠ []) m ∧
  wf_menu (nonempty_categories m) ∧
  nonempty_categories (nonempty_categories m) = nonempty_categories m.
Proof.
  intros Hnd.
  pose proof (nonempty_categories_eq_filter m Hnd) as Heq.
  pose proof (filter_nonempty_wf m Hnd) as Hwf.
  split; [done|]. rewrite Heq. split; [done|].
  rewrite (nonempty_categories_eq_filter _ (proj1 Hwf)).
  apply list_filter_filter_r. tauto.
Qed.


Lemma nonempty_categories_filter_witness :
  nonempty_categories [("Old", Category true []);
                       ("Net", Category true [ping_net])] =
    filter (fun kv => items kv.2 ≠ [])
           [("Old", Category true []); ("Net", Category true [ping_net])] ∧
  wf_menu (nonempty_categories [("Old", Category true []);
                                ("Net", Category true [ping_net])]) ∧
  nonempty_categories
    (nonempty_categories [("Old", Category true []);
                          ("Net", Category true [ping_net])]) =
  nonempty_categories [("Old", Category true []);
                       ("Net", Category true [ping_net])].
Proof.
  apply (nonempty_categories_filter
           [("Old", Category true []); ("Net", Category true [ping_net])]).
  apply (bool_decide_unpack _). vm_compute. exact I.
Defined.

Lemma filter_shorter (m : menu) :
  Exists (fun kv => items kv.2 = []) m →
  (length (filter (fun kv => items kv.2 ≠ []) m) < length m)%nat.
Proof.
  induction 1 as [[k c] m Hc|[k c] m _ IH]; rewrite filter_cons; simpl in *.
  - rewrite decide_False by (by intros H). simpl.
    pose proof (length_filter (fun kv : string * category_data =>
                                 items kv.2 ≠ []) m). lia.
  - destruct (decide (items c ≠ [])); simpl; lia.
Qed.

Lemma nonempty_categories_changed (m : menu) :
  NoDup m.*1 → Exists (fun kv => items kv.2 = []) m →
  dict_eqb (nonempty_categories m) m = false ∧
  dict_eqb m (nonempty_categories m) = false.
Proof.
  intros Hnd Hex.
  rewrite (nonempty_categories_eq_filter m Hnd).
  pose proof (filter_shorter m Hex).
  split; apply dict_eqb_length; lia.
Qed.

(** X2.  [cleanup_empty_categories] leaves a tree without empty
    categories alone and then writes nothing: the state comes back as it
    was.  When some category is empty, the tree is replaced by the
    categories that have items and the file, when it can be written, holds
    that tree. *)
Theorem cleanup_empty_categories_writes_on_change fuel st :
  (13 ≤ fuel)%nat → NoDup (menu_data st).*1 →
  ∃ st',
    cleanup_empty_categories fuel st = Some st' ∧
    menu_data st' = filter (fun kv => items kv.2 ≠ []) (menu_data st) ∧
    (Forall (fun kv => items kv.2 ≠ []) (menu_data st) → st' = st) ∧
    (Exists (fun kv => items kv.2 = []) (menu_data st) →
     disk_writable st = true →
     config_file st' =
       Stored (Document (Some (menu_data st'))
                 (Some (SettingsObject (Some (app_theme st))
                                       (Some (app_title st)))))).
Proof.
  intros Hf Hnd.
  pose proof (nonempty_categories_eq_filter _ Hnd) as Hfil.
  pose proof (filter_nonempty_wf _ Hnd) as Hwfv. rewrite <- Hfil in Hwfv.
  destruct (decide (Forall (fun kv => items kv.2 ≠ []) (menu_data st)))
    as [Hall|Hnall].
  - exists st. destruct fuel as [|fuel]; [lia|].
    rewrite cleanup_empty_categories_wf by done.
    split; [done|]. split; [|split; [done|]].
    + rewrite <- Hfil. symmetry. by apply nonempty_categories_wf.
    + intros Hex. exfalso. apply Exists_exists in Hex as (kv & Hkv & Hemp).
      rewrite Forall_forall in Hall. by apply (Hall kv Hkv).
  - assert (Hex : Exists (fun kv => items kv.2 = []) (menu_data st)).
    { apply not_Forall_Exists in Hnall; [|apply _].
      eapply Exists_impl; [exact Hnall|]. intros kv Hkv. simpl in Hkv.
      by destruct (items kv.2); [|exfalso; apply Hkv]. }
    destruct (nonempty_categories_changed _ Hnd Hex) as [Hne1 Hne2].
    do 4 (destruct fuel as [|fuel]; [lia|]).
    cbn [cleanup_empty_categories]. rewrite Hne1. cbn [negb].
    destruct (menu_container st) eqn:Hm.
    + rewrite set_menu_data_spec by (done || lia). rewrite Hne2.
      cbn [mbind option_bind]. eexists. split; [done|].
      rewrite save_menu_data_menu_data. split; [by rewrite <- Hfil|].
      split; [by intros Hall|]. intros _ Hw.
      rewrite save_menu_data_writable by done. done.
    + rewrite set_menu_data_unmounted by done. rewrite Hne2.
      cbn [mbind option_bind]. eexists. split; [done|].
      rewrite save_menu_data_menu_data. split; [by rewrite <- Hfil|].
      split; [by intros Hall|]. intros _ Hw.
      rewrite save_menu_data_writable by done. done.
Qed.

Lemma cleanup_empty_categories_writes_on_change_witness :
  ∃ st',
    cleanup_empty_categories 13 first_start = Some st' ∧
    menu_data st' =
      filter (fun kv => items kv.2 ≠ []) (menu_data first_start) ∧
    (Forall (fun kv => items kv.2 ≠ []) (menu_data first_start) →
     st' = first_start) ∧
    (Exists (fun kv => items kv.2 = []) (menu_data first_start) →
     disk_writable first_start = true →
     config_file st' =
       Stored (Document (Some (menu_data st'))
                 (Some (SettingsObject (Some (app_theme first_start))
                                       (Some (app_title first_start)))))).
Proof.
  apply (cleanup_empty_categories_writes_on_change 13 first_start).
  - lia.
  - apply (bool_decide_unpack _). vm_compute. exact I.
Defined.

(** X3.  A redraw of a tree that has an empty category drops that
    category, and shows every remaining entry twice: the assignment in
    [cleanup_empty_categories] runs the watcher of [menu_data], which
    redraws the menu inside the redraw under way, and the loop of the
    outer redraw then appends the entries to the list the inner one has
    filled. *)
Theorem update_menu_display_repeats_after_cleanup fuel st :
  (20 ≤ fuel)%nat → menu_container st = true → NoDup (menu_data st).*1 →
  Exists (fun kv => items kv.2 = []) (menu_data st) →
  ∃ st',
    update_menu_display fuel st = Some st' ∧
    menu_data st' = filter (fun kv => items kv.2 ≠ []) (menu_data st) ∧
    display_items st' = flatten (menu_data st') ++ flatten (menu_data st').
Proof.
  intros Hf Hm Hnd Hex.
  pose proof (nonempty_categories_eq_filter _ Hnd) as Hfil.
  pose proof (filter_nonempty_wf _ Hnd) as Hwfv. rewrite <- Hfil in Hwfv.
  destruct (nonempty_categories_changed _ Hnd Hex) as [Hne1 Hne2].
  do 2 (destruct fuel as [|fuel]; [lia|]).
  cbn [update_menu_display]. rewrite Hm. cbn [negb].
  cbn [cleanup_empty_categories].
  cbn [menu_data with_display_items]. rewrite Hne1. cbn [negb].
  rewrite set_menu_data_spec by (done || lia).
  cbn [menu_data with_display_items]. rewrite Hne2.
  cbn [mbind option_bind].
  rewrite save_menu_data_menu_data.
  cbn [menu_data with_scheduled with_current_index with_display_items
       with_menu_data].
  rewrite update_highlighting_spec by lia.
  eexists. split; [done|]. rewrite <- Hfil. split.
  - destruct (is_empty _);
      cbn [menu_data call_later_update_highlighting with_scheduled
           with_current_index with_display_items];
      by rewrite save_menu_data_menu_data.
  - assert (Hdisp : ∀ s, display_items (save_menu_data s) = display_items s).
    { intros s. unfold save_menu_data. by destruct (disk_writable s). }
    destruct (is_empty _);
      cbn [display_items menu_data call_later_update_highlighting
           with_scheduled with_current_index with_display_items];
      rewrite ?save_menu_data_menu_data, Hdisp;
      cbn [display_items menu_data with_scheduled with_current_index
           with_display_items with_menu_data];
      apply build_display_app.
Qed.

Lemma update_menu_display_repeats_after_cleanup_witness :
  ∃ st',
    update_menu_display 20
      (with_menu_data (("Old", Category true []) :: default_data)
                      first_start) = Some st' ∧
    menu_data st' =
      filter (fun kv => items kv.2 ≠ [])
             (menu_data (with_menu_data
                           (("Old", Category true []) :: default_data)
                           first_start)) ∧
    display_items st' = flatten (menu_data st') ++ flatten (menu_data st').
Proof.
  apply (update_menu_display_repeats_after_cleanup 20).
  - lia.
  - reflexivity.
  - apply (bool_decide_unpack _). vm_compute. exact I.
  - apply Exists_cons_hd. reflexivity.
Defined.

(** ** The shape of the state a mutation leaves *)

Lemma kept_or_saved_refl st : kept_or_saved st st.
Proof. unfold kept_or_saved. repeat split. by left. Qed.

Lemma kept_or_saved_notify msg sev st s :
  kept_or_saved st s → kept_or_saved st (notify msg sev s).
Proof.
  intros (Ht & Hti & Hw & Hc & Hcase). unfold kept_or_saved. fields.
  do 4 (split; [done|]).
  destruct Hcase as [?|[Hfile Herr]]; [by left|right].
  split; [done|]. intros Hro. apply elem_of_app. left. auto.
Qed.

Lemma kept_or_saved_with_current_index i st s :
  kept_or_saved st s → kept_or_saved st (with_current_index i s).
Proof. intros H. unfold kept_or_saved in *. by fields. Qed.

Lemma committed_fields v n st :
  app_theme (committed v n st) = app_theme st ∧
  app_title (committed v n st) = app_title st ∧
  disk_writable (committed v n st) = disk_writable st.
Proof.
  unfold committed. fields. unfold save_menu_data.
  destruct (disk_writable (with_menu_data v st)) eqn:Hw; fields; done.
Qed.

Lemma kept_or_saved_committed v n st : kept_or_saved st (committed v n st).
Proof.
  destruct (committed_fields v n st) as (Ht & Hti & Hw).
  unfold kept_or_saved. rewrite Ht, Hti, Hw, committed_menu_container.
  do 4 (split; [done|]). right. split.
  - unfold document_of. rewrite Ht, Hti, committed_menu_data.
    destruct (disk_writable st) eqn:Hd.
    + by rewrite committed_config_file.
    + change (config_file (save_menu_data (with_menu_data v st)) =
              config_file st).
      by rewrite save_menu_data_readonly.
  - intros Hro. rewrite committed_notifications, Hro.
    apply elem_of_app. right. apply list_elem_of_here.
Qed.

Lemma action_toggle_category_shape fuel st name :
  (11 ≤ fuel)%nat → consistent st →
  py_getitem (display_items st) (current_index st) = Some (DCategory name) →
  ∃ cd n i,
    dict_get name (menu_data st) = Some cd ∧
    let v := dict_set name (Category (negb (expanded cd)) (items cd))
                      (menu_data st) in
    action_toggle_category fuel st =
      Some (with_current_index i (committed v n st)) ∧
    py_getitem (flatten v) i = Some (DCategory name) ∧
    cursor_in_range i (flatten v).
Proof.
  intros Hf Hst Hsel.
  destruct (selection_lookup _ _ Hst Hsel) as [Hns Hl].
  destruct Hst as (Hm & Hwf & Hd & Hc).
  assert (Hk : name ∈ (menu_data st).*1).
  { apply header_in_flatten. by apply list_elem_of_lookup_2 in Hl. }
  destruct (dict_get name (menu_data st)) as [cd|] eqn:Hg;
    [|by apply dict_get_None in Hg].
  set (v := dict_set name (Category (negb (expanded cd)) (items cd))
                     (menu_data st)).
  assert (Hwfv : wf_menu v).
  { apply wf_menu_dict_set; [done|]. simpl.
    exact (wf_menu_items_nonempty _ _ _ Hwf Hg). }
  destruct (commit_spec fuel v (with_menu_data v st)) as [n Hn];
    [done|done|done|by left|].
  destruct (restore_position_to_category_spec fuel name
              (committed v n (with_menu_data v st))) as (i & Hr & Hi & Hci).
  { lia. }
  { rewrite committed_display_items. apply header_in_flatten.
    unfold v. rewrite dict_set_keys.
    rewrite dict_mem_get, Hg. by rewrite bool_decide_eq_true_2. }
  exists cd, n, i. split; [done|]. fold v. cbv zeta.
  split; [|split; [exact Hi|exact Hci]].
  unfold action_toggle_category. rewrite Hns, Hsel.
  cbn [mbind option_bind]. rewrite Hg. fold v.
  rewrite (commit_bind _ _ _ _ _ Hn). exact Hr.
Qed.

Lemma cursor_after_delete_range c d :
  0 ≤ c → cursor_in_range (cursor_after_delete c d) d.
Proof.
  intros Hc. unfold cursor_after_delete, cursor_in_range, highlighted_index.
  destruct d as [|e d]; simpl is_empty; cbv iota.
  - simpl length. rewrite bool_decide_eq_true_2 by lia. lia.
  - pose proof (clamp_index_range c (e :: d) ltac:(done)) as Hr.
    case_bool_decide; simpl length in *; lia.
Qed.

Lemma action_delete_item_shape fuel st it cd :
  (11 ≤ fuel)%nat → consistent st →
  py_getitem (display_items st) (current_index st) = Some (DItem it) →
  dict_get (category it) (menu_data st) = Some cd → it ∈ items cd →
  let v := tree_without it cd (menu_data st) in
  ∃ n,
    action_delete_item fuel st =
      Some (with_current_index
              (cursor_after_delete (current_index st) (flatten v))
              (notify ("Deleted: " +:+ label it) information
                      (committed v n st))).
Proof.
  intros Hf Hst Hsel Hg Hin v.
  destruct (selection_lookup _ _ Hst Hsel) as [Hns Hl].
  destruct Hst as (Hm & Hwf & Hd & Hc).
  destruct (cursor_in_range_lookup _ _ _ Hc Hsel) as [Hcur _].
  set (remaining := list_remove_first it (items cd)).
  set (shared := dict_set (category it) (Category (expanded cd) remaining)
                          (menu_data st)).
  assert (Hv : v = if is_empty remaining then dict_del (category it) shared
                   else shared).
  { unfold v, tree_without. fold remaining.
    destruct (is_empty remaining); [|done].
    unfold shared. by rewrite dict_del_set. }
  assert (Hwfv : wf_menu v) by by apply tree_without_wf.
  destruct (commit_spec fuel v (with_menu_data shared st)) as [n Hn];
    [done|done|done| |].
  { change (shared = v ∨ dict_eqb shared v = false). rewrite Hv.
    destruct (is_empty remaining); [right|by left].
    apply dict_eqb_length.
    assert (dict_mem (category it) shared = true) as Hmem.
    { unfold shared. rewrite dict_mem_get, dict_get_set.
      rewrite decide_True by done. by apply bool_decide_eq_true_2. }
    apply dict_del_length in Hmem. lia. }
  exists n.
  set (s1 := notify ("Deleted: " +:+ label it) information
                    (committed v n (with_menu_data shared st))).
  assert (Hstep : action_delete_item fuel st =
            if bool_decide (Z.of_nat (length (display_items s1)) - 1
                            ≤ current_index s1)
            then set_current_index fuel
                   (Z.max 0 (Z.of_nat (length (display_items s1)) - 2)) s1
            else Some s1).
  { unfold action_delete_item. rewrite Hns, Hsel.
    cbn [mbind option_bind]. rewrite Hg.
    rewrite bool_decide_eq_true_2 by done.
    fold remaining. fold shared. rewrite <- Hv.
    by rewrite (commit_bind _ _ _ _ _ Hn). }
  assert (Hd1 : display_items s1 = flatten v) by done.
  assert (Hc1 : current_index s1 =
                highlighted_index (current_index st) (flatten v)) by done.
  change (action_delete_item fuel st =
          Some (with_current_index
                  (cursor_after_delete (current_index st) (flatten v)) s1)).
  rewrite Hstep. clear Hstep Hn. clearbody s1.
  unfold cursor_after_delete. rewrite Hd1, Hc1. cbv zeta.
  case_bool_decide as Hlast.
  - rewrite set_current_index_spec by lia. f_equal. f_equal.
    unfold settled_index. rewrite Hd1, Hc1.
    case_bool_decide; [done|].
    unfold highlighted_index in *.
    destruct (flatten v) as [|e d] eqn:Hfl; simpl is_empty in *;
      cbv iota in *.
    + simpl length. lia.
    + apply clamp_index_fixed. simpl length. lia.
  - f_equal. rewrite <- Hc1. symmetry. apply with_current_index_same.
Qed.

Lemma mutate_kept_or_saved fuel mu st st' :
  (11 ≤ fuel)%nat → consistent st →
  mutate fuel mu st = Some st' → kept_or_saved st st'.
Proof.
  intros Hf Hst. destruct mu as [it|old_item new_item| |old_name new_name|];
    cbn [mutate].
  - destruct (add_new_item_spec fuel it st Hf Hst) as (v & n & _ & -> & _).
    intros [= <-]. apply kept_or_saved_notify, kept_or_saved_committed.
  - pose proof (update_item_spec fuel old_item new_item st Hf Hst) as Hupd.
    destruct (replace_first_match _ _ _ _) as [v|].
    + destruct Hupd as (n & -> & _). intros [= <-].
      apply kept_or_saved_notify, kept_or_saved_committed.
    + rewrite Hupd. intros [= <-].
      apply kept_or_saved_notify, kept_or_saved_refl.
  - destruct (consistent_selection st Hst) as [Hns|[e Hsel]].
    { unfold action_delete_item. rewrite Hns. intros [= <-].
      apply kept_or_saved_refl. }
    destruct e as [name|it].
    { rewrite (action_delete_item_category _ _ name Hst Hsel).
      intros [= <-]. apply kept_or_saved_notify, kept_or_saved_refl. }
    destruct (dict_get (category it) (menu_data st)) as [cd|] eqn:Hg.
    + destruct (decide (it ∈ items cd)) as [Hin|Hnin].
      * destruct (action_delete_item_shape fuel st it cd Hf Hst Hsel Hg Hin)
          as [n ->].
        intros [= <-].
        apply kept_or_saved_with_current_index, kept_or_saved_notify,
          kept_or_saved_committed.
      * rewrite (action_delete_item_silent _ _ it Hsel);
          [|right; by exists cd].
        intros [= <-]. apply kept_or_saved_refl.
    + rewrite (action_delete_item_silent _ _ it Hsel); [|by left].
      intros [= <-]. apply kept_or_saved_refl.
  - destruct (dict_get old_name (menu_data st)) as [cd|] eqn:Hg.
    + destruct (decide (new_name = old_name)) as [Heq|Hne].
      * rewrite rename_category_noop by (by right).
        intros [= <-]. apply kept_or_saved_refl.
      * destruct (rename_category_spec fuel old_name new_name st cd
                    Hf Hst Hg Hne) as (v & n & -> & _).
        intros [= <-]. apply kept_or_saved_notify, kept_or_saved_committed.
    + rewrite rename_category_noop by (by left).
      intros [= <-]. apply kept_or_saved_refl.
  - destruct (consistent_selection st Hst) as [Hns|[e Hsel]].
    { unfold action_toggle_category. rewrite Hns. intros [= <-].
      apply kept_or_saved_refl. }
    destruct e as [name|it].
    + destruct (action_toggle_category_shape fuel st name Hf Hst Hsel)
        as (cd & n & i & _ & -> & _).
      intros [= <-].
      apply kept_or_saved_with_current_index, kept_or_saved_committed.
    + unfold action_toggle_category.
      destruct (no_selection st); [|rewrite Hsel]; intros [= <-];
        apply kept_or_saved_refl.
Qed.

(** ** A disk that cannot be written *)

(** X4.  On a disk that cannot be written, a mutation never changes the
    file, and whenever it changes the tree it notifies the error of the
    failed save; the tree in memory is the changed one all the same. *)
Theorem mutation_on_readonly_disk fuel mu st st' :
  (11 ≤ fuel)%nat → consistent st → disk_writable st = false →
  mutate fuel mu st = Some st' →
  config_file st' = config_file st ∧
  disk_writable st' = false ∧
  (menu_data st' ≠ menu_data st → save_error ∈ notifications st').
Proof.
  intros Hf Hst Hro Hmu.
  destruct (mutate_kept_or_saved fuel mu st st' Hf Hst Hmu)
    as (_ & _ & Hw & _ & Hcase).
  rewrite Hw. rewrite Hro in Hcase.
  destruct Hcase as [[Hmenu Hfile]|[Hfile Herr]].
  - split; [done|]. split; [done|]. by intros Hne.
  - split; [done|]. split; [done|]. intros _. by apply Herr.
Qed.

Lemma readonly_start_reachable :
  (st ← new_app 11 Absent false; on_mount 11 st) = Some readonly_start.
Proof. vm_compute. reflexivity. Qed.

Lemma readonly_start_consistent : consistent readonly_start.
Proof. apply (bool_decide_unpack _). vm_compute. exact I. Qed.

Lemma mutation_on_readonly_disk_witness :
  let st' := default readonly_start
               (mutate 11 (AddItem ping_net) readonly_start) in
  config_file st' = config_file readonly_start ∧
  disk_writable st' = false ∧
  (menu_data st' ≠ menu_data readonly_start →
   save_error ∈ notifications st').
Proof.
  intros st'.
  apply (mutation_on_readonly_disk 11 (AddItem ping_net) readonly_start st').
  - lia.
  - exact readonly_start_consistent.
  - reflexivity.
  - vm_compute. reflexivity.
Defined.

(** ** Starting the application *)

Lemma new_app_loaded n disk w :
  new_app (S (S (S n))) disk w =
    Some (App (loaded_menu disk) 0 [] false (loaded_theme disk)
              (loaded_title disk) (file_after_load disk w) w
              (notifications_after_load disk w) 0).
Proof.
  unfold new_app, load_menu_data. cbn [config_file init_fields].
  destruct disk as [|raw|d].
  - unfold create_default_menu.
    destruct (set_menu_data_init n default_data Absent w) as (s & -> & ->).
    cbn [mbind option_bind]. unfold save_menu_data. by destruct w.
  - unfold create_default_menu.
    destruct (set_menu_data_init n default_data (Corrupt raw) w)
      as (s & -> & ->).
    cbn [mbind option_bind]. unfold save_menu_data. by destruct w.
  - destruct (set_menu_data_init n (default [] (doc_categories d))
                (Stored d) w) as (s & -> & ->).
    cbn [mbind option_bind].
    destruct (doc_app_settings d) as [[[t|] [ti|]]|] eqn:Hs;
      unfold loaded_theme, loaded_title; rewrite Hs; done.
Qed.


(** X6.  When the file is missing or unreadable and the disk cannot be
    written, the application still starts on the built-in tree and
    settings; the failed save is notified as an error and the file is left
    as it was. *)
Theorem start_on_readonly_disk n disk :
  disk = Absent ∨ (∃ raw, disk = Corrupt raw) →
  ∃ st',
    new_app (S (S (S n))) disk false = Some st' ∧
    menu_data st' = default_data ∧
    app_theme st' = default_theme ∧ app_title st' = default_title ∧
    config_file st' = disk ∧
    notifications st' = [save_error].
Proof.
  intros Hdisk. rewrite new_app_loaded. eexists. split; [done|].
  destruct Hdisk as [->|[raw ->]]; done.
Qed.

Lemma start_on_readonly_disk_witness :
  ∃ st',
    new_app 3 (Corrupt "{") false = Some st' ∧
    menu_data st' = default_data ∧
    app_theme st' = default_theme ∧ app_title st' = default_title ∧
    config_file st' = Corrupt "{" ∧
    notifications st' = [save_error].
Proof.
  apply (start_on_readonly_disk 0 (Corrupt "{")). right. by exists "{".
Defined.

(** ** Sessions and the file *)

Lemma stored_document_survives st :
  config_file st = Stored (document_of st) → survives_restart st.
Proof.
  intros Hfile n w. rewrite Hfile, new_app_loaded. eexists. split; [done|].
  done.
Qed.

Lemma survives_restart_same st st' :
  config_file st' = config_file st → menu_data st' = menu_data st →
  app_theme st' = app_theme st → app_title st' = app_title st →
  survives_restart st → survives_restart st'.
Proof.
  intros Hf Hm Ht Hti Hs n w. rewrite Hf, Hm, Ht, Hti. apply Hs.
Qed.

Lemma loaded_after_load disk w :
  loaded_menu (file_after_load disk w) = loaded_menu disk ∧
  loaded_theme (file_after_load disk w) = loaded_theme disk ∧
  loaded_title (file_after_load disk w) = loaded_title disk.
Proof. destruct disk as [|raw|d], w; done. Qed.

(** The state of a session, next to the file it started from. *)
Lemma in_session_invariant disk w st :
  in_session disk w st →
  consistent st ∧ disk_writable st = w ∧
  (if w then survives_restart st else config_file st = disk).
Proof.
  induction 1 as [fuel st Hf Hdisk Hstart|st st' _ IH Hact].
  - split; [by apply (startup_consistent fuel disk w)|].
    do 3 (destruct fuel as [|fuel]; [lia|]).
    rewrite new_app_loaded in Hstart. cbn [mbind option_bind] in Hstart.
    unfold on_mount in Hstart.
    rewrite update_menu_display_spec in Hstart; [|lia|done|].
    2:{ cbn [menu_data with_menu_container].
        destruct disk; [apply default_data_wf..|exact Hdisk]. }
    cbn [mbind option_bind] in Hstart. injection Hstart as <-.
    unfold update_status. fields. split; [done|].
    destruct w.
    + intros n w'. fields. rewrite new_app_loaded.
      destruct (loaded_after_load disk true) as (-> & -> & ->).
      eexists. split; [done|]. done.
    + by destruct disk.
  - destruct IH as (Hst & Hw & Hfile).
    destruct Hact as [st st' Hkey|str_title result st|result st].
    + split; [by apply (handles_consistent st)|].
      destruct Hkey as [fuel mu st st' Hf Hmu|fuel st st' Hf Hup
                       |fuel st st' Hf Hdown].
      * destruct (mutate_kept_or_saved fuel mu st st' Hf Hst Hmu)
          as (Ht & Hti & Hw' & _ & Hcase).
        split; [congruence|]. rewrite Hw in Hcase.
        destruct w.
        -- destruct Hcase as [[Hmenu Hf']|[Hf' _]].
           ++ by apply (survives_restart_same st).
           ++ by apply stored_document_survives.
        -- destruct Hcase as [[_ Hf']|[Hf' _]]; congruence.
      * unfold action_cursor_up in Hup.
        assert (∃ i, st' = with_current_index i st) as [i ->].
        { destruct (negb _); [|injection Hup as <-; exists (current_index st);
                               by rewrite with_current_index_same].
          case_bool_decide;
            [|injection Hup as <-; exists (current_index st);
              by rewrite with_current_index_same].
          rewrite set_current_index_spec in Hup by lia.
          injection Hup as <-. by eexists. }
        split; [done|]. destruct w; [|done].
        by apply (survives_restart_same st).
      * unfold action_cursor_down in Hdown.
        assert (∃ i, st' = with_current_index i st) as [i ->].
        { destruct (negb _); [|injection Hdown as <-;
                               exists (current_index st);
                               by rewrite with_current_index_same].
          case_bool_decide;
            [|injection Hdown as <-; exists (current_index st);
              by rewrite with_current_index_same].
          rewrite set_current_index_spec in Hdown by lia.
          injection Hdown as <-. by eexists. }
        split; [done|]. destruct w; [|done].
        by apply (survives_restart_same st).
    + destruct result as [theme|]; [|done].
      unfold handle_theme_result, apply_theme.
      destruct w.
      * rewrite save_menu_data_writable by done.
        split; [by apply consistent_notify|]. split; [done|].
        by apply stored_document_survives.
      * rewrite save_menu_data_readonly by done.
        split; [by apply consistent_notify, consistent_notify|]. done.
    + destruct result as [title|]; [|done].
      unfold handle_title_result.
      destruct w.
      * rewrite save_menu_data_writable by done.
        split; [by apply consistent_notify|]. split; [done|].
        by apply stored_document_survives.
      * rewrite save_menu_data_readonly by done.
        split; [by apply consistent_notify, consistent_notify|]. done.
Qed.

(** X7.  Throughout a session on a disk that can be written (started from
    a missing file, an unreadable one, or a stored tree without empty
    categories, and continued by keys of the main screen and by the theme
    and title screens), the state is consistent and a restart of the
    application finds the tree, the theme and the title the state holds:
    every change is on disk by the time its handler is over. *)
Theorem session_survives_restart disk st :
  in_session disk true st → consistent st ∧ survives_restart st.
Proof.
  intros Hs. destruct (in_session_invariant disk true st Hs) as (? & _ & ?).
  done.
Qed.

Lemma session_survives_restart_witness :
  consistent first_start ∧ survives_restart first_start.
Proof.
  apply (session_survives_restart Absent first_start).
  apply (in_session_start Absent true 11 first_start).
  - lia.
  - exact I.
  - exact first_start_reachable.
Defined.

(** X8.  Throughout a session on a disk that cannot be written, the file
    stays the one the session started from, whatever is added, edited,
    renamed, deleted or set. *)
Theorem readonly_session_keeps_file disk st :
  in_session disk false st → config_file st = disk ∧ disk_writable st = false.
Proof.
  intros Hs. destruct (in_session_invariant disk false st Hs) as (_ & ? & ?).
  done.
Qed.

Lemma readonly_session_keeps_file_witness :
  config_file readonly_start = Absent ∧ disk_writable readonly_start = false.
Proof.
  apply (readonly_session_keeps_file Absent readonly_start).
  apply (in_session_start Absent false 11 readonly_start).
  - lia.
  - exact I.
  - exact readonly_start_reachable.
Defined.

(** ** Adding and deleting *)

Lemma NoDup_keys_middle {V} (m1 m2 : list (string * V)) k v :
  NoDup (m1 ++ (k, v) :: m2).*1 → (k ∉ m1.*1) ∧ (k ∉ m2.*1).
Proof.
  rewrite fmap_app. csimpl. intros Hnd.
  apply NoDup_app in Hnd as (_ & Hdisj & Hnd).
  apply NoDup_cons in Hnd as [Hk _]. split; [|done].
  intros Hin. apply (Hdisj k Hin). apply list_elem_of_here.
Qed.

Lemma dict_get_middle {V} (m1 m2 : list (string * V)) k v :
  k ∉ m1.*1 → dict_get k (m1 ++ (k, v) :: m2) = Some v.
Proof.
  intros Hk. rewrite dict_get_app.
  apply dict_get_None in Hk. rewrite Hk. simpl. by rewrite decide_True.
Qed.





Lemma list_remove_first_snoc (it : item) (l : list item) :
  it ∉ l → list_remove_first it (l ++ [it]) = l.
Proof.
  induction l as [|x l IH]; simpl; intros Hnin.
  - by rewrite decide_True.
  - apply not_elem_of_cons in Hnin as [Hne Hnin].
    rewrite decide_False by done. by rewrite IH.
Qed.

(** X10.  Adding an item and then deleting it gives back the tree as it
    was, new category included, provided the category held no equal item
    before.  ([s] is the state after the addition and any cursor moves
    that bring the cursor onto the new item.) *)
Theorem add_then_delete_restores fuel (it : item) st st1 s st2 :
  (11 ≤ fuel)%nat → consistent st →
  (∀ cd, dict_get (category it) (menu_data st) = Some cd → it ∉ items cd) →
  add_new_item fuel it st = Some st1 →
  consistent s → menu_data s = menu_data st1 →
  py_getitem (display_items s) (current_index s) = Some (DItem it) →
  action_delete_item fuel s = Some st2 →
  menu_data st2 = menu_data st.
Proof.
  intros Hf Hst Hfresh Hadd Hs Hmenu Hsel Hdel.
  destruct (add_new_item_spec fuel it st Hf Hst) as (v & n & Hv & Hadd' & _).
  rewrite Hadd' in Hadd. injection Hadd as <-.
  assert (Hm1 : menu_data s = v).
  { rewrite Hmenu. apply committed_menu_data. }
  destruct Hst as (_ & Hwf & _ & _).
  destruct (dict_get (category it) (menu_data st)) as [cd|] eqn:Hg.
  - set (cd1 := Category (expanded cd) (items cd ++ [it])).
    assert (Hg1 : dict_get (category it) (menu_data s) = Some cd1).
    { rewrite Hm1, Hv, dict_get_set. by rewrite decide_True. }
    destruct (action_delete_item_spec fuel s it cd1 Hf Hs Hsel Hg1)
      as (st' & Hdel' & Hres & _).
    { simpl. apply elem_of_app. right. apply list_elem_of_here. }
    rewrite Hdel' in Hdel. injection Hdel as <-.
    rewrite Hres. unfold tree_without. simpl.
    rewrite list_remove_first_snoc by (by apply Hfresh).
    pose proof (wf_menu_items_nonempty _ _ _ Hwf Hg) as Hne.
    apply is_empty_false in Hne. rewrite Hne.
    rewrite Hm1, Hv, dict_set_set. apply dict_set_same.
    rewrite Hg. by destruct cd.
  - set (cd1 := Category true [it]).
    assert (Hk : category it ∉ (menu_data st).*1) by by apply dict_get_None.
    assert (Hg1 : dict_get (category it) (menu_data s) = Some cd1).
    { rewrite Hm1, Hv. by apply dict_get_middle. }
    destruct (action_delete_item_spec fuel s it cd1 Hf Hs Hsel Hg1)
      as (st' & Hdel' & Hres & _).
    { apply list_elem_of_here. }
    rewrite Hdel' in Hdel. injection Hdel as <-.
    rewrite Hres. unfold tree_without. simpl.
    rewrite decide_True by done. simpl.
    rewrite Hm1, Hv. rewrite dict_del_middle by done. apply app_nil_r.
Qed.

Lemma add_then_delete_restores_witness :
  let st1 := default first_start (add_new_item 11 ping_net first_start) in
  let s := default first_start
             (st ← action_cursor_down 11 st1;
              st ← action_cursor_down 11 st;
              action_cursor_down 11 st) in
  let st2 := default first_start (action_delete_item 11 s) in
  menu_data st2 = menu_data first_start.
Proof.
  intros st1 s st2.
  apply (add_then_delete_restores 11 ping_net first_start st1 s st2).
  - lia.
  - exact first_start_consistent.
  - intros cd Hg. vm_compute in Hg. discriminate.
  - vm_compute. reflexivity.
  - apply (bool_decide_unpack _). vm_compute. exact I.
  - vm_compute. reflexivity.
  - vm_compute. reflexivity.
  - vm_compute. reflexivity.
Defined.

Lemma list_remove_first_middle (it : item) (l1 l2 : list item) :
  it ∉ l1 → list_remove_first it (l1 ++ it :: l2) = l1 ++ l2.
Proof.
  induction l1 as [|x l1 IH]; simpl; intros Hnin.
  - by rewrite decide_True.
  - apply not_elem_of_cons in Hnin as [Hne Hnin].
    rewrite decide_False by done. by rewrite IH.
Qed.

(** X11.  With the cursor on an item whose category field names a
    category that holds an equal item, [action_delete_item] takes the
    first such item out of the list of that category, the other items
    keeping their order.  A category left without items is removed from
    the tree, and its header from the display list; otherwise it keeps
    its place and its flag.  The other categories are untouched and the
    deletion is announced. *)
Theorem action_delete_item_removes_first_equal fuel st it
    (m1 m2 : menu) cd l1 l2 :
  (11 ≤ fuel)%nat → consistent st →
  py_getitem (display_items st) (current_index st) = Some (DItem it) →
  menu_data st = m1 ++ (category it, cd) :: m2 →
  items cd = l1 ++ it :: l2 → it ∉ l1 →
  ∃ st',
    action_delete_item fuel st = Some st' ∧
    menu_data st' =
      (if bool_decide (l1 ++ l2 = []) then m1 ++ m2
       else m1 ++ (category it, Category (expanded cd) (l1 ++ l2)) :: m2) ∧
    display_items st' = flatten (menu_data st') ∧
    (l1 ++ l2 = [] → DCategory (category it) ∉ display_items st') ∧
    last (notifications st') =
      Some (Notification information ("Deleted: " +:+ label it)).
Proof.
  intros Hf Hst Hsel Hmenu Hitems Hnin.
  pose proof Hst as (_ & [Hnd _] & _ & _).
  rewrite Hmenu in Hnd. pose proof Hnd as Hnd'.
  apply NoDup_keys_middle in Hnd as [Hk1 Hk2].
  assert (Hg : dict_get (category it) (menu_data st) = Some cd).
  { rewrite Hmenu. by apply dict_get_middle. }
  destruct (action_delete_item_spec fuel st it cd Hf Hst Hsel Hg)
    as (st' & Hdel & Hres & Hcons & Hnote).
  { rewrite Hitems. apply elem_of_app. right. apply list_elem_of_here. }
  exists st'. split; [done|].
  assert (Hv : menu_data st' =
            if bool_decide (l1 ++ l2 = []) then m1 ++ m2
            else m1 ++ (category it, Category (expanded cd) (l1 ++ l2)) :: m2).
  { rewrite Hres. unfold tree_without.
    rewrite Hitems, list_remove_first_middle by done. rewrite Hmenu.
    destruct (l1 ++ l2) as [|x l] eqn:Hl; simpl is_empty; cbv iota.
    - rewrite bool_decide_eq_true_2 by done. by apply dict_del_middle.
    - rewrite bool_decide_eq_false_2 by done. by apply dict_set_middle. }
  split; [done|]. destruct Hcons as (_ & _ & Hd & _).
  split; [done|]. split; [|done].
  intros Hnil. rewrite Hd, header_in_flatten, Hv.
  rewrite bool_decide_eq_true_2 by done.
  rewrite fmap_app. intros Hin. apply elem_of_app in Hin. tauto.
Qed.

Lemma action_delete_item_removes_first_equal_witness :
  ∃ st',
    action_delete_item 11 twin_state = Some st' ∧
    menu_data st' =
      (if bool_decide (@nil item ++ [] = [])
       then [("System Tools", Category true [default_item]);
             ("Net", Category true [ping_admin])] ++ []
       else [("System Tools", Category true [default_item]);
             ("Net", Category true [ping_admin])] ++
            (category ping_admin,
             Category (expanded (Category true [ping_admin])) ([] ++ [])) :: []) ∧
    display_items st' = flatten (menu_data st') ∧
    (@nil item ++ [] = [] →
     DCategory (category ping_admin) ∉ display_items st') ∧
    last (notifications st') =
      Some (Notification information ("Deleted: " +:+ label ping_admin)).
Proof.
  apply (action_delete_item_removes_first_equal 11 twin_state ping_admin
           [("System Tools", Category true [default_item]);
            ("Net", Category true [ping_admin])] []
           (Category true [ping_admin]) [] []).
  - lia.
  - exact twin_state_consistent.
  - reflexivity.
  - reflexivity.
  - reflexivity.
  - apply not_elem_of_nil.
Defined.

(** X12.  After a deletion the cursor keeps its offset when that offset is
    before the last entry of the new display list; otherwise it goes to
    the entry before the last one, or to 0 when the list has fewer than
    two entries. *)
Theorem action_delete_item_cursor fuel st it cd st' :
  (11 ≤ fuel)%nat → consistent st →
  py_getitem (display_items st) (current_index st) = Some (DItem it) →
  dict_get (category it) (menu_data st) = Some cd → it ∈ items cd →
  action_delete_item fuel st = Some st' →
  let n := Z.of_nat (length (display_items st')) in
  current_index st' =
    (if bool_decide (n - 1 ≤ current_index st) then Z.max 0 (n - 2)
     else current_index st).
Proof.
  intros Hf Hst Hsel Hg Hin Hdel.
  destruct (action_delete_item_shape fuel st it cd Hf Hst Hsel Hg Hin)
    as [k Hshape].
  rewrite Hshape in Hdel. injection Hdel as <-.
  destruct Hst as (_ & _ & _ & Hc).
  destruct (cursor_in_range_lookup _ _ _ Hc Hsel) as [Hcur _].
  cbv zeta. fields.
  change (display_items (committed _ k st))
    with (flatten (tree_without it cd (menu_data st))).
  unfold cursor_after_delete, highlighted_index, clamp_index.
  destruct (flatten (tree_without it cd (menu_data st))) as [|e d];
    simpl is_empty; cbv iota; simpl length.
  - rewrite !bool_decide_eq_true_2 by lia. done.
  - repeat case_bool_decide; lia.
Qed.

Lemma action_delete_item_cursor_witness :
  let st' := default twin_state (action_delete_item 11 twin_state) in
  let n := Z.of_nat (length (display_items st')) in
  current_index st' =
    (if bool_decide (n - 1 ≤ current_index twin_state) then Z.max 0 (n - 2)
     else current_index twin_state).
Proof.
  intros st'.
  apply (action_delete_item_cursor 11 twin_state ping_admin
           (Category true [ping_admin]) st').
  - lia.
  - exact twin_state_consistent.
  - reflexivity.
  - reflexivity.
  - apply list_elem_of_here.
  - vm_compute. reflexivity.
Defined.

(** ** Toggling and the display list *)

Lemma header_index_unique d i j n :
  NoDup (headers d) →
  d !! i = Some (DCategory n) → d !! j = Some (DCategory n) → i = j.
Proof.
  revert i j. induction d as [|e d IH]; intros i j Hnd Hi Hj; [done|].
  assert (Htail : NoDup (headers d)).
  { destruct e; [|done].
    change (headers (DCategory name :: d)) with (name :: headers d) in Hnd.
    by apply NoDup_cons in Hnd as [_ ?]. }
  assert (Hhead : ∀ k, e = DCategory n → d !! k = Some (DCategory n) → False).
  { intros k -> Hk.
    change (headers (DCategory n :: d)) with (n :: headers d) in Hnd.
    apply NoDup_cons in Hnd as [Hn _]. apply Hn.
    apply elem_of_headers. by apply list_elem_of_lookup_2 in Hk. }
  destruct i as [|i], j as [|j]; simpl in *.
  - done.
  - injection Hi as ->. by destruct (Hhead j).
  - injection Hj as ->. by destruct (Hhead i).
  - f_equal. by apply IH.
Qed.

Lemma flatten_lookup_header (m1 m2 : menu) name cd :
  flatten (m1 ++ (name, cd) :: m2) !! length (flatten m1) =
    Some (DCategory name).
Proof.
  rewrite flatten_app, flatten_cons.
  rewrite lookup_app_r by lia. by rewrite Nat.sub_diag.
Qed.



(** ** Renaming and the order of the categories *)

Lemma dict_del_set_ne {V} k k' (v : V) d :
  k ≠ k' → dict_del k (dict_set k' v d) = dict_set k' v (dict_del k d).
Proof.
  intros Hne. induction d as [|[k0 v0] d IH]; simpl.
  - by rewrite decide_False.
  - destruct (decide (k' = k0)) as [->|Hne0]; simpl.
    + rewrite !decide_False by done. simpl. by rewrite decide_True.
    + destruct (decide (k = k0)) as [->|Hne1]; [done|].
      simpl. rewrite decide_False by done. by rewrite IH.
Qed.

Lemma rename_category_shape fuel old_name new_name st cd :
  (11 ≤ fuel)%nat → consistent st →
  dict_get old_name (menu_data st) = Some cd → new_name ≠ old_name →
  let renamed := Category (expanded cd) (set_category new_name <$> items cd) in
  let v := dict_set new_name renamed (dict_del old_name (menu_data st)) in
  ∃ n,
    rename_category fuel old_name new_name st =
      Some (notify ("Renamed category: " +:+ old_name +:+ " → " +:+ new_name)
                   information (committed v n st)).
Proof.
  intros Hf (Hm & Hwf & Hd & Hc) Hg Hne renamed v.
  set (shared := dict_set old_name renamed (menu_data st)).
  assert (Hv : v = dict_del old_name (dict_set new_name renamed shared)).
  { unfold v, shared. rewrite dict_del_set_ne by done.
    by rewrite dict_del_set. }
  assert (Hitems : items renamed ≠ []).
  { simpl. intros Hnil. apply fmap_nil_inv in Hnil.
    by apply (wf_menu_items_nonempty _ _ _ Hwf Hg). }
  assert (Hwfv : wf_menu v).
  { unfold v. apply wf_menu_dict_set; [|done]. by apply wf_menu_dict_del. }
  assert (Hold : dict_get old_name v = None).
  { unfold v. rewrite dict_get_set, decide_False by done.
    rewrite dict_get_del by apply Hwf. by rewrite decide_True. }
  destruct (commit_spec fuel v (with_menu_data shared st)) as [n Hn];
    [done|done|done|right|].
  { apply (dict_eqb_missing old_name renamed); [|done].
    apply dict_get_Some_elem.
    change (dict_get old_name shared = Some renamed). unfold shared.
    rewrite dict_get_set. by rewrite decide_True. }
  exists n. unfold rename_category. rewrite dict_mem_get, Hg.
  rewrite bool_decide_eq_true_2 by done.
  rewrite bool_decide_eq_false_2 by done. cbn [negb orb].
  fold renamed. fold shared. rewrite <- Hv.
  by rewrite (commit_bind _ _ _ _ _ Hn).
Qed.

(** X14.  A renamed category does not keep its place in the tree.  When
    the new name is not yet a category, the renamed category goes after
    all the others.  When the new name is already a category, the renamed
    one takes the place of that category, whose own items are lost, and
    the tree has one category less. *)
Theorem rename_category_order fuel old_name new_name st (m1 m2 : menu) cd :
  (11 ≤ fuel)%nat → consistent st →
  menu_data st = m1 ++ (old_name, cd) :: m2 → new_name ≠ old_name →
  let renamed := Category (expanded cd) (set_category new_name <$> items cd) in
  ∃ st',
    rename_category fuel old_name new_name st = Some st' ∧
    menu_data st' = dict_set new_name renamed (m1 ++ m2) ∧
    (dict_get new_name (menu_data st) = None →
     menu_data st' = m1 ++ m2 ++ [(new_name, renamed)]) ∧
    (∀ other, dict_get new_name (menu_data st) = Some other →
       dict_get new_name (menu_data st') = Some renamed ∧
       (menu_data st').*1 = (m1 ++ m2).*1 ∧
       S (length (menu_data st')) = length (menu_data st)).
Proof.
  intros Hf Hst Hmenu Hne renamed.
  pose proof Hst as (_ & [Hnd _] & _ & _).
  rewrite Hmenu in Hnd. apply NoDup_keys_middle in Hnd as [Hk1 Hk2].
  assert (Hg : dict_get old_name (menu_data st) = Some cd).
  { rewrite Hmenu. by apply dict_get_middle. }
  destruct (rename_category_shape fuel old_name new_name st cd Hf Hst Hg Hne)
    as [n Hren].
  cbv zeta in Hren. fold renamed in Hren.
  rewrite Hmenu, dict_del_middle in Hren by done.
  assert (Hother : ∀ k, k ≠ old_name →
            dict_get k (m1 ++ m2) = dict_get k (menu_data st)).
  { intros k Hk. rewrite Hmenu, !dict_get_app. simpl.
    by rewrite decide_False. }
  eexists. split; [exact Hren|].
  assert (Hres : menu_data
            (notify ("Renamed category: " +:+ old_name +:+ " → " +:+ new_name)
               information
               (committed (dict_set new_name renamed (m1 ++ m2)) n st)) =
            dict_set new_name renamed (m1 ++ m2))
    by apply committed_menu_data.
  rewrite Hres. split; [done|]. split.
  - intros Hnone. rewrite <- Hother in Hnone by done.
    rewrite dict_set_fresh by (by apply dict_get_None).
    by rewrite <- app_assoc.
  - intros other Hsome. rewrite <- Hother in Hsome by done.
    split; [by rewrite dict_get_set, decide_True|].
    rewrite dict_set_keys, dict_set_length, dict_mem_get, Hsome.
    rewrite bool_decide_eq_true_2 by done. split; [done|].
    rewrite Hmenu, !length_app. simpl. lia.
Qed.

Lemma rename_category_order_witness :
  let renamed := Category (expanded (Category true [ping_net]))
                          (set_category "Admin" <$>
                             items (Category true [ping_net])) in
  ∃ st',
    rename_category 11 "Net" "Admin" before_edit_state = Some st' ∧
    menu_data st' =
      dict_set "Admin" renamed
               ([("System Tools", Category true [default_item])] ++
                [("Admin", Category true [ping_admin])]) ∧
    (dict_get "Admin" (menu_data before_edit_state) = None →
     menu_data st' =
       [("System Tools", Category true [default_item])] ++
       [("Admin", Category true [ping_admin])] ++ [("Admin", renamed)]) ∧
    (∀ other, dict_get "Admin" (menu_data before_edit_state) = Some other →
       dict_get "Admin" (menu_data st') = Some renamed ∧
       (menu_data st').*1 =
         ([("System Tools", Category true [default_item])] ++
          [("Admin", Category true [ping_admin])]).*1 ∧
       S (length (menu_data st')) = length (menu_data before_edit_state)).
Proof.
  apply (rename_category_order 11 "Net" "Admin" before_edit_state
           [("System Tools", Category true [default_item])]
           [("Admin", Category true [ping_admin])]
           (Category true [ping_net])).
  - lia.
  - exact before_edit_state_consistent.
  - reflexivity.
  - discriminate.
Defined.

(** ** Moving the cursor *)

(** X15.  In a consistent state the up and down keys move the cursor by
    one entry and stop at the ends of the display list: up from the first
    entry and down from the last one leave it where it is, and nothing
    but the cursor changes. *)
Theorem cursor_keys_move_one_entry fuel st :
  (6 ≤ fuel)%nat → consistent st →
  action_cursor_up fuel st =
    Some (with_current_index (Z.max 0 (current_index st - 1)) st) ∧
  action_cursor_down fuel st =
    Some (with_current_index
            (Z.min (current_index st + 1)
                   (Z.max 0 (Z.of_nat (length (display_items st)) - 1))) st).
Proof.
  intros Hf (_ & _ & _ & Hc). unfold cursor_in_range in Hc.
  unfold action_cursor_up, action_cursor_down.
  destruct (is_empty (display_items st)) eqn:He; cbn [negb].
  - apply is_empty_true in He. rewrite He. simpl length.
    replace (Z.max 0 (current_index st - 1)) with (current_index st) by lia.
    replace (Z.min (current_index st + 1) (Z.max 0 (Z.of_nat 0 - 1)))
      with (current_index st) by lia.
    by rewrite with_current_index_same.
  - apply is_empty_false in He as Hne.
    split.
    + case_bool_decide as Hnew.
      * rewrite set_current_index_spec by done. f_equal. f_equal.
        unfold settled_index. rewrite bool_decide_eq_false_2 by done.
        rewrite He. apply clamp_index_fixed. lia.
      * rewrite Hnew. by rewrite with_current_index_same.
    + replace (Z.min (current_index st + 1)
                 (Z.max 0 (Z.of_nat (length (display_items st)) - 1)))
        with (Z.min (Z.of_nat (length (display_items st)) - 1)
                    (current_index st + 1)) by lia.
      case_bool_decide as Hnew.
      * rewrite set_current_index_spec by done. f_equal. f_equal.
        unfold settled_index. rewrite bool_decide_eq_false_2 by done.
        rewrite He. apply clamp_index_fixed. lia.
      * rewrite Hnew. by rewrite with_current_index_same.
Qed.

Lemma cursor_keys_move_one_entry_witness :
  action_cursor_up 6 first_start =
    Some (with_current_index (Z.max 0 (current_index first_start - 1))
                             first_start) ∧
  action_cursor_down 6 first_start =
    Some (with_current_index
            (Z.min (current_index first_start + 1)
                   (Z.max 0 (Z.of_nat (length (display_items first_start)) - 1)))
            first_start).
Proof.
  apply (cursor_keys_move_one_entry 6 first_start).
  - lia.
  - exact first_start_consistent.
Defined.

(** ** Editing the item under the cursor *)

Lemma first_match_None_inv ol oc (l : list item) i :
  first_match ol oc l i = None →
  Forall (fun x => same_label_cmd ol oc x = false) l.
Proof.
  revert i. induction l as [|x l IH]; intros i; simpl; [by constructor|].
  destruct (same_label_cmd ol oc x) eqn:Hx; [done|].
  intros H. constructor; [done|]. by apply (IH (S i)).
Qed.

Lemma replace_first_match_None_inv ol oc new_item (m : menu) :
  replace_first_match ol oc new_item m = None →
  Forall (fun kv => Forall (fun x => same_label_cmd ol oc x = false)
                           (items kv.2)) m.
Proof.
  induction m as [|[k c] m IH]; simpl; [by constructor|].
  destruct (first_match ol oc (items c) 0) eqn:Hc; [done|].
  destruct (replace_first_match ol oc new_item m); [done|].
  intros _. constructor; [|by apply IH].
  by apply first_match_None_inv in Hc.
Qed.

Lemma item_in_flatten it (m : menu) :
  DItem it ∈ flatten m → ∃ kv, kv ∈ m ∧ it ∈ items kv.2.
Proof.
  induction m as [|[k c] m IH]; [by intros ?%elem_of_nil|].
  rewrite flatten_cons. unfold category_block. simpl.
  intros Hin. apply elem_of_cons in Hin as [?|Hin]; [done|].
  apply elem_of_app in Hin as [Hin|Hin].
  - exists (k, c). split; [apply list_elem_of_here|]. simpl.
    destruct (expanded c); [|by apply elem_of_nil in Hin].
    apply list_elem_of_fmap in Hin as (x & [= ->] & Hx). done.
  - destruct (IH Hin) as (kv & Hkv & Hit).
    exists kv. split; [by apply list_elem_of_further|done].
Qed.

Lemma same_label_cmd_self it : same_label_cmd (label it) (cmd it) it = true.
Proof. unfold same_label_cmd. by rewrite !bool_decide_eq_true_2. Qed.

(** X16.  Saving the edit form of the item under the cursor always finds
    an item to overwrite: the call ends with the "Updated" notification,
    never with the "not found" warning, since the search by label and
    command meets at least the selected item itself. *)
Theorem action_edit_item_finds_selected fuel st it data :
  (11 ≤ fuel)%nat → consistent st →
  py_getitem (display_items st) (current_index st) = Some (DItem it) →
  ∃ st',
    action_edit_item fuel (SaveItem data) st = Some st' ∧
    display_items st' = flatten (menu_data st') ∧
    notifications st' ≠ notifications st ∧
    last (notifications st') =
      Some (Notification information ("Updated: " +:+ label data)).
Proof.
  intros Hf Hst Hsel.
  destruct (selection_lookup _ _ Hst Hsel) as [Hns Hl].
  pose proof (update_item_spec fuel it data st Hf Hst) as Hupd.
  destruct (replace_first_match _ _ _ _) as [v|] eqn:Hv.
  - destruct Hupd as (n & Hupd & Hcons).
    eexists. split.
    + unfold action_edit_item. rewrite Hns, Hsel. exact Hupd.
    + split; [apply (consistent_notify _ _ _ Hcons)|].
      unfold notify. fields. split; [|by rewrite last_snoc].
      intros Heq. rewrite committed_notifications in Heq.
      apply (f_equal length) in Heq. rewrite !length_app in Heq.
      simpl in Heq. lia.
  - exfalso. apply replace_first_match_None_inv in Hv.
    apply list_elem_of_lookup_2, item_in_flatten in Hl as (kv & Hkv & Hit).
    rewrite Forall_forall in Hv. specialize (Hv kv Hkv).
    rewrite Forall_forall in Hv. specialize (Hv it Hit).
    by rewrite same_label_cmd_self in Hv.
Qed.

Lemma action_edit_item_finds_selected_witness :
  ∃ st',
    action_edit_item 11 (SaveItem refiled_item) refiled_state = Some st' ∧
    display_items st' = flatten (menu_data st') ∧
    notifications st' ≠ notifications refiled_state ∧
    last (notifications st') =
      Some (Notification information ("Updated: " +:+ label refiled_item)).
Proof.
  apply (action_edit_item_finds_selected 11 refiled_state refiled_item).
  - lia.
  - exact refiled_state_consistent.
  - reflexivity.
Defined.

(** ** What an update leaves in place *)

Lemma replace_first_match_shape ol oc new_item (m v : menu) :
  replace_first_match ol oc new_item m = Some v →
  Forall2 (fun a b => a.1 = b.1 ∧ expanded a.2 = expanded b.2 ∧
                      length (items a.2) = length (items b.2)) m v.
Proof.
  revert v. induction m as [|[k c] m IH]; intros v; simpl; [done|].
  destruct (first_match ol oc (items c) 0) as [i|].
  - intros [= <-]. constructor.
    + simpl. by rewrite length_insert.
    + apply Forall2_same_length_lookup. split; [done|].
      intros j a b Ha Hb. rewrite Ha in Hb. by injection Hb as <-.
  - destruct (replace_first_match ol oc new_item m) as [v'|]; [|done].
    intros [= <-]. constructor; [done|]. by apply IH.
Qed.




(** ** The settings screens *)

Lemma theme_screen_init_spec current :
  theme_keys (theme_screen_init current) = THEMES.*1 ∧
  0 ≤ selected_index (theme_screen_init current) ≤ 4 ∧
  THEMES.*1 !! Z.to_nat (selected_index (theme_screen_init current)) =
    Some (if bool_decide (current ∈ THEMES.*1) then current else "classic").
Proof.
  unfold theme_screen_init. split; [done|]. cbn [selected_index].
  case_bool_decide as Hin; [|by split].
  change (THEMES.*1) with ["classic"; "nord"; "gruvbox"; "dracula"; "monokai"]
    in *.
  repeat (apply elem_of_cons in Hin as [->|Hin]; [by split|]).
  by apply elem_of_nil in Hin.
Qed.

Lemma theme_press_spec s k :
  theme_keys s = THEMES.*1 → 0 ≤ selected_index s ≤ 4 →
  theme_keys (theme_press s k) = THEMES.*1 ∧
  0 ≤ selected_index (theme_press s k) ≤ 4.
Proof.
  intros Hk Hr. destruct k; simpl; rewrite Hk; (split; [done|]);
    simpl length; lia.
Qed.

Lemma theme_presses_spec current keys :
  theme_keys (foldl theme_press (theme_screen_init current) keys)
    = THEMES.*1 ∧
  0 ≤ selected_index (foldl theme_press (theme_screen_init current) keys) ≤ 4.
Proof.
  destruct (theme_screen_init_spec current) as (Hk & Hr & _).
  revert Hk Hr. generalize (theme_screen_init current).
  induction keys as [|k keys IH]; intros s Hk Hr; simpl; [done|].
  destruct (theme_press_spec s k Hk Hr). by apply IH.
Qed.

(** X18.  Whatever theme the application holds when the chooser opens,
    and whatever up and down keys are pressed in it, applying hands back
    one of the five keys of [THEMES], so that [apply_theme] finds its
    palette without falling back to the classic one.  The chooser opens
    on the current theme, or on "classic" when the current theme is not
    a key of [THEMES]. *)
Theorem theme_chooser_applies_known_theme current keys :
  (∃ theme p,
     theme_action_apply (foldl theme_press (theme_screen_init current) keys)
       = Some (ApplyTheme theme) ∧
     dict_get theme THEMES = Some p ∧
     theme_data theme = Some p) ∧
  theme_action_apply (theme_screen_init current) =
    Some (ApplyTheme (if bool_decide (current ∈ THEMES.*1) then current
                      else "classic")).
Proof.
  split.
  - destruct (theme_presses_spec current keys) as [Hk Hr].
    unfold theme_action_apply. rewrite Hk.
    rewrite py_getitem_nonneg by lia.
    assert (selected_index (foldl theme_press (theme_screen_init current) keys)
            = 0 ∨ selected_index (foldl theme_press (theme_screen_init current)
                                    keys) = 1 ∨
            selected_index (foldl theme_press (theme_screen_init current) keys)
            = 2 ∨ selected_index (foldl theme_press (theme_screen_init current)
                                    keys) = 3 ∨
            selected_index (foldl theme_press (theme_screen_init current) keys)
            = 4) as Hcases by lia.
    destruct Hcases as [->|[->|[->|[->| ->]]]]; eexists _, _;
      (split; [reflexivity|]); split; reflexivity.
  - destruct (theme_screen_init_spec current) as (Hk & Hr & Hl).
    unfold theme_action_apply. rewrite Hk.
    rewrite py_getitem_nonneg by lia. by rewrite Hl.
Qed.

(** X19.  The title screen never stores an empty title: saving an input
    that is empty once stripped is a cancel, and the state is left as it
    is.  Any other title is stored, saved with the unchanged tree and
    theme when the disk can be written, and announced; the tree, the
    display list and the cursor are not touched. *)
Theorem title_screen_stores_nonempty_title new_title st :
  let st' := handle_title_result (edit_title_screen_save new_title) st in
  (new_title = "" → st' = st) ∧
  (new_title ≠ "" →
   app_title st' = new_title ∧
   menu_data st' = menu_data st ∧
   display_items st' = display_items st ∧
   current_index st' = current_index st ∧
   app_theme st' = app_theme st ∧
   last (notifications st') =
     Some (Notification information ("Title updated to: " +:+ new_title)) ∧
   (disk_writable st = true →
    config_file st' =
      Stored (Document (Some (menu_data st))
                (Some (SettingsObject (Some (app_theme st))
                                      (Some new_title)))))).
Proof.
  cbv zeta. unfold edit_title_screen_save. split.
  - intros ->. done.
  - intros Hne. rewrite bool_decide_eq_false_2 by done. cbn [negb].
    unfold handle_title_result.
    destruct (disk_writable st) eqn:Hw.
    + rewrite save_menu_data_writable by done. fields.
      repeat split; try done. by rewrite last_snoc.
    + rewrite save_menu_data_readonly by done. fields.
      repeat split; try done. by rewrite last_snoc.
Qed.

Lemma title_screen_stores_nonempty_title_witness :
  let st' := handle_title_result (edit_title_screen_save "Tools") first_start in
  ("Tools" = "" → st' = first_start) ∧
  ("Tools" ≠ "" →
   app_title st' = "Tools" ∧
   menu_data st' = menu_data first_start ∧
   display_items st' = display_items first_start ∧
   current_index st' = current_index first_start ∧
   app_theme st' = app_theme first_start ∧
   last (notifications st') =
     Some (Notification information ("Title updated to: " +:+ "Tools")) ∧
   (disk_writable first_start = true →
    config_file st' =
      Stored (Document (Some (menu_data first_start))
                (Some (SettingsObject (Some (app_theme first_start))
                                      (Some "Tools")))))).
Proof. apply (title_screen_stores_nonempty_title "Tools" first_start). Defined.

(** ** Category names that come from the forms *)

Lemma keys_add_new_item fuel it st st' :
  (11 ≤ fuel)%nat → consistent st → add_new_item fuel it st = Some st' →
  ∀ k, k ∈ (menu_data st').*1 → k = category it ∨ k ∈ (menu_data st).*1.
Proof.
  intros Hf Hst Hadd k.
  destruct (add_new_item_spec fuel it st Hf Hst) as (v & n & Hv & Hadd' & _).
  rewrite Hadd' in Hadd. injection Hadd as <-.
  change (menu_data (notify _ _ (committed v n st)))
    with (menu_data (committed v n st)).
  rewrite committed_menu_data, Hv.
  destruct (dict_get (category it) (menu_data st)) as [cd|] eqn:Hg.
  - rewrite dict_set_keys, dict_mem_get, Hg.
    rewrite bool_decide_eq_true_2 by done. by right.
  - rewrite fmap_app, elem_of_app. simpl. rewrite list_elem_of_singleton.
    tauto.
Qed.

Lemma same_shape_keys (m v : menu) :
  Forall2 (fun a b => a.1 = b.1 ∧ expanded a.2 = expanded b.2 ∧
                      length (items a.2) = length (items b.2)) m v →
  m.*1 = v.*1.
Proof.
  induction 1 as [|a b m v (Hk & _) _ IH]; [done|].
  csimpl. by rewrite Hk, IH.
Qed.

Lemma action_cursor_frame fuel st st' :
  (6 ≤ fuel)%nat →
  action_cursor_up fuel st = Some st' ∨ action_cursor_down fuel st = Some st' →
  ∃ i, st' = with_current_index i st.
Proof.
  intros Hf [Hmove|Hmove];
    unfold action_cursor_up, action_cursor_down in Hmove;
    (destruct (negb _);
     [|injection Hmove as <-; exists (current_index st);
       by rewrite with_current_index_same]);
    (case_bool_decide;
     [|injection Hmove as <-; exists (current_index st);
       by rewrite with_current_index_same]);
    rewrite set_current_index_spec in Hmove by lia;
    injection Hmove as <-; by eexists.
Qed.

Lemma keys_update_item fuel old_item new_item st st' :
  (11 ≤ fuel)%nat → consistent st →
  update_item fuel old_item new_item st = Some st' →
  (menu_data st').*1 = (menu_data st).*1.
Proof.
  intros Hf Hst Hupd.
  pose proof (update_item_spec fuel old_item new_item st Hf Hst) as Hspec.
  destruct (replace_first_match _ _ _ _) as [v|] eqn:Hv.
  - destruct Hspec as (n & Hspec & _). rewrite Hspec in Hupd.
    injection Hupd as <-.
    change (menu_data (notify _ _ (committed v n st)))
      with (menu_data (committed v n st)).
    rewrite committed_menu_data.
    apply replace_first_match_shape in Hv. symmetry.
    by apply same_shape_keys.
  - rewrite Hspec in Hupd. by injection Hupd as <-.
Qed.

Lemma keys_rename_category fuel old_name new_name st st' :
  (11 ≤ fuel)%nat → consistent st →
  rename_category fuel old_name new_name st = Some st' →
  ∀ k, k ∈ (menu_data st').*1 → k = new_name ∨ k ∈ (menu_data st).*1.
Proof.
  intros Hf Hst Hren k.
  destruct (dict_get old_name (menu_data st)) as [cd|] eqn:Hg.
  - destruct (decide (new_name = old_name)) as [Heq|Hne].
    + rewrite rename_category_noop in Hren by (by right).
      injection Hren as <-. by right.
    + destruct (rename_category_shape fuel old_name new_name st cd
                  Hf Hst Hg Hne) as [n Hshape].
      rewrite Hshape in Hren. injection Hren as <-.
      change (menu_data (notify _ _ (committed ?v n st)))
        with (menu_data (committed v n st)).
      rewrite committed_menu_data, dict_set_keys.
      destruct (dict_mem new_name _).
      * intros Hk. right. by apply (dict_del_keys_subseteq old_name).
      * rewrite elem_of_app, list_elem_of_singleton. intros [Hk|?]; [|by left].
        right. by apply (dict_del_keys_subseteq old_name).
  - rewrite rename_category_noop in Hren by (by left).
    injection Hren as <-. by right.
Qed.

Lemma keys_action_delete_item fuel st st' :
  (11 ≤ fuel)%nat → consistent st → action_delete_item fuel st = Some st' →
  (menu_data st').*1 ⊆ (menu_data st).*1.
Proof.
  intros Hf Hst Hdel.
  destruct (consistent_selection st Hst) as [Hns|[e Hsel]].
  { unfold action_delete_item in Hdel. rewrite Hns in Hdel.
    by injection Hdel as <-. }
  destruct e as [name|it].
  { rewrite (action_delete_item_category _ _ name Hst Hsel) in Hdel.
    by injection Hdel as <-. }
  destruct (dict_get (category it) (menu_data st)) as [cd|] eqn:Hg.
  - destruct (decide (it ∈ items cd)) as [Hin|Hnin].
    + destruct (action_delete_item_spec fuel st it cd Hf Hst Hsel Hg Hin)
        as (s & Hdel' & Hres & _).
      rewrite Hdel' in Hdel. injection Hdel as <-. rewrite Hres.
      unfold tree_without. destruct (is_empty _).
      * apply dict_del_keys_subseteq.
      * rewrite dict_set_keys, dict_mem_get, Hg.
        by rewrite bool_decide_eq_true_2.
    + rewrite (action_delete_item_silent _ _ it Hsel) in Hdel;
        [|right; by exists cd].
      by injection Hdel as <-.
  - rewrite (action_delete_item_silent _ _ it Hsel) in Hdel; [|by left].
    by injection Hdel as <-.
Qed.

Lemma keys_action_toggle_category fuel st st' :
  (11 ≤ fuel)%nat → consistent st → action_toggle_category fuel st = Some st' →
  (menu_data st').*1 = (menu_data st).*1.
Proof.
  intros Hf Hst Htog.
  destruct (consistent_selection st Hst) as [Hns|[e Hsel]].
  { unfold action_toggle_category in Htog. rewrite Hns in Htog.
    by injection Htog as <-. }
  destruct e as [name|it].
  - destruct (action_toggle_category_spec fuel st name Hf Hst Hsel)
      as (cd & s & Hg & Htog' & Hres & _).
    rewrite Htog' in Htog. injection Htog as <-. rewrite Hres.
    rewrite dict_set_keys, dict_mem_get, Hg.
    by rewrite bool_decide_eq_true_2.
  - unfold action_toggle_category in Htog.
    destruct (no_selection st); [|rewrite Hsel in Htog];
      by injection Htog as <-.
Qed.

(** X20.  Working through the forms never brings a category with an empty
    name into the tree: the item form files an item with an empty
    category field under "General", and the category form takes an empty
    name for a cancel.  (The state stays consistent as well.) *)
Theorem forms_never_create_unnamed_category fuel a st st' :
  (11 ≤ fuel)%nat → consistent st → "" ∉ (menu_data st).*1 →
  perform fuel a st = Some st' →
  ("" ∉ (menu_data st').*1) ∧ consistent st'.
Proof.
  intros Hf Hst Hkeys Hdo.
  assert (Hitem : ∀ l c i cat p data,
            edit_item_screen_save l c i cat p = SaveItem data →
            category data ≠ "").
  { intros l c i cat p data [= <-]. simpl. by case_bool_decide. }
  assert (Hmut : ∀ mu, mutate fuel mu st = Some st' → consistent st').
  { intros mu Hmu.
    destruct (mutate_consistent fuel mu st Hf Hst) as (s & Hs & Hc).
    rewrite Hs in Hmu. by injection Hmu as <-. }
  destruct a as [l c i cat p|l c i cat p name_text| | | |]; cbn [perform] in Hdo.
  - unfold action_new_item in Hdo.
    destruct (edit_item_screen_save l c i cat p) as [data| |] eqn:Hform;
      try discriminate.
    split; [|by apply (Hmut (AddItem data))].
    intros Hin. apply (keys_add_new_item _ _ _ _ Hf Hst Hdo) in Hin
      as [Heq|Hin]; [|done].
    by apply (Hitem _ _ _ _ _ _ Hform).
  - destruct (consistent_selection st Hst) as [Hns|[e Hsel]].
    { assert (st' = st) as ->; [|done].
      destruct (py_getitem _ _) as [[name|it]|]; unfold action_edit_item in Hdo;
        rewrite Hns in Hdo; by injection Hdo as <-. }
    rewrite Hsel in Hdo. unfold action_edit_item in Hdo.
    destruct (selection_lookup _ _ Hst Hsel) as [Hns _].
    rewrite Hns, Hsel in Hdo. cbn [mbind option_bind] in Hdo.
    destruct e as [name|it].
    + unfold edit_category_screen_save in Hdo.
      case_bool_decide as Hempty; cbn [negb andb] in Hdo;
        [by injection Hdo as <-|].
      case_bool_decide as Hsame; [|by injection Hdo as <-].
      split; [|by apply (Hmut (RenameCategory name name_text))].
      intros Hin. apply (keys_rename_category _ _ _ _ _ Hf Hst Hdo) in Hin
        as [Heq|Hin]; [|done].
      by apply Hempty.
    + cbn [edit_item_screen_save] in Hdo.
      split; [|by eapply (Hmut (UpdateItem it _))].
      by rewrite (keys_update_item _ _ _ _ _ Hf Hst Hdo).
  - split; [|by apply (Hmut DeleteItem)].
    intros Hin. apply Hkeys.
    by apply (keys_action_delete_item _ _ _ Hf Hst Hdo).
  - split; [|by apply (Hmut ToggleCategory)].
    by rewrite (keys_action_toggle_category _ _ _ Hf Hst Hdo).
  - split; [|by apply (action_cursor_up_consistent fuel st); [lia| |]].
    destruct (action_cursor_frame fuel st st') as [j ->]; [lia|by left|done].
  - split; [|by apply (action_cursor_down_consistent fuel st); [lia| |]].
    destruct (action_cursor_frame fuel st st') as [j ->]; [lia|by right|done].
Qed.

Lemma forms_never_create_unnamed_category_witness :
  let st' := default first_start
               (perform 11 (PressNew "Ping" "ping -c 3 host" "" "" false)
                        first_start) in
  ("" ∉ (menu_data st').*1) ∧ consistent st'.
Proof.
  intros st'.
  apply (forms_never_create_unnamed_category 11
           (PressNew "Ping" "ping -c 3 host" "" "" false) first_start st').
  - lia.
  - exact first_start_consistent.
  - apply (bool_decide_unpack _). vm_compute. exact I.
  - vm_compute. reflexivity.
Defined.

(** ** Assigning the cursor *)

(** X21.  An assignment to [current_index], followed to the end of the
    watchers it starts, leaves the cursor inside the display list: at the
    assigned offset when that is an offset of the list, at the nearer end
    of the list when it is not, at 0 when the list is empty.  Nothing
    else changes, and the nested assignments stop after at most six
    calls.  (The cursor is taken to be in range before; an assignment of
    the value the cursor already has starts no watcher.) *)
Theorem set_current_index_clamps fuel v st :
  (6 ≤ fuel)%nat →
  cursor_in_range (current_index st) (display_items st) →
  ∃ c,
    set_current_index fuel v st = Some (with_current_index c st) ∧
    c = (if is_empty (display_items st) then 0
         else Z.max 0 (Z.min v (Z.of_nat (length (display_items st)) - 1))) ∧
    cursor_in_range c (display_items st).
Proof.
  intros Hf Hc. rewrite set_current_index_spec by done.
  eexists. split; [done|].
  unfold settled_index, cursor_in_range in *.
  destruct (is_empty (display_items st)) eqn:He.
  - case_bool_decide; [subst v|]; done.
  - apply is_empty_false in He as Hne.
    pose proof (clamp_index_range v _ Hne) as Hr.
    unfold clamp_index in *.
    case_bool_decide as Hv; [|done]. subst v. lia.
Qed.

Lemma set_current_index_clamps_witness :
  ∃ c,
    set_current_index 6 7 first_start = Some (with_current_index c first_start) ∧
    c = (if is_empty (display_items first_start) then 0
         else Z.max 0 (Z.min 7 (Z.of_nat (length (display_items first_start))
                                - 1))) ∧
    cursor_in_range c (display_items first_start).
Proof.
  apply (set_current_index_clamps 6 7 first_start).
  - lia.
  - apply (bool_decide_unpack _). vm_compute. exact I.
Defined.

(** ** What a start shows *)

(** X22.  Started on a missing file, an unreadable one, or a stored tree
    in which every category has items, the mounted application holds the
    tree read from the file (the built-in one in the first two cases),
    shows its flattened list with the cursor on the first entry, and has
    written the file only to create the built-in document: a stored file
    is left as it is. *)
Theorem start_shows_loaded_tree fuel disk w st :
  (11 ≤ fuel)%nat → loadable disk →
  (st ← new_app fuel disk w; on_mount fuel st) = Some st →
  menu_data st = loaded_menu disk ∧
  app_theme st = loaded_theme disk ∧
  app_title st = loaded_title disk ∧
  display_items st = flatten (loaded_menu disk) ∧
  current_index st = 0 ∧
  config_file st = file_after_load disk w ∧
  notifications st = notifications_after_load disk w.
Proof.
  intros Hf Hdisk Hstart.
  do 3 (destruct fuel as [|fuel]; [lia|]).
  rewrite new_app_loaded in Hstart. cbn [mbind option_bind] in Hstart.
  unfold on_mount in Hstart.
  rewrite update_menu_display_spec in Hstart; [|lia|done|].
  2:{ cbn [menu_data with_menu_container].
      destruct disk; [apply default_data_wf..|exact Hdisk]. }
  cbn [mbind option_bind] in Hstart. injection Hstart as <-.
  unfold update_status. fields. repeat split; try done.
  unfold highlighted_index, clamp_index.
  destruct (flatten (loaded_menu disk)); simpl is_empty; cbv iota; [done|].
  simpl length. lia.
Qed.

Lemma start_shows_loaded_tree_witness :
  menu_data first_start = loaded_menu Absent ∧
  app_theme first_start = loaded_theme Absent ∧
  app_title first_start = loaded_title Absent ∧
  display_items first_start = flatten (loaded_menu Absent) ∧
  current_index first_start = 0 ∧
  config_file first_start = file_after_load Absent true ∧
  notifications first_start = notifications_after_load Absent true.
Proof.
  apply (start_shows_loaded_tree 11 Absent true first_start).
  - lia.
  - exact I.
  - exact first_start_reachable.
Defined.

(** ** Toggling, in any state of a session *)

Lemma doubled_state_reachable :
  cluttered_session 11 4 = Some (doubled_state 4) ∧
  cluttered_session 11 6 = Some (doubled_state 6).
Proof. split; vm_compute; reflexivity. Qed.

Lemma no_selection_false_lookup st e :
  no_selection st = false →
  py_getitem (display_items st) (current_index st) = Some e →
  e ∈ display_items st.
Proof.
  intros _ Hg. unfold py_getitem in Hg.
  repeat case_bool_decide; try done;
    by apply list_elem_of_lookup_2 in Hg.
Qed.

(** Toggling with the cursor on a header entry, whatever the display list
    holds besides. *)
Lemma action_toggle_category_header fuel st name cd :
  (11 ≤ fuel)%nat → menu_container st = true → wf_menu (menu_data st) →
  no_selection st = false →
  py_getitem (display_items st) (current_index st) = Some (DCategory name) →
  dict_get name (menu_data st) = Some cd →
  ∃ n i,
    action_toggle_category fuel st =
      Some (with_current_index i
              (committed
                 (dict_set name (Category (negb (expanded cd)) (items cd))
                           (menu_data st)) n
                 (with_menu_data
                    (dict_set name (Category (negb (expanded cd)) (items cd))
                              (menu_data st)) st))) ∧
    0 ≤ i ∧
    flatten (dict_set name (Category (negb (expanded cd)) (items cd))
                      (menu_data st)) !! Z.to_nat i = Some (DCategory name).
Proof.
  intros Hf Hm Hwf Hns Hsel Hg.
  set (v := dict_set name (Category (negb (expanded cd)) (items cd))
                     (menu_data st)).
  assert (Hwfv : wf_menu v).
  { apply wf_menu_dict_set; [done|]. simpl.
    exact (wf_menu_items_nonempty _ _ _ Hwf Hg). }
  destruct (commit_spec fuel v (with_menu_data v st)) as [n Hn];
    [done|done|done|by left|].
  destruct (restore_position_to_category_spec fuel name
              (committed v n (with_menu_data v st))) as (i & Hr & Hi & Hci).
  { lia. }
  { rewrite committed_display_items. apply header_in_flatten.
    unfold v. rewrite dict_set_keys.
    rewrite dict_mem_get, Hg. rewrite bool_decide_eq_true_2 by done.
    apply dict_get_Some_elem in Hg.
    apply (list_elem_of_fmap_2 fst _ _ Hg). }
  rewrite committed_display_items in Hi, Hci.
  destruct (cursor_in_range_lookup _ _ _ Hci Hi) as [Hi0 Hl].
  exists n, i. split; [|split; [lia|done]].
  unfold action_toggle_category. rewrite Hns, Hsel.
  cbn [mbind option_bind]. rewrite Hg. fold v.
  unfold commit in Hn.
  destruct (set_menu_data fuel v (with_menu_data v st)) as [s1|]; [|done].
  cbn [mbind option_bind] in *. rewrite Hn. cbn [mbind option_bind].
  exact Hr.
Qed.

Lemma toggled_state_selection v n i st name :
  0 ≤ i → flatten v !! Z.to_nat i = Some (DCategory name) →
  no_selection (with_current_index i (committed v n st)) = false ∧
  py_getitem (display_items (with_current_index i (committed v n st)))
             (current_index (with_current_index i (committed v n st))) =
    Some (DCategory name).
Proof.
  intros Hi Hl.
  change (display_items (with_current_index i (committed v n st)))
    with (flatten v).
  change (current_index (with_current_index i (committed v n st))) with i.
  split.
  - unfold no_selection.
    change (display_items (with_current_index i (committed v n st)))
      with (flatten v).
    change (current_index (with_current_index i (committed v n st))) with i.
    apply lookup_lt_Some in Hl.
    apply orb_false_iff. split.
    + apply is_empty_false. intros Hnil. rewrite Hnil in Hl. simpl in Hl. lia.
    + apply bool_decide_eq_false_2. lia.
  - by rewrite py_getitem_nonneg.
Qed.

(** C6.  Toggling the category under the cursor twice gives back the
    tree as it was, and leaves the cursor on the header of that category.
    With the cursor on a header entry [name] of the mounted application,
    [cd] the data of that category and [m1], [m2] the categories before
    and after it, the first toggle flips the expanded flag of [name] and
    nothing else in the tree, rebuilds the display list from the new tree
    and sets the cursor to the offset of the header of [name] in that
    list, which is the number of entries of the categories before it;
    the second toggle gives back the tree the first one started from (the
    flag of [name] is the original one again), the display list is that
    tree flattened, and the cursor is on the header of [name], at the
    same offset.  Nothing is asked of the display list and the cursor
    before the first toggle but that the cursor selects a header: the
    list may hold the entries twice over, and the cursor may stand on
    the second copy, from where it is moved. *)
Theorem toggle_twice_restores fuel st (m1 m2 : menu) name cd :
  (11 ≤ fuel)%nat → menu_container st = true → wf_menu (menu_data st) →
  menu_data st = m1 ++ (name, cd) :: m2 →
  no_selection st = false →
  py_getitem (display_items st) (current_index st) = Some (DCategory name) →
  ∃ st1 st2,
    action_toggle_category fuel st = Some st1 ∧
    menu_data st1 =
      m1 ++ (name, Category (negb (expanded cd)) (items cd)) :: m2 ∧
    display_items st1 = flatten (menu_data st1) ∧
    current_index st1 = Z.of_nat (length (flatten m1)) ∧
    display_items st1 !! length (flatten m1) = Some (DCategory name) ∧
    action_toggle_category fuel st1 = Some st2 ∧
    menu_data st2 = menu_data st ∧
    display_items st2 = flatten (menu_data st) ∧
    current_index st2 = Z.of_nat (length (flatten m1)) ∧
    display_items st2 !! length (flatten m1) = Some (DCategory name).
Proof.
  intros Hf Hm Hwf Hmenu Hns Hsel.
  pose proof Hwf as [Hnd _]. rewrite Hmenu in Hnd. pose proof Hnd as Hnd'.
  apply NoDup_keys_middle in Hnd as [Hk1 Hk2].
  assert (Hg : dict_get name (menu_data st) = Some cd).
  { rewrite Hmenu. by apply dict_get_middle. }
  set (cd1 := Category (negb (expanded cd)) (items cd)).
  set (v := m1 ++ (name, cd1) :: m2).
  assert (Hv : dict_set name cd1 (menu_data st) = v).
  { rewrite Hmenu. by apply dict_set_middle. }
  assert (Hndv : NoDup v.*1).
  { unfold v. rewrite fmap_app in *. csimpl in *. done. }
  (* the first toggle *)
  destruct (action_toggle_category_header fuel st name cd Hf Hm Hwf Hns Hsel Hg)
    as (n1 & i1 & Ht1 & Hi1 & Hl1).
  fold cd1 in Ht1, Hl1. rewrite Hv in Ht1, Hl1.
  assert (Hidx1 : Z.to_nat i1 = length (flatten m1)).
  { apply (header_index_unique (flatten v) _ _ name); [|done|].
    - by rewrite headers_flatten.
    - apply flatten_lookup_header. }
  set (st1 := with_current_index i1 (committed v n1 (with_menu_data v st))).
  assert (Hm1 : menu_data st1 = v) by apply committed_menu_data.
  assert (Hwfv : wf_menu v).
  { rewrite <- Hv. apply wf_menu_dict_set; [done|]. simpl.
    exact (wf_menu_items_nonempty _ _ _ Hwf Hg). }
  destruct (toggled_state_selection v n1 i1 (with_menu_data v st) name Hi1 Hl1)
    as [Hns1 Hsel1].
  assert (Hg1 : dict_get name (menu_data st1) = Some cd1).
  { rewrite Hm1. unfold v. by apply dict_get_middle. }
  (* the second toggle *)
  destruct (action_toggle_category_header fuel st1 name cd1 Hf) as
    (n2 & i2 & Ht2 & Hi2 & Hl2); [|by rewrite Hm1|done|done|done|].
  { change (menu_container (committed v n1 (with_menu_data v st)) = true).
    by rewrite committed_menu_container. }
  assert (Hback : dict_set name (Category (negb (expanded cd1)) (items cd1))
                           (menu_data st1) = menu_data st).
  { rewrite Hm1. unfold cd1. simpl. rewrite negb_involutive.
    unfold v. rewrite dict_set_middle by done. rewrite Hmenu. by destruct cd. }
  rewrite Hback in Ht2, Hl2.
  assert (Hidx2 : Z.to_nat i2 = length (flatten m1)).
  { apply (header_index_unique (flatten (menu_data st)) _ _ name); [|done|].
    - rewrite headers_flatten. by rewrite Hmenu.
    - rewrite Hmenu. apply flatten_lookup_header. }
  eexists st1, _. split; [exact Ht1|].
  split; [done|]. split; [by rewrite Hm1|].
  split; [change (i1 = Z.of_nat (length (flatten m1))); lia|].
  split; [change (flatten v !! length (flatten m1) = Some (DCategory name));
          apply flatten_lookup_header|].
  split; [exact Ht2|].
  split; [apply committed_menu_data|].
  split; [done|].
  split; [change (i2 = Z.of_nat (length (flatten m1))); lia|].
  change (flatten (menu_data st) !! length (flatten m1) =
          Some (DCategory name)).
  rewrite Hmenu. apply flatten_lookup_header.
Qed.

Lemma toggle_twice_restores_witness :
  cluttered_session 11 4 = Some (doubled_state 4) ∧
  current_index (doubled_state 4) = 4 ∧
  ∃ st1 st2,
    action_toggle_category 11 (doubled_state 4) = Some st1 ∧
    menu_data st1 =
      [] ++ ("Net", Category (negb (expanded (Category true [ping_net])))
                             (items (Category true [ping_net])))
         :: [("Admin", Category true [ping_admin])] ∧
    display_items st1 = flatten (menu_data st1) ∧
    current_index st1 = Z.of_nat (length (flatten [])) ∧
    display_items st1 !! length (flatten []) = Some (DCategory "Net") ∧
    action_toggle_category 11 st1 = Some st2 ∧
    menu_data st2 = menu_data (doubled_state 4) ∧
    display_items st2 = flatten (menu_data (doubled_state 4)) ∧
    current_index st2 = Z.of_nat (length (flatten [])) ∧
    display_items st2 !! length (flatten []) = Some (DCategory "Net").
Proof.
  split; [vm_compute; reflexivity|]. split; [reflexivity|].
  apply (toggle_twice_restores 11 (doubled_state 4) []
           [("Admin", Category true [ping_admin])]
           "Net" (Category true [ping_net])).
  - lia.
  - reflexivity.
  - apply (bool_decide_unpack _). vm_compute. exact I.
  - reflexivity.
  - reflexivity.
  - reflexivity.
Defined.

(** ** Redrawing any tree *)

Lemma save_menu_data_display_items st :
  display_items (save_menu_data st) = display_items st.
Proof. unfold save_menu_data. by destruct (disk_writable st). Qed.

(** A redraw, whatever the tree holds: the categories without items are
    dropped first; when there was one, the entries are listed twice. *)
Lemma update_menu_display_any fuel st :
  (20 ≤ fuel)%nat → menu_container st = true → NoDup (menu_data st).*1 →
  ∃ st',
    update_menu_display fuel st = Some st' ∧
    menu_data st' = filter (fun kv => items kv.2 ≠ []) (menu_data st) ∧
    menu_container st' = true ∧
    display_items st' =
      (if decide (Forall (fun kv => items kv.2 ≠ []) (menu_data st))
       then flatten (menu_data st')
       else flatten (menu_data st') ++ flatten (menu_data st')) ∧
    current_index st' =
      highlighted_index (current_index st) (flatten (menu_data st')).
Proof.
  intros Hf Hm Hnd.
  pose proof (nonempty_categories_eq_filter _ Hnd) as Hfil.
  pose proof (filter_nonempty_wf _ Hnd) as Hwfv. rewrite <- Hfil in Hwfv.
  destruct (decide (Forall (fun kv => items kv.2 ≠ []) (menu_data st)))
    as [Hall|Hnall].
  - assert (Hwf : wf_menu (menu_data st)) by done.
    rewrite update_menu_display_spec by (done || lia).
    eexists. split; [done|]. fields.
    rewrite <- Hfil, (nonempty_categories_wf _ Hwf).
    done.
  - assert (Hex : Exists (fun kv => items kv.2 = []) (menu_data st)).
    { apply not_Forall_Exists in Hnall; [|apply _].
      eapply Exists_impl; [exact Hnall|]. intros kv Hkv. simpl in Hkv.
      by destruct (items kv.2); [|exfalso; apply Hkv]. }
    destruct (nonempty_categories_changed _ Hnd Hex) as [Hne1 Hne2].
    set (v := nonempty_categories (menu_data st)) in *.
    do 2 (destruct fuel as [|fuel]; [lia|]).
    cbn [update_menu_display]. rewrite Hm. cbn [negb].
    cbn [cleanup_empty_categories].
    cbn [menu_data with_display_items]. fold v. rewrite Hne1. cbn [negb].
    rewrite set_menu_data_spec by (done || lia).
    cbn [menu_data with_display_items]. rewrite Hne2.
    cbn [mbind option_bind].
    rewrite save_menu_data_menu_data, save_menu_data_display_items.
    cbn [menu_data display_items with_scheduled with_current_index
         with_display_items with_menu_data].
    rewrite build_display_app.
    rewrite update_highlighting_spec by lia.
    cbn [display_items with_display_items].
    eexists. split; [done|]. rewrite <- Hfil.
    destruct (is_empty (flatten v ++ flatten v)) eqn:He;
      cbn [menu_data display_items current_index menu_container
           call_later_update_highlighting with_scheduled with_current_index
           with_display_items];
      rewrite ?save_menu_data_menu_data, ?save_menu_data_menu_container,
        ?save_menu_data_current_index;
      cbn [menu_data display_items current_index menu_container
           with_scheduled with_current_index with_display_items
           with_menu_data].
    + done.
    + split; [done|]. split; [done|]. split; [done|].
      unfold highlighted_index.
      destruct (is_empty (flatten v)) eqn:He'.
      * apply is_empty_true in He'. rewrite He' in He. done.
      * apply is_empty_false in He'.
        pose proof (clamp_index_range (current_index st) _ He').
        unfold clamp_index in *. rewrite length_app. lia.
Qed.




(** ** A cursor beyond the flattened tree *)

(** C8, at the failing input.  The application is started on a file that
    lists a category without items and the down key is pressed six times:
    the display list holds the four entries of the tree twice, and the
    cursor, at offset 6, is on the second copy of the header "Admin".
    The delete key is refused there (a header cannot be deleted) and the
    handler returns with the cursor still at 6, while the flattened tree
    has four entries: the cursor is not between 0 and 3. *)
Theorem delete_leaves_cursor_beyond_flattened_tree (fuel : nat) :
  cluttered_session 11 6 = Some (doubled_state 6) ∧
  ∃ st',
    mutate fuel DeleteItem (doubled_state 6) = Some st' ∧
    menu_data st' = kept_tree ∧
    length (flatten (menu_data st')) = 4%nat ∧
    length (display_items st') = 8%nat ∧
    notifications st' =
      [Notification warning "Cannot delete categories directly"] ∧
    current_index st' = 6 ∧
    ¬ (0 ≤ current_index st' ≤ Z.of_nat (length (flatten (menu_data st'))) - 1).
Proof.
  split; [vm_compute; reflexivity|].
  eexists. split; [reflexivity|].
  split; [reflexivity|]. split; [reflexivity|]. split; [reflexivity|].
  split; [reflexivity|]. split; [reflexivity|].
  vm_compute. intros [_ H]. by apply H.
Qed.

(** ** Sessions started on any file *)

Lemma consistent_drawn st : consistent st → drawn st.
Proof. intros (Hm & Hwf & Hd & Hc). unfold drawn, shown. auto. Qed.

Lemma drawn_notify msg sev st : drawn st → drawn (notify msg sev st).
Proof. intros (Hm & Hwf & Hd & Hc). unfold drawn, shown. by fields. Qed.

Lemma drawn_with_current_index i st :
  drawn st → cursor_in_range i (display_items st) →
  drawn (with_current_index i st).
Proof. intros (Hm & Hwf & Hd & _) Hc. unfold drawn, shown. by fields. Qed.

(** Either nothing is selected, or the cursor is on an entry. *)
Lemma drawn_selection st :
  drawn st →
  no_selection st = true ∨
  (no_selection st = false ∧ 0 ≤ current_index st ∧
   ∃ e, py_getitem (display_items st) (current_index st) = Some e).
Proof.
  intros (_ & _ & _ & Hc). unfold no_selection, cursor_in_range in *.
  destruct (is_empty (display_items st)) eqn:He; [by left|]. right.
  split; [by rewrite bool_decide_eq_false_2 by lia|]. split; [lia|].
  rewrite py_getitem_nonneg by lia.
  apply lookup_lt_is_Some. lia.
Qed.

(** A mutation either redraws the menu, and the display list is then the
    flattened tree, or leaves the tree, the display list and the cursor as
    they are. *)
Lemma mutate_drawn fuel mu st :
  (11 ≤ fuel)%nat → drawn st →
  ∃ st',
    mutate fuel mu st = Some st' ∧
    (consistent st' ∨
     (menu_data st' = menu_data st ∧ display_items st' = display_items st ∧
      current_index st' = current_index st ∧
      menu_container st' = menu_container st)).
Proof.
  intros Hf Hst. pose proof Hst as (Hm & Hwf & Hd & Hc).
  destruct mu as [it|old_item new_item| |old_name new_name|]; cbn [mutate].
  - destruct (add_new_item_redraw fuel it st Hf Hm Hwf)
      as (v & n & _ & Hadd & Hcons).
    eexists. split; [exact Hadd|]. left. by apply consistent_notify.
  - pose proof (update_item_redraw fuel old_item new_item st Hf Hm Hwf) as Hupd.
    destruct (replace_first_match _ _ _ _) as [v|].
    + destruct Hupd as (n & Hupd & Hcons).
      eexists. split; [exact Hupd|]. left. by apply consistent_notify.
    + eexists. split; [exact Hupd|]. by right.
  - destruct (drawn_selection st Hst) as [Hns|(Hns & Hcur & e & Hsel)].
    { exists st. split; [|by right]. unfold action_delete_item.
      by rewrite Hns. }
    destruct e as [name|it].
    { exists (notify "Cannot delete categories directly" warning st).
      split; [|by right]. unfold action_delete_item.
      by rewrite Hns, Hsel. }
    destruct (dict_get (category it) (menu_data st)) as [cd|] eqn:Hg.
    + destruct (decide (it ∈ items cd)) as [Hin|Hnin].
      * destruct (action_delete_item_redraw fuel st it cd
                    Hf Hm Hwf Hns Hcur Hsel Hg Hin)
          as (st' & Hdel & _ & Hcons & _).
        exists st'. split; [done|by left].
      * exists st. split; [|by right].
        apply (action_delete_item_silent _ _ it Hsel). right. by exists cd.
    + exists st. split; [|by right].
      apply (action_delete_item_silent _ _ it Hsel). by left.
  - destruct (dict_get old_name (menu_data st)) as [cd|] eqn:Hg.
    + destruct (decide (new_name = old_name)) as [Heq|Hne].
      * exists st. split; [|by right]. apply rename_category_noop. by right.
      * destruct (rename_category_redraw fuel old_name new_name st cd
                    Hf Hm Hwf Hg Hne) as (v & n & Hren & Hcons & _).
        eexists. split; [exact Hren|]. left. by apply consistent_notify.
    + exists st. split; [|by right]. apply rename_category_noop. by left.
  - destruct (drawn_selection st Hst) as [Hns|(Hns & Hcur & e & Hsel)].
    { exists st. split; [|by right]. unfold action_toggle_category.
      by rewrite Hns. }
    destruct e as [name|it].
    + destruct (dict_get name (menu_data st)) as [cd|] eqn:Hg.
      * destruct (action_toggle_category_header fuel st name cd
                    Hf Hm Hwf Hns Hsel Hg) as (n & i & Htog & Hi & Hl).
        eexists. split; [exact Htog|]. left.
        set (v := dict_set name _ (menu_data st)) in *.
        assert (Hwfv : wf_menu v).
        { apply wf_menu_dict_set; [done|]. simpl.
          exact (wf_menu_items_nonempty _ _ _ Hwf Hg). }
        apply consistent_with_current_index.
        -- apply committed_consistent; [done|done|apply dict_set_nonempty].
        -- rewrite committed_display_items. unfold cursor_in_range.
           apply lookup_lt_Some in Hl.
           destruct (flatten v); simpl in *; lia.
      * exists st. split; [|by right]. unfold action_toggle_category.
        rewrite Hns, Hsel. cbn [mbind option_bind]. by rewrite Hg.
    + exists st. split; [|by right]. unfold action_toggle_category.
      by rewrite Hns, Hsel.
Qed.

Lemma drawn_unchanged st st' :
  drawn st →
  menu_data st' = menu_data st → display_items st' = display_items st →
  current_index st' = current_index st →
  menu_container st' = menu_container st →
  drawn st'.
Proof.
  intros (Hm & Hwf & Hd & Hc) Hmenu Hdisp Hcur Hcont.
  unfold drawn, shown. by rewrite Hmenu, Hdisp, Hcur, Hcont.
Qed.

Lemma acts_drawn st st' : drawn st → acts st st' → drawn st'.
Proof.
  intros Hst Hact.
  destruct Hact as [st st' Hkey|str_title result st|result st].
  - destruct Hkey as [fuel mu st st' Hf Hmu|fuel st st' Hf Hmove
                     |fuel st st' Hf Hmove].
    + destruct (mutate_drawn fuel mu st Hf Hst) as (s & Hs & Hcase).
      rewrite Hs in Hmu. injection Hmu as <-.
      destruct Hcase as [Hcons|(? & ? & ? & ?)].
      * by apply consistent_drawn.
      * by apply (drawn_unchanged st).
    + pose proof Hst as (_ & _ & _ & Hc). unfold action_cursor_up in Hmove.
      destruct (is_empty (display_items st)) eqn:He; cbn [negb] in Hmove;
        [by injection Hmove as <-|].
      case_bool_decide as Hnew; [|by injection Hmove as <-].
      rewrite set_current_index_spec in Hmove by lia. injection Hmove as <-.
      apply drawn_with_current_index; [done|].
      unfold cursor_in_range in *. rewrite He in *.
      unfold settled_index. rewrite He. case_bool_decide; [lia|].
      apply is_empty_false in He. by apply clamp_index_range.
    + pose proof Hst as (_ & _ & _ & Hc). unfold action_cursor_down in Hmove.
      destruct (is_empty (display_items st)) eqn:He; cbn [negb] in Hmove;
        [by injection Hmove as <-|].
      case_bool_decide as Hnew; [|by injection Hmove as <-].
      rewrite set_current_index_spec in Hmove by lia. injection Hmove as <-.
      apply drawn_with_current_index; [done|].
      unfold cursor_in_range in *. rewrite He in *.
      unfold settled_index. rewrite He. case_bool_decide; [lia|].
      apply is_empty_false in He. by apply clamp_index_range.
  - destruct result as [theme|]; [|done].
    apply (drawn_unchanged st); [done|..];
      unfold handle_theme_result, apply_theme, save_menu_data;
      by destruct (disk_writable _).
  - destruct result as [title|]; [|done].
    apply (drawn_unchanged st); [done|..];
      unfold handle_title_result, save_menu_data;
      by destruct (disk_writable _).
Qed.

Lemma start_drawn fuel disk w st :
  (20 ≤ fuel)%nat → dict_file disk →
  (st ← new_app fuel disk w; on_mount fuel st) = Some st →
  drawn st.
Proof.
  intros Hf Hdisk Hstart.
  assert (Hfuel : ∃ n, fuel = S (S (S n))).
  { do 3 (destruct fuel as [|fuel]; [lia|]). by eexists. }
  destruct Hfuel as [n ->].
  destruct (new_app_spec n disk w) as (s & Hs & Hmenu & Hcur).
  rewrite Hs in Hstart. cbn [mbind option_bind] in Hstart.
  unfold on_mount in Hstart.
  destruct (update_menu_display_any (S (S (S n))) (with_menu_container true s))
    as (s' & Hupd & Hm' & Hc' & Hd' & Hi'); [done|done| |].
  { cbn [menu_data with_menu_container]. rewrite Hmenu.
    destruct disk; [apply default_data_wf..|exact Hdisk]. }
  rewrite Hupd in Hstart. cbn [mbind option_bind] in Hstart.
  injection Hstart as <-. unfold update_status.
  cbn [menu_data current_index with_menu_container] in *.
  assert (Hwf : wf_menu (menu_data s')).
  { rewrite Hm'. apply filter_nonempty_wf. rewrite Hmenu.
    destruct disk; [apply default_data_wf..|exact Hdisk]. }
  split; [done|]. split; [done|]. split.
  - unfold shown. rewrite Hd'. destruct (decide _); auto.
  - rewrite Hi', Hcur, Hd'. unfold cursor_in_range, highlighted_index.
    destruct (flatten (menu_data s')) as [|e d] eqn:Hfl.
    + by destruct (decide _).
    + assert (Hne : e :: d ≠ []) by done.
      pose proof (clamp_index_range 0 _ Hne) as Hr.
      destruct (decide _); simpl is_empty; cbv iota; [done|].
      rewrite length_app. lia.
Qed.

(** Every state of every session is [drawn]. *)
Lemma session_drawn disk w st : session disk w st → drawn st.
Proof.
  induction 1 as [fuel st Hf Hdisk Hstart|st st' _ IH Hact].
  - by apply (start_drawn fuel disk w).
  - by apply (acts_drawn st).
Qed.

(** ** The cursor in every session *)

Lemma doubled_state_down (i : Z) (st : app) :
  action_cursor_down 11 (doubled_state i) = Some st →
  session cluttered_file true (doubled_state i) →
  session cluttered_file true st.
Proof.
  intros Hdown Hs. apply (session_next _ _ _ _ Hs).
  apply acts_key. by apply (handles_cursor_down 11%nat).
Qed.

Lemma doubled_state_session : session cluttered_file true (doubled_state 6).
Proof.
  apply (doubled_state_down 5); [vm_compute; reflexivity|].
  apply (doubled_state_down 4); [vm_compute; reflexivity|].
  apply (doubled_state_down 3); [vm_compute; reflexivity|].
  apply (doubled_state_down 2); [vm_compute; reflexivity|].
  apply (doubled_state_down 1); [vm_compute; reflexivity|].
  apply (doubled_state_down 0); [vm_compute; reflexivity|].
  apply (session_start _ _ 20%nat).
  - lia.
  - apply (bool_decide_unpack _). vm_compute. exact I.
  - vm_compute. reflexivity.
Qed.



(** X24.  Throughout a session, whatever tree the file holds at the start
    (its categories may be empty) and whether or not the disk can be
    written, the application is mounted, the tree has each category name
    once and no category without items, the display list is the flattened
    tree, once or twice over, and the cursor is 0 when the display list is
    empty and lies between 0 and the length of the display list minus one
    otherwise: the entry under the cursor is always there. *)
Theorem session_cursor_within_display disk w st :
  session disk w st →
  menu_container st = true ∧
  wf_menu (menu_data st) ∧
  (display_items st = flatten (menu_data st) ∨
   display_items st = flatten (menu_data st) ++ flatten (menu_data st)) ∧
  (display_items st = [] → current_index st = 0) ∧
  (display_items st ≠ [] →
   0 ≤ current_index st ≤ Z.of_nat (length (display_items st)) - 1).
Proof.
  intros Hs. destruct (session_drawn disk w st Hs) as (Hm & Hwf & Hd & Hc).
  split; [done|]. split; [done|]. split; [done|].
  unfold cursor_in_range in Hc. split.
  - intros Hnil. by rewrite Hnil in Hc.
  - intros Hne. apply is_empty_false in Hne. by rewrite Hne in Hc.
Qed.

Lemma session_cursor_within_display_witness :
  menu_container (doubled_state 6) = true ∧
  wf_menu (menu_data (doubled_state 6)) ∧
  (display_items (doubled_state 6) = flatten (menu_data (doubled_state 6)) ∨
   display_items (doubled_state 6) =
     flatten (menu_data (doubled_state 6)) ++
     flatten (menu_data (doubled_state 6))) ∧
  (display_items (doubled_state 6) = [] →
   current_index (doubled_state 6) = 0) ∧
  (display_items (doubled_state 6) ≠ [] →
   0 ≤ current_index (doubled_state 6)
     ≤ Z.of_nat (length (display_items (doubled_state 6))) - 1).
Proof.
  apply (session_cursor_within_display cluttered_file true (doubled_state 6)).
  exact doubled_state_session.
Defined.

(** ** Bytes and text *)

Lemma ord_range c : 0 ≤ ord c < 256.
Proof.
  unfold ord. pose proof (N_ascii_bounded c). lia.
Qed.

Lemma chr_ord c : chr (ord c) = c.
Proof. unfold chr, ord. rewrite N2Z.id. apply ascii_N_embedding. Qed.

Lemma ord_chr n : 0 ≤ n < 256 → ord (chr n) = n.
Proof.
  intros Hn. unfold chr, ord. rewrite N_ascii_embedding by lia. lia.
Qed.

Lemma str_app_cons c s t : String c s +:+ t = String c (s +:+ t).
Proof. done. Qed.

Lemma str_app_nil_l s : "" +:+ s = s.
Proof. done. Qed.

Lemma str_app_nil_r s : s +:+ "" = s.
Proof. induction s as [|c s IH]; [done|]. by rewrite str_app_cons, IH. Qed.

Lemma str_app_assoc s t u : (s +:+ t) +:+ u = s +:+ t +:+ u.
Proof. induction s as [|c s IH]; [done|]. by rewrite !str_app_cons, IH. Qed.

Lemma str_app_length s t :
  String.length (s +:+ t) = (String.length s + String.length t)%nat.
Proof. induction s as [|c s IH]; [done|]. rewrite str_app_cons. simpl. by rewrite IH. Qed.

(** ** UTF-8 *)

Lemma scalar_value_range n : scalar_value n = true → 0 ≤ n < 0x110000.
Proof. unfold scalar_value. intros H. repeat (apply andb_true_iff in H as [H ?]). lia. Qed.

(** The first character of a [str] and the bytes it takes. *)
Lemma utf8_decode_cons s n cps :
  utf8_decode s = Some (n :: cps) →
  ∃ s', s = utf8_char n +:+ s' ∧ utf8_decode s' = Some cps ∧
        scalar_value n = true.
Proof.
  destruct s as [|c0 s1]; [done|]. cbn [utf8_decode].
  pose proof (ord_range c0) as H0.
  pose proof (chr_ord c0) as E0.
  set (b0 := ord c0) in *. clearbody b0.
  destruct (b0 <? 0x80) eqn:C0.
  { destruct (utf8_decode s1) as [l|] eqn:Hs1; [|done].
    intros [= <- <-]. exists s1. unfold utf8_char, scalar_value.
    rewrite C0, E0. split; [done|]. split; [done|]. lia. }
  destruct s1 as [|c1 s2]; [done|].
  pose proof (ord_range c1) as H1.
  pose proof (chr_ord c1) as E1.
  set (b1 := ord c1) in *. clearbody b1.
  unfold continuation.
  destruct (b0 <? 0xE0) eqn:C1.
  { destruct (_ && _) eqn:Hc; [|done].
    destruct (utf8_decode s2) as [l|] eqn:Hs2; [|done].
    intros [= <- <-]. exists s2. unfold utf8_char, scalar_value.
    repeat (apply andb_true_iff in Hc as [Hc ?]).
    replace ((b0 - 192) * 64 + (b1 - 128) <? 128) with false by lia.
    replace ((b0 - 192) * 64 + (b1 - 128) <? 2048) with true by lia.
    replace (192 + ((b0 - 192) * 64 + (b1 - 128)) / 64) with b0 by (Z.div_mod_to_equations; lia).
    replace (128 + ((b0 - 192) * 64 + (b1 - 128)) mod 64) with b1 by (Z.div_mod_to_equations; lia).
    rewrite E0, E1. split; [done|]. split; [done|]. lia. }
  destruct s2 as [|c2 s3]; [done|].
  pose proof (ord_range c2) as H2.
  pose proof (chr_ord c2) as E2.
  set (b2 := ord c2) in *. clearbody b2.
  destruct (b0 <? 0xF0) eqn:C2.
  { destruct (_ && _) eqn:Hc; [|done].
    destruct (utf8_decode s3) as [l|] eqn:Hs3; [|done].
    intros [= <- <-]. exists s3.
    repeat (apply andb_true_iff in Hc as [Hc ?]).
    split; [|done]. unfold utf8_char.
    set (n := (b0 - 224) * 4096 + (b1 - 128) * 64 + (b2 - 128)) in *.
    replace (n <? 128) with false by lia.
    replace (n <? 2048) with false by lia.
    replace (n <? 65536) with true by lia.
    replace (224 + n / 4096) with b0 by (Z.div_mod_to_equations; lia).
    replace (128 + n / 64 mod 64) with b1 by (Z.div_mod_to_equations; lia).
    replace (128 + n mod 64) with b2 by (Z.div_mod_to_equations; lia).
    by rewrite E0, E1, E2. }
  destruct s3 as [|c3 s4]; [done|].
  pose proof (ord_range c3) as H3.
  pose proof (chr_ord c3) as E3.
  set (b3 := ord c3) in *. clearbody b3.
  destruct (_ && _) eqn:Hc; [|done].
  destruct (utf8_decode s4) as [l|] eqn:Hs4; [|done].
  intros [= <- <-]. exists s4.
  repeat (apply andb_true_iff in Hc as [Hc ?]).
  split; [|done]. unfold utf8_char.
  set (n := (b0 - 240) * 262144 + (b1 - 128) * 4096 + (b2 - 128) * 64
            + (b3 - 128)) in *.
  replace (n <? 128) with false by lia.
  replace (n <? 2048) with false by lia.
  replace (n <? 65536) with false by lia.
  replace (240 + n / 262144) with b0 by (Z.div_mod_to_equations; lia).
  replace (128 + n / 4096 mod 64) with b1 by (Z.div_mod_to_equations; lia).
  replace (128 + n / 64 mod 64) with b2 by (Z.div_mod_to_equations; lia).
  replace (128 + n mod 64) with b3 by (Z.div_mod_to_equations; lia).
  by rewrite E0, E1, E2, E3.
Qed.

Lemma utf8_decode_nil s : utf8_decode s = Some [] → s = "".
Proof.
  destruct s as [|c0 s1]; [done|]. cbn [utf8_decode].
  repeat (case_match; try done);
    repeat match goal with
           | H : context [utf8_decode ?s] |- _ => destruct (utf8_decode s); simplify_eq/=
           | |- context [utf8_decode ?s] => destruct (utf8_decode s); simplify_eq/=
           end; done.
Qed.

(** ** Escapes *)

Lemma hex_value_digit d : 0 ≤ d < 16 → hex_value (hex_digit d) = Some d.
Proof.
  intros Hd. unfold hex_value, hex_digit.
  destruct (d <? 10) eqn:C; rewrite ord_chr by lia.
  - replace ((48 <=? 48 + d) && (48 + d <=? 57)) with true by lia.
    f_equal. lia.
  - replace ((48 <=? 87 + d) && (87 + d <=? 57)) with false by lia.
    replace ((97 <=? 87 + d) && (87 + d <=? 102)) with true by lia.
    f_equal. lia.
Qed.

Lemma hex_digit_ascii d : 0 ≤ d < 16 → ord (hex_digit d) < 0x80.
Proof.
  intros Hd. unfold hex_digit.
  destruct (d <? 10) eqn:C; rewrite ord_chr by lia; lia.
Qed.

Lemma decode_u_escape n :
  0 ≤ n < 0x10000 →
  decode_uXXXX (hex_digit (n / 4096)) (hex_digit (n / 256 mod 16))
               (hex_digit (n / 16 mod 16)) (hex_digit (n mod 16)) = Some n.
Proof.
  intros Hn. unfold decode_uXXXX.
  rewrite !hex_value_digit by (Z.div_mod_to_equations; lia).
  cbn [mbind option_bind]. f_equal. Z.div_mod_to_equations. lia.
Qed.

(** The surrogates the encoder writes for a character beyond U+FFFF, and
    the character the decoder puts together from them. *)
Lemma high_surrogate_eq n :
  0 ≤ n < 0x100000 →
  Z.lor 0xD800 (Z.land (Z.shiftr n 10) 0x3FF) = 0xD800 + n / 1024.
Proof.
  intros Hn. rewrite Z.shiftr_div_pow2 by lia.
  change 0x3FF with (Z.ones 10). rewrite Z.land_ones by lia.
  change (2 ^ 10) with 1024.
  rewrite Z.mod_small by (Z.div_mod_to_equations; lia).
  symmetry. apply Z.add_nocarry_lor.
  apply Z.bits_inj'. intros k Hk. rewrite Z.land_spec, Z.bits_0.
  destruct (decide (k < 10)).
  - change 0xD800 with (Z.shiftl 54 10).
    rewrite Z.shiftl_spec_low by lia. done.
  - rewrite (Z.bits_above_log2 (n / 1024)); [apply andb_false_r| |].
    + Z.div_mod_to_equations. lia.
    + destruct (decide (n / 1024 = 0)) as [->|]; [simpl; lia|].
      apply Z.log2_lt_pow2; [Z.div_mod_to_equations; lia|].
      apply Z.lt_le_trans with (2 ^ 10); [Z.div_mod_to_equations; lia|].
      apply Z.pow_le_mono_r; lia.
Qed.

Lemma low_surrogate_eq n :
  0 ≤ n →
  Z.lor 0xDC00 (Z.land n 0x3FF) = 0xDC00 + n mod 1024.
Proof.
  intros Hn. change 0x3FF with (Z.ones 10). rewrite Z.land_ones by lia.
  change (2 ^ 10) with 1024.
  symmetry. apply Z.add_nocarry_lor.
  apply Z.bits_inj'. intros k Hk. rewrite Z.land_spec, Z.bits_0.
  destruct (decide (k < 10)).
  - change 0xDC00 with (Z.shiftl 55 10).
    rewrite Z.shiftl_spec_low by lia. done.
  - change 1024 with (2 ^ 10). rewrite Z.mod_pow2_bits_high by lia.
    apply andb_false_r.
Qed.

Lemma join_surrogates_eq a b :
  0 ≤ a → 0 ≤ b < 1024 →
  Z.lor (Z.shiftl a 10) b = a * 1024 + b.
Proof.
  intros Ha Hb. rewrite Z.shiftl_mul_pow2 by lia. change (2 ^ 10) with 1024.
  symmetry. apply Z.add_nocarry_lor.
  apply Z.bits_inj'. intros k Hk. rewrite Z.land_spec, Z.bits_0.
  destruct (decide (k < 10)).
  - change 1024 with (2 ^ 10). rewrite Z.mul_pow2_bits_low by lia. done.
  - rewrite (Z.bits_above_log2 b); [apply andb_false_r|lia|].
    destruct (decide (b = 0)) as [->|]; [simpl; lia|].
    apply Z.log2_lt_pow2; [lia|].
    apply Z.lt_le_trans with (2 ^ 10); [lia|].
    apply Z.pow_le_mono_r; lia.
Qed.


(** ** Reading back what [encode_basestring_ascii] writes *)

Lemma scanstring_plain c X :
  ord c ≠ 0x22 → ord c ≠ 0x5C → 0x20 ≤ ord c →
  scanstring (String c X) =
    '(chunks, rest) ← scanstring X; Some (String c chunks, rest).
Proof.
  intros H1 H2 H3. cbn [scanstring].
  replace (ord c =? 0x22) with false by lia.
  replace (ord c =? 0x5C) with false by lia.
  replace (ord c <? 0x20) with false by lia.
  done.
Qed.

Lemma scanstring_u_escape n X :
  0 ≤ n < 0x10000 → ¬ (0xD800 ≤ n ≤ 0xDFFF) →
  scanstring (u_escape n +:+ X) =
    '(chunks, rest) ← scanstring X; Some (utf8_char n +:+ chunks, rest).
Proof.
  intros Hn Hs. unfold u_escape, backslash.
  rewrite !str_app_cons, str_app_nil_l, !str_app_cons, str_app_nil_l.
  cbn [scanstring].
  change (ord "092" =? 0x22) with false.
  change (ord "092" =? 0x5C) with true.
  change (ord "u" =? 0x75) with true.
  cbv iota.
  rewrite decode_u_escape by done. cbn [mbind option_bind].
  replace ((0xD800 <=? n) && (n <=? 0xDBFF)) with false by lia.
  replace ((0xDC00 <=? n) && (n <=? 0xDFFF)) with false by lia.
  done.
Qed.

Lemma scanstring_surrogate_pair n X :
  0x10000 ≤ n < 0x110000 →
  scanstring
    ((u_escape (Z.lor 0xD800 (Z.land (Z.shiftr (n - 0x10000) 10) 0x3FF)) +:+
      u_escape (Z.lor 0xDC00 (Z.land (n - 0x10000) 0x3FF))) +:+ X) =
    '(chunks, rest) ← scanstring X; Some (utf8_char n +:+ chunks, rest).
Proof.
  intros Hn.
  rewrite high_surrogate_eq, low_surrogate_eq by lia.
  set (m := n - 0x10000).
  assert (Hm : 0 ≤ m < 0x100000) by lia.
  assert (Hhi : 0 ≤ m / 1024 < 1024) by (Z.div_mod_to_equations; lia).
  assert (Hlo : 0 ≤ m mod 1024 < 1024) by (Z.div_mod_to_equations; lia).
  unfold u_escape, backslash.
  rewrite !str_app_cons, !str_app_nil_l, !str_app_cons, !str_app_nil_l.
  rewrite !str_app_cons, !str_app_nil_l.
  cbn [scanstring].
  change (ord "092" =? 0x22) with false.
  change (ord "092" =? 0x5C) with true.
  change (ord "u" =? 0x75) with true.
  cbv iota.
  rewrite (decode_u_escape (0xD800 + m / 1024)) by lia.
  rewrite (decode_u_escape (0xDC00 + m mod 1024)) by lia.
  cbn [mbind option_bind].
  replace ((0xD800 <=? 0xD800 + m / 1024) && (0xD800 + m / 1024 <=? 0xDBFF))
    with true by lia.
  replace ((0xDC00 <=? 0xDC00 + m mod 1024) &&
           (0xDC00 + m mod 1024 <=? 0xDFFF)) with true by lia.
  cbv iota.
  replace (0xD800 + m / 1024 - 0xD800) with (m / 1024) by lia.
  replace (0xDC00 + m mod 1024 - 0xDC00) with (m mod 1024) by lia.
  rewrite join_surrogates_eq by lia.
  replace (0x10000 + (m / 1024 * 1024 + m mod 1024)) with n
    by (unfold m; Z.div_mod_to_equations; lia).
  done.
Qed.

Lemma scanstring_escape_char n X :
  scalar_value n = true →
  scanstring (escape_char n +:+ X) =
    '(chunks, rest) ← scanstring X; Some (utf8_char n +:+ chunks, rest).
Proof.
  intros Hs. pose proof (scalar_value_range _ Hs) as Hr.
  unfold scalar_value in Hs.
  unfold escape_char.
  destruct (n =? 0x5C) eqn:C1; [apply Z.eqb_eq in C1 as ->; reflexivity|].
  destruct (n =? 0x22) eqn:C2; [apply Z.eqb_eq in C2 as ->; reflexivity|].
  destruct (n =? 0x08) eqn:C3; [apply Z.eqb_eq in C3 as ->; reflexivity|].
  destruct (n =? 0x0C) eqn:C4; [apply Z.eqb_eq in C4 as ->; reflexivity|].
  destruct (n =? 0x0A) eqn:C5; [apply Z.eqb_eq in C5 as ->; reflexivity|].
  destruct (n =? 0x0D) eqn:C6; [apply Z.eqb_eq in C6 as ->; reflexivity|].
  destruct (n =? 0x09) eqn:C7; [apply Z.eqb_eq in C7 as ->; reflexivity|].
  destruct ((0x20 <=? n) && (n <=? 0x7E)) eqn:C8.
  - rewrite str_app_cons, str_app_nil_l.
    rewrite scanstring_plain by (rewrite ord_chr; lia).
    unfold utf8_char. replace (n <? 0x80) with true by lia. done.
  - destruct (n <? 0x10000) eqn:C9.
    + apply scanstring_u_escape; lia.
    + cbv zeta. apply scanstring_surrogate_pair. lia.
Qed.

Lemma scanstring_escaped s cps X :
  utf8_decode s = Some cps →
  scanstring (String.concat "" (escape_char <$> cps) +:+ quote +:+ X) =
    Some (s, X).
Proof.
  revert s. induction cps as [|n cps IH]; intros s Hs.
  - apply utf8_decode_nil in Hs as ->. reflexivity.
  - apply utf8_decode_cons in Hs as (s' & -> & Hs' & Hn).
    assert (Hconcat : ∀ (x : string) l,
              String.concat "" (x :: l) = x +:+ String.concat "" l).
    { intros x [|y l]; simpl; [by rewrite str_app_nil_r|done]. }
    rewrite fmap_cons, Hconcat, str_app_assoc.
    rewrite scanstring_escape_char by done.
    rewrite (IH s' Hs'). done.
Qed.

(** [encode_basestring_ascii], from its opening quote on. *)
Lemma encode_basestring_ascii_cons s :
  encode_basestring_ascii s =
    String "034" (String.concat "" (escape_char <$> code_points s) +:+ quote).
Proof. done. Qed.

Lemma scanstring_encoded s X :
  is_str s = true →
  scanstring ((String.concat "" (escape_char <$> code_points s) +:+ quote)
              +:+ X) = Some (s, X).
Proof.
  intros Hs. unfold is_str, code_points in *.
  destruct (utf8_decode s) as [cps|] eqn:Hd; [|done].
  rewrite str_app_assoc. by apply scanstring_escaped.
Qed.


(** ** White space and the first character of a value *)

Lemma skip_whitespace_spaces n Y :
  skip_whitespace (str_repeat indent_unit n +:+ Y) = skip_whitespace Y.
Proof. induction n as [|n IH]; [done|]. exact IH. Qed.

(** The white space the encoder writes before a value or a closing
    bracket. *)
Lemma skip_whitespace_indent n c Y :
  is_whitespace c = false →
  skip_whitespace (newline +:+ str_repeat indent_unit n +:+ String c Y) =
    String c Y.
Proof.
  intros Hc.
  change (skip_whitespace (str_repeat indent_unit n +:+ String c Y) =
          String c Y).
  rewrite skip_whitespace_spaces. simpl. by rewrite Hc.
Qed.

Lemma skip_whitespace_solid c Y :
  is_whitespace c = false → skip_whitespace (String c Y) = String c Y.
Proof. intros Hc. simpl. by rewrite Hc. Qed.

Lemma value_start_solid c :
  value_start c →
  is_whitespace c = false ∧ c ≠ "]"%char ∧ c ≠ "}"%char ∧ c ≠ ","%char.
Proof.
  unfold value_start. rewrite !elem_of_cons, elem_of_nil.
  intros [->|[->|[->|[->|[->|[->|[]]]]]]]; done.
Qed.

Lemma iterencode_start v level :
  ∃ c Y, iterencode v level = String c Y ∧ value_start c.
Proof.
  unfold value_start.
  destruct v as [|[]|s|[|x lst]|[|kv dct]]; cbn [iterencode is_empty];
    eexists _, _; (split; [reflexivity|]); rewrite !elem_of_cons; auto 10.
Qed.

Lemma skip_whitespace_value v level Z :
  skip_whitespace (iterencode v level +:+ Z) = iterencode v level +:+ Z.
Proof.
  destruct (iterencode_start v level) as (c & Y & -> & Hstart).
  destruct (value_start_solid _ Hstart) as (Hws & _).
  rewrite str_app_cons. by apply skip_whitespace_solid.
Qed.

Lemma concat_cons_app (sep x : string) l Z :
  String.concat sep (x :: l) +:+ Z =
    x +:+ match l with
          | [] => Z
          | _ :: _ => sep +:+ String.concat sep l +:+ Z
          end.
Proof.
  destruct l; simpl; [done|]. by rewrite !str_app_assoc.
Qed.

(** ** Reading back what [iterencode] writes *)

Lemma scan_once_str fuel Y :
  scan_once (S fuel) (String "034" Y) =
    '(str, rest) ← scanstring Y; Some (PyStr str, rest).
Proof. done. Qed.

Lemma scan_once_list fuel Y :
  scan_once (S fuel) (String "[" Y) =
    match skip_whitespace Y with
    | String c rest' =>
        if bool_decide (c = "]"%char) then Some (PyList [], rest')
        else
          '(values, rest) ← scan_array fuel (String c rest');
          Some (PyList values, rest)
    | "" => None
    end.
Proof. done. Qed.

Lemma scan_once_dict fuel Y :
  scan_once (S fuel) (String "{" Y) =
    match skip_whitespace Y with
    | String c rest =>
        if bool_decide (c = "}"%char) then Some (PyDict [], rest)
        else if bool_decide (c = "034"%char) then
          '(pairs, rest) ← scan_object fuel rest;
          Some (PyDict (dict_of_pairs pairs), rest)
        else None
    | "" => None
    end.
Proof. done. Qed.

Lemma scan_array_S fuel s :
  scan_array (S fuel) s =
    '(value, s) ← scan_once fuel s;
    match skip_whitespace s with
    | String c s =>
        if bool_decide (c = "]"%char) then Some ([value], s)
        else if bool_decide (c = ","%char) then
          '(values, s) ← scan_array fuel (skip_whitespace s);
          Some (value :: values, s)
        else None
    | "" => None
    end.
Proof. done. Qed.

Lemma scan_object_S fuel s :
  scan_object (S fuel) s =
    '(key, s) ← scanstring s;
    match skip_whitespace s with
    | String c s =>
        if bool_decide (c = ":"%char) then
          '(value, s) ← scan_once fuel (skip_whitespace s);
          match skip_whitespace s with
          | String c s =>
              if bool_decide (c = "}"%char) then Some ([(key, value)], s)
              else if bool_decide (c = ","%char) then
                match skip_whitespace s with
                | String c s =>
                    if bool_decide (c = "034"%char) then
                      '(pairs, s) ← scan_object fuel s;
                      Some ((key, value) :: pairs, s)
                    else None
                | "" => None
                end
              else None
          | "" => None
          end
        else None
    | "" => None
    end.
Proof. done. Qed.

Lemma dict_of_pairs_NoDup {V} (pairs : list (string * V)) :
  NoDup pairs.*1 → dict_of_pairs pairs = pairs.
Proof.
  unfold dict_of_pairs.
  assert (H : ∀ acc : list (string * V), NoDup (acc ++ pairs).*1 →
            fold_left (fun d kv => dict_set kv.1 kv.2 d) pairs acc =
            acc ++ pairs).
  { induction pairs as [|[k v] pairs IH]; intros acc Hnd; simpl.
    - by rewrite app_nil_r.
    - rewrite fmap_app in Hnd. csimpl in Hnd.
      rewrite dict_set_fresh.
      + rewrite IH; [by rewrite <- app_assoc|].
        by rewrite <- app_assoc, fmap_app.
      + apply NoDup_app in Hnd as (_ & Hdisj & _).
        intros Hk. apply (Hdisj _ Hk). apply list_elem_of_here. }
  intros Hnd. by rewrite (H []).
Qed.

Lemma scan_round_trip fuel :
  (∀ v level X,
     json_representable v = true → (py_size v ≤ fuel)%nat →
     scan_once fuel (iterencode v level +:+ X) = Some (v, X)) ∧
  (∀ x lst level n X,
     forallb json_representable (x :: lst) = true →
     (list_size (x :: lst) ≤ fuel)%nat →
     scan_array fuel
       (String.concat ("," +:+ newline +:+ str_repeat indent_unit level)
          ((fun value => iterencode value level) <$> (x :: lst)) +:+
        newline +:+ str_repeat indent_unit n +:+ String "]" X) =
       Some (x :: lst, X)) ∧
  (∀ kv dct level n X,
     forallb (fun kv => is_str kv.1 && json_representable kv.2)
             (kv :: dct) = true →
     (dict_size (kv :: dct) ≤ fuel)%nat →
     ∃ Y,
       String.concat ("," +:+ newline +:+ str_repeat indent_unit level)
         (encode_pair level <$> (kv :: dct)) +:+
       newline +:+ str_repeat indent_unit n +:+ String "}" X = String "034" Y ∧
       scan_object fuel Y = Some (kv :: dct, X)).
Proof.
  induction fuel as [|fuel (IHA & IHB & IHC)].
  { split; [|split].
    - intros v level X _ Hs. destruct v; simpl in Hs; lia.
    - intros x lst level n X _ Hs. unfold list_size in Hs. simpl in Hs. lia.
    - intros kv dct level n X _ Hs. unfold dict_size in Hs. simpl in Hs. lia. }
  split; [|split].
  - (* one value *)
    intros v level X Hv Hs.
    destruct v as [|[]|s|[|x lst]|[|kv dct]]; try reflexivity.
    + (* a string *)
      cbn [iterencode]. rewrite encode_basestring_ascii_cons, str_app_cons.
      rewrite scan_once_str, scanstring_encoded by done. done.
    + (* a list *)
      cbn [iterencode is_empty]. cbv zeta.
      rewrite !str_app_assoc.
      change ("]" +:+ X) with (String "]" X).
      change ("[" +:+ ?Y) with (String "[" Y).
      rewrite scan_once_list.
      pose proof (IHB x lst (S level) level X Hv) as Harr.
      destruct (iterencode_start x (S level)) as (c & Y & Hc & Hstart).
      destruct (value_start_solid _ Hstart) as (Hws & Hc1 & _).
      rewrite fmap_cons, concat_cons_app, Hc, (str_app_cons c Y) in Harr |- *.
      rewrite skip_whitespace_indent by done. cbv beta iota.
      rewrite bool_decide_eq_false_2 by done.
      rewrite Harr; [done|]. simpl in Hs. unfold list_size. simpl. lia.
    + (* a dict *)
      cbn [iterencode is_empty]. cbv zeta.
      cbn [json_representable] in Hv. apply andb_true_iff in Hv as [Hnd Hv].
      apply bool_decide_eq_true_1 in Hnd.
      rewrite !str_app_assoc.
      change ("}" +:+ X) with (String "}" X).
      change ("{" +:+ ?Y) with (String "{" Y).
      rewrite scan_once_dict.
      destruct (IHC kv dct (S level) level X Hv) as (Y & HY & Hobj).
      { simpl in Hs. unfold dict_size. simpl. lia. }
      change (fun kv0 : string * py_value =>
                encode_basestring_ascii kv0.1 +:+ ": " +:+
                iterencode kv0.2 (S level)) with (encode_pair (S level)).
      rewrite HY.
      rewrite skip_whitespace_indent by done. cbv beta iota.
      rewrite bool_decide_eq_false_2 by done.
      rewrite bool_decide_eq_true_2 by done.
      rewrite Hobj. cbn [mbind option_bind].
      by rewrite dict_of_pairs_NoDup.
  - (* the elements of a list *)
    intros x lst level n X Hv Hs.
    cbn [forallb] in Hv. apply andb_true_iff in Hv as [Hx Hl].
    unfold list_size in Hs. simpl in Hs.
    rewrite fmap_cons, concat_cons_app.
    rewrite scan_array_S. rewrite IHA by (done || lia).
    cbn [mbind option_bind].
    destruct lst as [|y lst].
    + rewrite fmap_nil.
      rewrite skip_whitespace_indent by done. cbv beta iota.
      by rewrite bool_decide_eq_true_2.
    + rewrite fmap_cons. rewrite !str_app_assoc.
      change ("," +:+ ?Y) with (String "," Y).
      rewrite skip_whitespace_solid by done. cbv beta iota.
      rewrite bool_decide_eq_false_2 by done.
      rewrite bool_decide_eq_true_2 by done.
      pose proof (IHB y lst level n X Hl) as Harr.
      destruct (iterencode_start y level) as (c & Y & Hc & Hstart).
      destruct (value_start_solid _ Hstart) as (Hws & _).
      rewrite fmap_cons, concat_cons_app, Hc, (str_app_cons c Y) in Harr.
      change (String "," (?a +:+ ?b)) with ("," +:+ a +:+ b) in Harr.
      rewrite concat_cons_app, Hc, (str_app_cons c Y).
      rewrite skip_whitespace_indent by done.
      rewrite Harr; [done|]. unfold list_size. lia.
  - (* the pairs of a dict *)
    intros [k v] dct level n X Hv Hs.
    cbn [forallb] in Hv. apply andb_true_iff in Hv as [Hkv Hd].
    apply andb_true_iff in Hkv as [Hk Hx]. simpl in Hk, Hx.
    unfold dict_size in Hs. simpl in Hs.
    rewrite fmap_cons, concat_cons_app. unfold encode_pair at 1.
    cbn [fst snd].
    rewrite encode_basestring_ascii_cons, !str_app_assoc.
    rewrite str_app_cons.
    eexists. split; [reflexivity|].
    rewrite scan_object_S.
    rewrite scanstring_encoded by done. cbn [mbind option_bind].
    change (": " +:+ ?Y) with (String ":" (String " " Y)).
    rewrite skip_whitespace_solid by done. cbv beta iota.
    rewrite bool_decide_eq_true_2 by done.
    change (skip_whitespace (String " " ?s)) with (skip_whitespace s).
    rewrite skip_whitespace_value.
    rewrite IHA by (done || lia). cbn [mbind option_bind].
    destruct dct as [|kv' dct].
    + rewrite fmap_nil.
      rewrite skip_whitespace_indent by done. cbv beta iota.
      by rewrite bool_decide_eq_true_2.
    + rewrite fmap_cons.
      change ("," +:+ ?Y) with (String "," Y).
      rewrite skip_whitespace_solid by done. cbv beta iota.
      rewrite bool_decide_eq_false_2 by done.
      rewrite bool_decide_eq_true_2 by done.
      destruct (IHC kv' dct level n X Hd) as (Y' & HY' & Hobj).
      { unfold dict_size. lia. }
      rewrite fmap_cons in HY'. rewrite HY'.
      rewrite skip_whitespace_indent by done. cbv beta iota.
      rewrite bool_decide_eq_true_2 by done.
      rewrite Hobj. done.
Qed.


(** ** The text [json.dump] writes is ASCII *)

Lemma all_ascii_app s t : all_ascii (s +:+ t) = all_ascii s && all_ascii t.
Proof.
  induction s as [|c s IH]; [done|].
  rewrite str_app_cons. simpl. rewrite IH. by rewrite andb_assoc.
Qed.

Lemma all_ascii_is_str s : all_ascii s = true → is_str s = true.
Proof.
  unfold is_str. induction s as [|c s IH]; [done|]. simpl.
  intros H. apply andb_true_iff in H as [Hc Hs]. rewrite Hc.
  specialize (IH Hs). by destruct (utf8_decode s).
Qed.

Lemma all_ascii_concat sep parts :
  all_ascii sep = true → Forall (fun p => all_ascii p = true) parts →
  all_ascii (String.concat sep parts) = true.
Proof.
  intros Hsep Hparts. induction Hparts as [|p parts Hp _ IH]; [done|].
  rewrite <- (str_app_nil_r (String.concat _ _)), concat_cons_app.
  rewrite all_ascii_app, Hp. destruct parts; [done|].
  by rewrite !all_ascii_app, Hsep, IH.
Qed.

Lemma all_ascii_str_repeat s n :
  all_ascii s = true → all_ascii (str_repeat s n) = true.
Proof.
  intros Hs. induction n as [|n IH]; [done|]. simpl.
  by rewrite all_ascii_app, Hs, IH.
Qed.

Lemma all_ascii_u_escape n : 0 ≤ n < 0x10000 → all_ascii (u_escape n) = true.
Proof.
  intros Hn. unfold u_escape. simpl.
  pose proof (hex_digit_ascii (n / 4096)).
  pose proof (hex_digit_ascii (n / 256 mod 16)).
  pose proof (hex_digit_ascii (n / 16 mod 16)).
  pose proof (hex_digit_ascii (n mod 16)).
  repeat (apply andb_true_intro; split); try done;
    apply Z.ltb_lt; auto with zarith;
    match goal with H : _ → ord (hex_digit ?d) < _ |- ord (hex_digit ?d) < _ =>
      apply H; Z.div_mod_to_equations; lia end.
Qed.

Lemma all_ascii_escape_char n :
  scalar_value n = true → all_ascii (escape_char n) = true.
Proof.
  intros Hs. pose proof (scalar_value_range _ Hs) as Hr.
  unfold escape_char.
  repeat (case_match; [done|]).
  case_match.
  { simpl. rewrite ord_chr by lia. rewrite andb_true_r. lia. }
  case_match.
  { apply all_ascii_u_escape. lia. }
  cbv zeta. rewrite high_surrogate_eq, low_surrogate_eq by lia.
  rewrite all_ascii_app, !all_ascii_u_escape;
    [done|Z.div_mod_to_equations; lia..].
Qed.

Lemma code_points_scalar s :
  Forall (fun n => scalar_value n = true) (code_points s).
Proof.
  unfold code_points. destruct (utf8_decode s) as [cps|] eqn:Hd; [|done].
  simpl. revert s Hd. induction cps as [|n cps IH]; intros s Hd; [done|].
  apply utf8_decode_cons in Hd as (s' & -> & Hd & Hn).
  constructor; [done|]. by apply (IH s').
Qed.

Lemma all_ascii_encode_basestring_ascii s :
  all_ascii (encode_basestring_ascii s) = true.
Proof.
  unfold encode_basestring_ascii. rewrite !all_ascii_app.
  rewrite all_ascii_concat; [done|done|].
  apply Forall_fmap. eapply Forall_impl; [apply code_points_scalar|].
  intros n Hn. by apply all_ascii_escape_char.
Qed.

Lemma all_ascii_iterencode n :
  ∀ v level, (py_size v ≤ n)%nat → all_ascii (iterencode v level) = true.
Proof.
  induction n as [|n IH]; intros v level Hs.
  { destruct v; simpl in Hs; lia. }
  destruct v as [|[]|s|lst|dct]; try done.
  - apply all_ascii_encode_basestring_ascii.
  - cbn [iterencode]. destruct lst as [|x lst]; [done|].
    cbn [is_empty]. cbv zeta.
    rewrite !all_ascii_app, !all_ascii_str_repeat by done.
    rewrite all_ascii_concat; [done| |].
    + by rewrite !all_ascii_app, all_ascii_str_repeat.
    + apply Forall_fmap, Forall_forall. intros y Hy. cbv beta. apply IH.
      cbn [py_size] in Hs.
      pose proof (sum_list_with_in _ (fun x => S (py_size x)) _ Hy). simpl in *.
      lia.
  - cbn [iterencode]. destruct dct as [|kv dct]; [done|].
    cbn [is_empty]. cbv zeta.
    rewrite !all_ascii_app, !all_ascii_str_repeat by done.
    rewrite all_ascii_concat; [done| |].
    + by rewrite !all_ascii_app, all_ascii_str_repeat.
    + apply Forall_fmap, Forall_forall. intros y Hy. unfold compose.
      rewrite !all_ascii_app, all_ascii_encode_basestring_ascii.
      rewrite IH; [done|].
      cbn [py_size] in Hs.
      pose proof (sum_list_with_in _ (fun kv : string * py_value => S (py_size kv.2)) _ Hy).
      simpl in *. lia.
Qed.

(** ** The text is long enough for the decoder's bound *)

Lemma concat_length sep (parts : list string) :
  (1 ≤ String.length sep)%nat →
  (sum_list_with (fun p => S (String.length p)) parts
   ≤ String.length (String.concat sep parts) + 1)%nat.
Proof.
  intros Hsep. induction parts as [|p parts IH]; [simpl; lia|].
  rewrite <- (str_app_nil_r (String.concat _ _)), concat_cons_app.
  cbn [sum_list_with]. rewrite str_app_length.
  destruct parts as [|q parts]; [simpl; lia|].
  rewrite !str_app_length. change (String.length "") with 0%nat. lia.
Qed.

Lemma py_size_length n :
  ∀ v level, (py_size v ≤ n)%nat →
             (py_size v ≤ String.length (iterencode v level))%nat.
Proof.
  induction n as [|n IH]; intros v level Hs.
  { destruct v; simpl in Hs; lia. }
  destruct v as [|[]|s|lst|dct]; try (simpl; lia).
  - cbn [iterencode]. destruct lst as [|x lst]; [simpl; lia|].
    cbn [is_empty]. cbv zeta. rewrite !str_app_length.
    set (sep := "," +:+ newline +:+ str_repeat indent_unit (S level)).
    set (parts := (fun value => iterencode value (S level)) <$> x :: lst).
    pose proof (concat_length sep parts) as Hlen.
    assert (Hsum : (sum_list_with (fun y => S (py_size y)) (x :: lst)
                    ≤ sum_list_with (fun p => S (String.length p)) parts)%nat).
    { cbn [py_size] in Hs.
      assert (Hall : Forall (fun y => (py_size y ≤ n)%nat) (x :: lst)).
      { apply Forall_forall. intros y Hy.
        pose proof (sum_list_with_in _ (fun x => S (py_size x)) _ Hy).
        simpl in *. lia. }
      clear Hs Hlen. unfold parts. clear parts.
      induction Hall as [|y l Hy _ IHl]; [done|].
      rewrite !fmap_cons. cbn [sum_list_with].
      pose proof (IH y (S level) Hy). lia. }
    cbn [py_size].
    assert (Hsep : (1 ≤ String.length sep)%nat)
      by (unfold sep; rewrite str_app_length; cbn [String.length]; lia).
    specialize (Hlen Hsep).
    change (String.length "[") with 1%nat.
    change (String.length "]") with 1%nat. lia.
  - cbn [iterencode]. destruct dct as [|kv dct]; [simpl; lia|].
    cbn [is_empty]. cbv zeta. rewrite !str_app_length.
    set (sep := "," +:+ newline +:+ str_repeat indent_unit (S level)).
    set (parts := (fun kv0 : string * py_value =>
                     encode_basestring_ascii kv0.1 +:+ ": " +:+
                     iterencode kv0.2 (S level)) <$> kv :: dct).
    pose proof (concat_length sep parts) as Hlen.
    assert (Hsum : (sum_list_with (fun y : string * py_value => S (py_size y.2)) (kv :: dct)
                    ≤ sum_list_with (fun p => S (String.length p)) parts)%nat).
    { cbn [py_size] in Hs.
      assert (Hall : Forall (fun y : string * py_value => (py_size y.2 ≤ n)%nat)
                            (kv :: dct)).
      { apply Forall_forall. intros y Hy.
        pose proof (sum_list_with_in _ (fun kv : string * py_value => S (py_size kv.2)) _ Hy).
        simpl in *. lia. }
      clear Hs Hlen. unfold parts. clear parts.
      induction Hall as [|y l Hy _ IHl]; [done|].
      rewrite !fmap_cons. cbn [sum_list_with]. rewrite !str_app_length.
      pose proof (IH y.2 (S level) Hy). lia. }
    cbn [py_size].
    assert (Hsep : (1 ≤ String.length sep)%nat)
      by (unfold sep; rewrite str_app_length; cbn [String.length]; lia).
    specialize (Hlen Hsep).
    change (String.length "{") with 1%nat.
    change (String.length "}") with 1%nat. lia.
Qed.

(** ** [json.load] after [json.dump] *)

Lemma json_loads_dump obj :
  json_representable obj = true → json_loads (json_dump obj) = Some obj.
Proof.
  intros Hv. unfold json_loads, json_dump.
  rewrite <- (str_app_nil_r (iterencode obj 0)) at 2.
  rewrite skip_whitespace_value.
  destruct (scan_round_trip (String.length (iterencode obj 0))) as [Hscan _].
  rewrite Hscan; [done|done|].
  by apply (py_size_length (py_size obj)).
Qed.

Lemma json_load_dump obj :
  json_representable obj = true → json_load (json_dump obj) = Some obj.
Proof.
  intros Hv. unfold json_load.
  rewrite all_ascii_is_str
    by (apply (all_ascii_iterencode (py_size obj)); done).
  by apply json_loads_dump.
Qed.


(** ** The document through the file *)

Lemma item_of_py_of_item it : item_of_py (py_of_item it) = Some it.
Proof. by destruct it as [l c i cat [b|]]. Qed.

Lemma category_of_py_of_category cd :
  category_of_py (py_of_category cd) = Some cd.
Proof.
  destruct cd as [e l]. unfold py_of_category, category_of_py. simpl.
  rewrite mapM_fmap_Some by apply item_of_py_of_item. done.
Qed.

Lemma menu_of_py_of_menu (m : menu) : menu_of_py (py_of_menu m) = Some m.
Proof.
  unfold py_of_menu, menu_of_py. apply mapM_fmap_Some.
  intros [k cd]. cbn [fst snd]. by rewrite category_of_py_of_category.
Qed.

Lemma document_of_py_save_data st :
  document_of_py (save_data st) = Some (document_of st).
Proof.
  unfold save_data, document_of, document_of_py.
  pose proof (menu_of_py_of_menu (menu_data st)) as Hm. revert Hm.
  generalize (py_of_menu (menu_data st)). intros v Hv.
  simpl. by rewrite Hv.
Qed.

Lemma json_representable_item it :
  forallb is_str (item_strings it) = true →
  json_representable (py_of_item it) = true.
Proof.
  destruct it as [l c i cat p]. unfold item_strings. simpl.
  intros H. repeat (apply andb_true_iff in H as [? H]).
  by destruct p as [b|]; simpl; repeat (apply andb_true_intro; split).
Qed.

Lemma json_representable_menu (m : menu) :
  NoDup m.*1 → forallb is_str (menu_strings m) = true →
  json_representable (py_of_menu m) = true.
Proof.
  intros Hnd Hs. unfold py_of_menu. cbn [json_representable].
  apply andb_true_intro. split.
  - apply bool_decide_eq_true_2. by rewrite <- list_fmap_compose.
  - clear Hnd. induction m as [|[k cd] m IH]; [done|].
    unfold menu_strings in Hs. rewrite bind_cons in Hs. simpl in Hs.
    apply andb_true_iff in Hs as [Hk Hs].
    rewrite forallb_app in Hs. apply andb_true_iff in Hs as [Hi Hm].
    rewrite fmap_cons. cbn [forallb]. rewrite IH by done.
    rewrite andb_true_r. simpl. rewrite Hk. simpl.
    rewrite andb_true_r.
    clear IH Hm. induction (items cd) as [|it l IHl]; [done|].
    rewrite bind_cons, forallb_app in Hi.
    apply andb_true_iff in Hi as [Hit Hl].
    rewrite fmap_cons. cbn [forallb].
    by rewrite json_representable_item, IHl.
Qed.

Lemma json_representable_save_data st :
  NoDup (menu_data st).*1 → forallb is_str (stored_strings st) = true →
  json_representable (save_data st) = true.
Proof.
  intros Hnd Hs. unfold stored_strings in Hs. simpl in Hs.
  apply andb_true_iff in Hs as [Hth Hs].
  apply andb_true_iff in Hs as [Hti Hs].
  unfold save_data. cbn [json_representable].
  rewrite bool_decide_eq_true_2
    by (apply (bool_decide_unpack _); by vm_compute).
  cbn [forallb fst snd andb].
  change (is_str "categories") with true.
  change (is_str "app_settings") with true.
  rewrite json_representable_menu by done.
  cbn [json_representable forallb fst snd andb].
  rewrite bool_decide_eq_true_2
    by (apply (bool_decide_unpack _); by vm_compute).
  change (is_str "theme") with true. change (is_str "title") with true.
  by rewrite Hth, Hti.
Qed.

Lemma new_app_on_saved_file n st w :
  disk_writable st = true →
  ∃ st',
    new_app (S (S (S n))) (config_file (save_menu_data st)) w = Some st' ∧
    menu_data st' = menu_data st ∧
    app_theme st' = app_theme st ∧
    app_title st' = app_title st.
Proof.
  intros Hw. rewrite save_menu_data_writable by done.
  cbn [config_file with_config_file].
  unfold new_app, load_menu_data.
  cbn [config_file init_fields document_of doc_categories doc_app_settings
       default].
  change (id (menu_data st)) with (menu_data st).
  destruct (set_menu_data_init n (menu_data st)
              (Stored (document_of st)) w) as (s & Hs & ->).
  rewrite Hs. cbn [mbind option_bind].
  eexists. split; [done|]. done.
Qed.

(** The settings of a first start, as [json.dump] writes them. *)
Example json_dump_settings :
  json_dump (PyDict [("theme", PyStr default_theme);
                     ("title", PyStr default_title);
                     ("seen", PyList [PyBool true; PyNone]);
                     ("empty", PyDict [])]) =
  String.concat newline
    ["{";
     "  " +:+ quote +:+ "theme" +:+ quote +:+ ": " +:+
        quote +:+ "classic" +:+ quote +:+ ",";
     "  " +:+ quote +:+ "title" +:+ quote +:+ ": " +:+
        quote +:+ "Menu Maker " +:+ backslash +:+
        "u2014 Enhanced Categorized Menu System" +:+ quote +:+ ",";
     "  " +:+ quote +:+ "seen" +:+ quote +:+ ": [";
     "    true,";
     "    null";
     "  ],";
     "  " +:+ quote +:+ "empty" +:+ quote +:+ ": {}";
     "}"].
Proof. vm_compute. reflexivity. Qed.

(** C2.  The text [save_menu_data] writes, [json.dump] with [indent=2] of
    the dict it builds from the tree, the theme and the title, is read
    back by [json.load] as that very dict; what [load_menu_data] takes
    from the dict is the document of the state, which is what the file
    of the model holds after the save; and a new application started on
    that file has the tree, the theme and the title that were saved.
    The write succeeds, the tree is a dict (each category name once) and
    the strings are Python strings. *)
Theorem save_load_round_trip n st w :
  disk_writable st = true →
  NoDup (menu_data st).*1 →
  forallb is_str (stored_strings st) = true →
  ∃ data st',
    json_load (saved_text st) = Some data ∧
    data = save_data st ∧
    document_of_py data = Some (document_of st) ∧
    file_of_text (saved_text st) = Some (config_file (save_menu_data st)) ∧
    config_file (save_menu_data st) = Stored (document_of st) ∧
    new_app (S (S (S n))) (config_file (save_menu_data st)) w = Some st' ∧
    menu_data st' = menu_data st ∧
    app_theme st' = app_theme st ∧
    app_title st' = app_title st.
Proof.
  intros Hw Hnd Hs.
  destruct (new_app_on_saved_file n st w Hw) as (st' & Hnew & Hm & Hth & Hti).
  assert (Hload : json_load (saved_text st) = Some (save_data st)).
  { by apply json_load_dump, json_representable_save_data. }
  exists (save_data st), st'.
  split; [done|]. split; [done|]. split; [apply document_of_py_save_data|].
  split.
  { unfold file_of_text. rewrite Hload. cbn [mbind option_bind].
    rewrite document_of_py_save_data.
    by rewrite save_menu_data_writable. }
  split; [by rewrite save_menu_data_writable|]. done.
Qed.

Lemma save_load_round_trip_witness :
  ∃ data st',
    json_load (saved_text twin_state) = Some data ∧
    data = save_data twin_state ∧
    document_of_py data = Some (document_of twin_state) ∧
    file_of_text (saved_text twin_state) =
      Some (config_file (save_menu_data twin_state)) ∧
    config_file (save_menu_data twin_state) =
      Stored (document_of twin_state) ∧
    new_app 3 (config_file (save_menu_data twin_state)) true = Some st' ∧
    menu_data st' = menu_data twin_state ∧
    app_theme st' = app_theme twin_state ∧
    app_title st' = app_title twin_state.
Proof.
  apply (save_load_round_trip 0 twin_state true).
  - reflexivity.
  - apply (bool_decide_unpack _). vm_compute. exact I.
  - vm_compute. reflexivity.
Defined.
